(** * The decision-and-risk pipeline of the NBA betting agent

    A shallow embedding of [agent/modules/reasoning.py],
    [agent/modules/risk_management.py], [agent/modules/execution.py],
    [agent/controller.py] and the main loop of [agent/agent.py], followed by
    the properties of the specification that concern them.

    Conventions of the embedding.
    - Python numbers (ints and floats) are exact rationals [Q]; rounding of
      binary floating point is not modelled.  Equality of numbers is [Qeq].
    - A Python exception is a value [Raise e] of the result type [Exc]; a
      division whose divisor is zero raises [ZeroDivisionError] as in Python.
    - A Python dict read through [.get] is a [gmap] from strings to values;
      a dict with a fixed set of keys written by one function is a record.
    - Logging and the persona formatter only build strings; they are left
      out, an f-string that a property mentions is kept as a list of
      fragments. *)

From stdpp Require Import base option list strings gmap.
From Stdlib Require Import QArith Qabs Qminmax Lqa.

Open Scope Q_scope.

(* ================================================================= *)
(** ** Python values, exceptions and arithmetic *)

Inductive PyExc : Type :=
| ZeroDivisionError
| TypeError
| AttributeError
| KeyError (key : string)
| Exception (msg : string).

Inductive Exc (A : Type) : Type :=
| Ok (a : A)
| Raise (e : PyExc).
Arguments Ok {A} a.
Arguments Raise {A} e.

#[global] Instance Exc_ret : MRet Exc := fun A a => Ok a.
#[global] Instance Exc_bind : MBind Exc := fun A B f m =>
  match m with
  | Ok a => f a
  | Raise e => Raise e
  end.

Definition raises {A} (m : Exc A) : bool :=
  match m with Ok _ => false | Raise _ => true end.

(** JSON-like values as they arrive from the odds feed and from memory. *)
#[warnings="-register-all"]
Inductive PyVal : Type :=
| PNone
| PNum (q : Q)
| PStr (s : string)
| PDict (items : gmap string PyVal).

(** [bool(v)]. *)
Definition truthy (v : PyVal) : bool :=
  match v with
  | PNone => false
  | PNum q => negb (Qeq_bool q 0)
  | PStr s => negb (String.eqb s "")
  | PDict items => negb (bool_decide (items = ∅))
  end.

(** [d.get(k, dflt)]; only a dict has the attribute [get]. *)
Definition dict_get (d : PyVal) (k : string) (dflt : PyVal) : Exc PyVal :=
  match d with
  | PDict items => Ok (default dflt (items !! k))
  | _ => Raise AttributeError
  end.

(** [a > b] and [a < b] on numbers. *)
Definition Qgtb (a b : Q) : bool := negb (Qle_bool a b).
Definition Qltb (a b : Q) : bool := negb (Qle_bool b a).

(** [max(a, b)] and [min(a, b)]: the first argument is kept unless the
    second is strictly better. *)
Definition pymax (a b : Q) : Q := if Qgtb b a then b else a.
Definition pymin (a b : Q) : Q := if Qltb b a then b else a.

(** [a / b]. *)
Definition pydiv (a b : Q) : Exc Q :=
  if Qeq_bool b 0 then Raise ZeroDivisionError else Ok (a / b).

(** An f-string, fragment by fragment. *)
Inductive Frag : Type :=
| Txt (s : string)            (* literal text *)
| Fixed2 (q : Q)              (* {q:.2f} *)
| Plain (q : Q)               (* {q} *)
| Name (s : option string).   (* {s} for a str or None *)

(** The [betting] section of the configuration: every key is read with
    [.get(key, default)], so a key may be missing. *)
Record BettingConfig : Type := mkBettingConfig {
  cfg_bankroll : option Q;
  cfg_min_bet : option Q;
  cfg_max_bet : option Q;
  cfg_min_ev_threshold : option Q;
  cfg_max_kelly_fraction : option Q;
  cfg_daily_loss_limit : option Q;
  cfg_daily_bet_limit : option Q
}.

(** The values of [config/settings.py]. *)
Definition settings : BettingConfig :=
  {| cfg_bankroll := Some 1000;
     cfg_min_bet := Some 10;
     cfg_max_bet := Some 100;
     cfg_min_ev_threshold := Some 2;
     cfg_max_kelly_fraction := Some (1 # 4);
     cfg_daily_loss_limit := Some 100;
     cfg_daily_bet_limit := Some 5 |}.

(* ================================================================= *)
(** ** The memory collaborator

    [Mem0Client.add] and [Mem0Client.search] wrap their whole body in
    [try ... except Exception] and return an error record or the empty list:
    they never raise.  What is handed to [add] is kept as a log; what
    [search] returns comes from the service and is an input of the code that
    calls it. *)

Record MemoryItem : Type := mkMemoryItem {
  mem_type : string;
  mem_game_id : option string;
  mem_amount : option Q
}.

(** The records of the day that the risk checks read back from memory:
    the items of type [bet_placed] and, for each item of type [bet_result],
    [metadata.get("won", False)] and [metadata.get("amount", 0)]. *)
Record DailyRecords : Type := mkDailyRecords {
  bets_today : list MemoryItem;
  bet_results : list (bool * Q)
}.

(* ================================================================= *)
(** ** agent/modules/reasoning.py *)

Module Reasoning.

(** The dict of model probabilities: a key holds a number or is missing. *)
Record Probabilities : Type := mkProbabilities {
  home_win_probability : option Q;
  away_win_probability : option Q;
  confidence : option Q
}.

(** The strengths of the dict returned by [update_beliefs]. *)
Record Beliefs : Type := mkBeliefs {
  home_team_strength : option Q;
  away_team_strength : option Q
}.

(** [update_beliefs]: the placeholder beliefs, whatever the research. *)
Definition update_beliefs : Beliefs :=
  {| home_team_strength := Some (55 # 100);
     away_team_strength := Some (45 # 100) |}.

(** [calculate_probabilities]. *)
Definition calculate_probabilities (b : Beliefs) : Exc Probabilities :=
  let home_strength := default (1 # 2) (home_team_strength b) in
  let away_strength := default (1 # 2) (away_team_strength b) in
  let total := home_strength + away_strength in
  home_prob ← pydiv home_strength total;
  away_prob ← pydiv away_strength total;
  Ok {| home_win_probability := Some home_prob;
        away_win_probability := Some away_prob;
        confidence := Some (75 # 100) |}.

(** [_odds_to_probability]. *)
Definition _odds_to_probability (odds : PyVal) : Exc Q :=
  if negb (truthy odds) then Ok (1 # 2)
  else
    match odds with
    | PNum q =>
        if Qgtb q 0 then pydiv 100 (q + 100)
        else pydiv (Qabs q) (Qabs q + 100)
    | _ => Raise TypeError            (* [odds > 0] on a str or a dict *)
    end.

(** One book of the detailed [market_odds] dict. *)
Record BookOdds : Type := mkBookOdds {
  book_home_implied_probability : Q;
  book_away_implied_probability : Q;
  book_home_moneyline : PyVal;
  book_away_moneyline : PyVal
}.

(** [market_odds] is either the placeholder pair or one entry per book. *)
Inductive MarketOdds : Type :=
| PlaceholderOdds (home_implied_probability away_implied_probability : Q)
| BookTable (draftkings true_line : BookOdds).

Record BestQuote : Type := mkBestQuote {
  best_book : string;
  best_edge : Q;
  best_odds_value : PyVal
}.

(** The key [best_odds]: missing, the empty dict, or both sides. *)
Inductive BestOdds : Type :=
| BestMissing
| BestEmpty
| BestBoth (home away : BestQuote).

Record MarketComparison : Type := mkMarketComparison {
  mc_game_id : option string;
  calculated_probabilities : Probabilities;
  market_odds : MarketOdds;
  best_odds : BestOdds;
  home_edge : Q;
  away_edge : Q
}.

(** The data returned when there is no odds data, and by the handler of
    the [try]: the placeholder market of 0.52 / 0.48. *)
Definition placeholder_comparison (probabilities : Probabilities)
    (game_id : option string) (best : BestOdds) : MarketComparison :=
  let home_implied := 52 # 100 in
  let away_implied := 48 # 100 in
  {| mc_game_id := game_id;
     calculated_probabilities := probabilities;
     market_odds := PlaceholderOdds home_implied away_implied;
     best_odds := best;
     home_edge := default (1 # 2) (home_win_probability probabilities) - home_implied;
     away_edge := default (1 # 2) (away_win_probability probabilities) - away_implied |}.

(** [odds_data.get("odds", {}).get("moneyline", {}).get(side, {}).get(book)]. *)
Definition moneyline (odds_data : PyVal) (side book : string) : Exc PyVal :=
  odds ← dict_get odds_data "odds" (PDict ∅);
  ml ← dict_get odds "moneyline" (PDict ∅);
  quotes ← dict_get ml side (PDict ∅);
  dict_get quotes book PNone.

(** [self._odds_to_probability(ml) if ml else 0.5]. *)
Definition implied_or_half (ml : PyVal) : Exc Q :=
  if truthy ml then _odds_to_probability ml else Ok (1 # 2).

(** The body of the [try] of [compare_to_market_odds]. *)
Definition compare_to_market_odds_body (probabilities : Probabilities)
    (game_id : option string) (odds_data : PyVal) : Exc MarketComparison :=
  let home_prob := default (1 # 2) (home_win_probability probabilities) in
  let away_prob := default (1 # 2) (away_win_probability probabilities) in
  if negb (truthy odds_data) then
    Ok (placeholder_comparison probabilities game_id BestMissing)
  else
    dk_home_ml ← moneyline odds_data "home" "dk";
    dk_away_ml ← moneyline odds_data "away" "dk";
    true_home_ml ← moneyline odds_data "home" "true_line";
    true_away_ml ← moneyline odds_data "away" "true_line";
    dk_home_implied ← implied_or_half dk_home_ml;
    dk_away_implied ← implied_or_half dk_away_ml;
    true_home_implied ← implied_or_half true_home_ml;
    true_away_implied ← implied_or_half true_away_ml;
    let dk_home_edge := home_prob - dk_home_implied in
    let dk_away_edge := away_prob - dk_away_implied in
    let true_home_edge := home_prob - true_home_implied in
    let true_away_edge := away_prob - true_away_implied in
    let best_home_edge := pymax dk_home_edge true_home_edge in
    let best_away_edge := pymax dk_away_edge true_away_edge in
    let home_dk := Qle_bool true_home_edge dk_home_edge in
    let away_dk := Qle_bool true_away_edge dk_away_edge in
    Ok {| mc_game_id := game_id;
          calculated_probabilities := probabilities;
          market_odds :=
            BookTable
              {| book_home_implied_probability := dk_home_implied;
                 book_away_implied_probability := dk_away_implied;
                 book_home_moneyline := dk_home_ml;
                 book_away_moneyline := dk_away_ml |}
              {| book_home_implied_probability := true_home_implied;
                 book_away_implied_probability := true_away_implied;
                 book_home_moneyline := true_home_ml;
                 book_away_moneyline := true_away_ml |};
          best_odds :=
            BestBoth
              {| best_book := if home_dk then "DraftKings" else "True Line";
                 best_edge := best_home_edge;
                 best_odds_value := if home_dk then dk_home_ml else true_home_ml |}
              {| best_book := if away_dk then "DraftKings" else "True Line";
                 best_edge := best_away_edge;
                 best_odds_value := if away_dk then dk_away_ml else true_away_ml |};
          home_edge := best_home_edge;
          away_edge := best_away_edge |}.

(** [compare_to_market_odds]: any exception of the body is caught and the
    placeholder data is returned with an empty [best_odds]. *)
Definition compare_to_market_odds (probabilities : Probabilities)
    (game_id : option string) (odds_data : PyVal) : MarketComparison :=
  match compare_to_market_odds_body probabilities game_id odds_data with
  | Ok mc => mc
  | Raise _ => placeholder_comparison probabilities game_id BestEmpty
  end.

Record EvCalculation : Type := mkEvCalculation {
  ev_game_id : option string;
  home_expected_value : Q;
  away_expected_value : Q;
  home_kelly : Q;
  away_kelly : Q;
  best_home_book : string;
  best_away_book : string;
  best_home_odds : PyVal;
  best_away_odds : PyVal
}.

(** The implied probabilities used for the Kelly fraction: those of
    DraftKings when [market_odds] has the key [draftkings], the placeholder
    pair otherwise. *)
Definition kelly_implied_probabilities (m : MarketOdds) : Q * Q :=
  match m with
  | BookTable dk _ =>
      (book_home_implied_probability dk, book_away_implied_probability dk)
  | PlaceholderOdds h a => (h, a)
  end.

(** [max(0, edge / (1/p - 1)) if p > 0 else 0]. *)
Definition kelly (edge implied_prob : Q) : Exc Q :=
  if Qgtb implied_prob 0 then
    inv ← pydiv 1 implied_prob;
    fraction ← pydiv edge (inv - 1);
    Ok (pymax 0 fraction)
  else Ok 0.

(** [.get("best_odds", {}).get(side, {})] followed by [.get("odds")] and
    [.get("book", "Unknown")]. *)
Definition best_quote_odds (b : BestOdds) (home_side : bool) : PyVal :=
  match b with
  | BestBoth h a => best_odds_value (if home_side then h else a)
  | _ => PNone
  end.

Definition best_quote_book (b : BestOdds) (home_side : bool) : string :=
  match b with
  | BestBoth h a => best_book (if home_side then h else a)
  | _ => "Unknown"
  end.

(** [calculate_expected_value]. *)
Definition calculate_expected_value (market_comparison : MarketComparison)
    : Exc EvCalculation :=
  let home_edge := home_edge market_comparison in
  let away_edge := away_edge market_comparison in
  let home_ev := home_edge * 100 in
  let away_ev := away_edge * 100 in
  let '(home_implied_prob, away_implied_prob) :=
    kelly_implied_probabilities (market_odds market_comparison) in
  home_kelly ← kelly home_edge home_implied_prob;
  away_kelly ← kelly away_edge away_implied_prob;
  Ok {| ev_game_id := mc_game_id market_comparison;
        home_expected_value := home_ev;
        away_expected_value := away_ev;
        home_kelly := home_kelly;
        away_kelly := away_kelly;
        best_home_book := best_quote_book (best_odds market_comparison) true;
        best_away_book := best_quote_book (best_odds market_comparison) false;
        best_home_odds := best_quote_odds (best_odds market_comparison) true;
        best_away_odds := best_quote_odds (best_odds market_comparison) false |}.

Record Decision : Type := mkDecision {
  game_id : option string;
  should_bet : bool;
  team : option string;
  expected_value : Q;
  bet_size : Q;
  reasoning : list Frag;
  decision_confidence : Q;
  summary : list Frag;
  book : option string;
  odds : PyVal
}.

(** The reads of the configuration, with the defaults of this module. *)
Definition min_ev_threshold (cfg : BettingConfig) : Q := default 2 (cfg_min_ev_threshold cfg).
Definition max_kelly_fraction (cfg : BettingConfig) : Q := default (1 # 2) (cfg_max_kelly_fraction cfg).
Definition bankroll (cfg : BettingConfig) : Q := default 1000 (cfg_bankroll cfg).
Definition min_bet (cfg : BettingConfig) : Q := default 10 (cfg_min_bet cfg).
Definition max_bet (cfg : BettingConfig) : Q := default 100 (cfg_max_bet cfg).

(** [make_betting_decision]. *)
Definition make_betting_decision (cfg : BettingConfig) (ev_calculation : EvCalculation)
    : Decision :=
  let min_ev_threshold := min_ev_threshold cfg in
  let home_ev := home_expected_value ev_calculation in
  let away_ev := away_expected_value ev_calculation in
  let '(should_bet, team, ev, kelly, book, odds, reasoning) :=
    if Qgtb home_ev away_ev && Qgtb home_ev min_ev_threshold then
      (true, Some "home", home_ev, home_kelly ev_calculation,
       Some (best_home_book ev_calculation), best_home_odds ev_calculation,
       [Txt "Home team has "; Fixed2 home_ev; Txt "% edge, which exceeds our ";
        Plain min_ev_threshold; Txt "% threshold. Best odds at ";
        Name (Some (best_home_book ev_calculation)); Txt "."])
    else if Qgtb away_ev home_ev && Qgtb away_ev min_ev_threshold then
      (true, Some "away", away_ev, away_kelly ev_calculation,
       Some (best_away_book ev_calculation), best_away_odds ev_calculation,
       [Txt "Away team has "; Fixed2 away_ev; Txt "% edge, which exceeds our ";
        Plain min_ev_threshold; Txt "% threshold. Best odds at ";
        Name (Some (best_away_book ev_calculation)); Txt "."])
    else
      (false, None, pymax home_ev away_ev, 0, None, PNone,
       [Txt "No bet has sufficient edge. Best option is ";
        Fixed2 (pymax home_ev away_ev); Txt "%, below our ";
        Plain min_ev_threshold; Txt "% threshold"]) in
  let max_kelly_fraction := max_kelly_fraction cfg in
  let bankroll := bankroll cfg in
  let bet_size :=
    if should_bet then
      let bet_size := pymin kelly max_kelly_fraction * bankroll in
      pymax (min_bet cfg) (pymin bet_size (max_bet cfg))
    else 0 in
  {| game_id := ev_game_id ev_calculation;
     should_bet := should_bet;
     team := team;
     expected_value := ev;
     bet_size := bet_size;
     reasoning := reasoning;
     decision_confidence := if should_bet then 7 # 10 else 1 # 2;
     summary := [Txt (if should_bet then "Bet" else "Skip"); Txt " with EV: ";
                 Fixed2 ev; Txt "%, size: $"; Fixed2 bet_size];
     book := book;
     odds := odds |}.

(** The reasoning steps of [execute_reasoning_tasks] for one game. *)
Definition reasoning_steps (cfg : BettingConfig) (game_id : option string)
    (odds_data : PyVal) : Exc Decision :=
  let updated_beliefs := update_beliefs in
  probabilities ← calculate_probabilities updated_beliefs;
  let market_comparison := compare_to_market_odds probabilities game_id odds_data in
  ev_calculation ← calculate_expected_value market_comparison;
  Ok (make_betting_decision cfg ev_calculation).

(** An item of [research_data]: [metadata.game_id] and
    [game_research.get("odds_data", {})]. *)
Record GameResearch : Type := mkGameResearch {
  research_game_id : option string;
  research_odds_data : PyVal
}.

Record ReasoningResults : Type := mkReasoningResults {
  actionable_bets : list Decision;
  total_games_analyzed : nat;
  overall_confidence : Q;
  overall_expected_value : Q
}.

(** The loop of [execute_reasoning_tasks]: the bets found so far and the
    items given to [memory.add], one per game. *)
Fixpoint reason_about_games (cfg : BettingConfig) (research_data : list GameResearch)
    (betting_decisions : list Decision) (added : list MemoryItem)
    : list MemoryItem * Exc (list Decision) :=
  match research_data with
  | [] => (added, Ok betting_decisions)
  | game_research :: rest =>
      match reasoning_steps cfg (research_game_id game_research)
              (research_odds_data game_research) with
      | Raise e => (added, Raise e)
      | Ok betting_decision =>
          let item := {| mem_type := "betting_decision";
                         mem_game_id := research_game_id game_research;
                         mem_amount := None |} in
          if should_bet betting_decision then
            reason_about_games cfg rest (betting_decisions ++ [betting_decision])
              (added ++ [item])
          else
            reason_about_games cfg rest betting_decisions (added ++ [item])
      end
  end.

(** [_calculate_overall_confidence] and [_calculate_overall_ev]. *)
Definition average (values : list Q) : Q :=
  match values with
  | [] => 0
  | _ => fold_left Qplus values 0 / inject_Z (Z.of_nat (length values))
  end.

(** [execute_reasoning_tasks]; an exception of the loop is raised again. *)
Definition execute_reasoning_tasks (cfg : BettingConfig) (research_data : list GameResearch)
    : list MemoryItem * Exc ReasoningResults :=
  match reason_about_games cfg research_data [] [] with
  | (added, Ok betting_decisions) =>
      (added,
       Ok {| actionable_bets := betting_decisions;
             total_games_analyzed := length research_data;
             overall_confidence := average (List.map decision_confidence betting_decisions);
             overall_expected_value := average (List.map expected_value betting_decisions) |})
  | (added, Raise e) => (added, Raise e)
  end.

End Reasoning.

(* ================================================================= *)
(** ** agent/modules/risk_management.py *)

Module RiskManagement.

(** A decision dict.  [expected_value] and [bet_size] hold a number or
    [None]; [original_bet_size] and [risk_management_note] are keys that
    validation adds. *)
Record Decision : Type := mkDecision {
  game_id : option string;
  team : option string;
  should_bet : bool;
  expected_value : option Q;
  bet_size : option Q;
  original_bet_size : option (option Q);
  risk_management_note : option (list Frag)
}.

#[global] Instance Decision_inhabited : Inhabited Decision :=
  populate (mkDecision None None false None None None None).

Definition set_should_bet (b : bool) (d : Decision) : Decision :=
  mkDecision (game_id d) (team d) b (expected_value d) (bet_size d)
             (original_bet_size d) (risk_management_note d).
Definition set_bet_size (s : option Q) (d : Decision) : Decision :=
  mkDecision (game_id d) (team d) (should_bet d) (expected_value d) s
             (original_bet_size d) (risk_management_note d).
Definition set_original_bet_size (s : option Q) (d : Decision) : Decision :=
  mkDecision (game_id d) (team d) (should_bet d) (expected_value d) (bet_size d)
             (Some s) (risk_management_note d).
Definition set_note (n : list Frag) (d : Decision) : Decision :=
  mkDecision (game_id d) (team d) (should_bet d) (expected_value d) (bet_size d)
             (original_bet_size d) (Some n).

(** The attributes set by [__init__]; [betting_config] is the dict
    [config["betting"]] itself, shared with the other modules. *)
Record RiskManagementModule : Type := mkRiskManagementModule {
  betting_config : BettingConfig;
  bankroll : Q;
  min_bet : Q;
  max_bet : Q;
  min_ev_threshold : Q;
  max_kelly_fraction : Q;
  daily_loss_limit : Q;
  daily_bet_limit : Q
}.

Definition init (betting : BettingConfig) : RiskManagementModule :=
  {| betting_config := betting;
     bankroll := default 1000 (cfg_bankroll betting);
     min_bet := default 10 (cfg_min_bet betting);
     max_bet := default 100 (cfg_max_bet betting);
     min_ev_threshold := default 2 (cfg_min_ev_threshold betting);
     max_kelly_fraction := default (1 # 4) (cfg_max_kelly_fraction betting);
     daily_loss_limit := default 100 (cfg_daily_loss_limit betting);
     daily_bet_limit := default 5 (cfg_daily_bet_limit betting) |}.

(** A number where Python needs one for a comparison or a product. *)
Definition number (v : option Q) : Exc Q :=
  match v with
  | Some q => Ok q
  | None => Raise TypeError
  end.

(** [_check_daily_bet_limit]. *)
Definition _check_daily_bet_limit (self : RiskManagementModule) (today : DailyRecords) : bool :=
  Qltb (inject_Z (Z.of_nat (length (bets_today today)))) (daily_bet_limit self).

(** [_check_daily_loss_limit]. *)
Definition _check_daily_loss_limit (self : RiskManagementModule) (today : DailyRecords) : bool :=
  let total_loss :=
    fold_left (fun (total : Q) (result : bool * Q) =>
                 if fst result then total else total + snd result)
              (bet_results today) 0 in
  Qltb total_loss (daily_loss_limit self).

(** [validate_betting_decision]. *)
Definition validate_betting_decision (self : RiskManagementModule) (today : DailyRecords)
    (decision : Decision) : Exc Decision :=
  let validated_decision := decision in
  if negb (should_bet decision) then Ok validated_decision
  else
    let validated_decision := set_original_bet_size (bet_size decision) validated_decision in
    expected_value ← number (expected_value decision);
    if Qltb expected_value (min_ev_threshold self) then
      Ok (set_note [Txt "Expected value "; Fixed2 expected_value;
                    Txt "% below threshold "; Plain (min_ev_threshold self); Txt "%"]
            (set_should_bet false validated_decision))
    else
      original_bet_size ← number (bet_size decision);
      let adjusted_bet_size := pymax (min_bet self) (pymin original_bet_size (max_bet self)) in
      let validated_decision :=
        if negb (Qeq_bool adjusted_bet_size original_bet_size) then
          set_note [Txt "Bet size adjusted from $"; Fixed2 original_bet_size;
                    Txt " to $"; Fixed2 adjusted_bet_size]
            (set_bet_size (Some adjusted_bet_size) validated_decision)
        else validated_decision in
      if negb (_check_daily_bet_limit self today) then
        Ok (set_note [Txt "Daily bet limit of "; Plain (daily_bet_limit self); Txt " reached"]
              (set_should_bet false validated_decision))
      else if negb (_check_daily_loss_limit self today) then
        Ok (set_note [Txt "Daily loss limit of $"; Plain (daily_loss_limit self); Txt " reached"]
              (set_should_bet false validated_decision))
      else Ok validated_decision.

(** *** Portfolio constraints

    The decisions are dict objects: the list [active_decisions] holds the
    same objects as [decisions], and the scaling loop writes into them.
    Objects live in a store and the two lists hold their addresses. *)

Abbreviation Store := (list Decision) (only parsing).

(** [sum(d.get("bet_size", 0) for d in active_decisions)]. *)
Fixpoint sum_bet_sizes (store : Store) (active : list nat) (acc : Q) : Exc Q :=
  match active with
  | [] => Ok acc
  | r :: rest =>
      size ← number (bet_size (store !!! r));
      sum_bet_sizes store rest (acc + size)
  end.

(** One turn of the scaling loop, on the object at address [r]. *)
Definition scale_decision (scaling_factor : Q) (store : Store) (r : nat) : Exc Store :=
  let decision := store !!! r in
  original_size ← number (bet_size decision);
  let adjusted_size := original_size * scaling_factor in
  Ok (<[r := set_note [Txt "Bet size scaled down from $"; Fixed2 original_size;
                       Txt " to $"; Fixed2 adjusted_size;
                       Txt " due to portfolio constraints"]
              (set_bet_size (Some adjusted_size) decision)]> store).

Fixpoint scale_decisions (scaling_factor : Q) (store : Store) (active : list nat)
    : Exc Store :=
  match active with
  | [] => Ok store
  | r :: rest =>
      store' ← scale_decision scaling_factor store r;
      scale_decisions scaling_factor store' rest
  end.

(** The test of the inner loop of the last pass. *)
Definition same_game_and_team (updated decision : Decision) : bool :=
  bool_decide (game_id updated = game_id decision)
  && bool_decide (team updated = team decision).

(** The last pass: [decisions[i] = updated] for the first active object
    with the game and team of [decisions[i]]. *)
Definition update_original (store : Store) (active : list nat) (r : nat) : nat :=
  if should_bet (store !!! r) then
    default r (List.find (fun u => same_game_and_team (store !!! u) (store !!! r)) active)
  else r.

(** [_apply_portfolio_constraints] on the objects at [decisions]. *)
Definition apply_portfolio_constraints_in (self : RiskManagementModule)
    (store : Store) (decisions : list nat) : Exc (Store * list nat) :=
  let active_decisions := List.filter (fun r => should_bet (store !!! r)) decisions in
  match active_decisions with
  | [] => Ok (store, decisions)
  | _ =>
      total_bet_amount ← sum_bet_sizes store active_decisions 0;
      let max_daily_bet_amount := bankroll self * (1 # 10) in
      store' ←
        (if Qgtb total_bet_amount max_daily_bet_amount then
           scaling_factor ← pydiv max_daily_bet_amount total_bet_amount;
           scale_decisions scaling_factor store active_decisions
         else Ok store);
      Ok (store', List.map (update_original store' active_decisions) decisions)
  end.

(** [_apply_portfolio_constraints] called, as [validate_betting_decisions]
    does, on a list of distinct objects; the result is read back. *)
Definition _apply_portfolio_constraints (self : RiskManagementModule)
    (decisions : list Decision) : Exc (list Decision) :=
  '(store, refs) ← apply_portfolio_constraints_in self decisions
                     (seq 0 (length decisions));
  Ok (List.map (fun r => store !!! r) refs).

(** The first pass of [validate_betting_decisions]. *)
Fixpoint validate_each (self : RiskManagementModule) (today : DailyRecords)
    (decisions : list Decision) : Exc (list Decision) :=
  match decisions with
  | [] => Ok []
  | decision :: rest =>
      validated_decision ← validate_betting_decision self today decision;
      validated_decisions ← validate_each self today rest;
      Ok (validated_decision :: validated_decisions)
  end.

(** [validate_betting_decisions]. *)
Definition validate_betting_decisions (self : RiskManagementModule) (today : DailyRecords)
    (decisions : list Decision) : Exc (list Decision) :=
  validated_decisions ← validate_each self today decisions;
  _apply_portfolio_constraints self validated_decisions.

(** [update_bankroll]: the new module state and the item given to
    [memory.add].  The key [bankroll] of the shared dict is rewritten. *)
Definition update_bankroll (self : RiskManagementModule) (amount : Q) (is_win : bool)
    : RiskManagementModule * MemoryItem :=
  let bankroll' := if is_win then bankroll self + amount else bankroll self - amount in
  let betting := betting_config self in
  ({| betting_config :=
        mkBettingConfig (Some bankroll') (cfg_min_bet betting) (cfg_max_bet betting)
          (cfg_min_ev_threshold betting) (cfg_max_kelly_fraction betting)
          (cfg_daily_loss_limit betting) (cfg_daily_bet_limit betting);
      bankroll := bankroll';
      min_bet := min_bet self;
      max_bet := max_bet self;
      min_ev_threshold := min_ev_threshold self;
      max_kelly_fraction := max_kelly_fraction self;
      daily_loss_limit := daily_loss_limit self;
      daily_bet_limit := daily_bet_limit self |},
   {| mem_type := "bankroll_update";
      mem_game_id := None;
      mem_amount := Some (if is_win then amount else - amount) |}).

Record RiskMetrics : Type := mkRiskMetrics {
  metrics_bankroll : Q;
  metrics_bets_placed : nat;
  metrics_amount_won : Q;
  metrics_amount_lost : Q;
  metrics_net_profit : Q
}.

(** [get_risk_metrics], the figures the controller reports. *)
Definition get_risk_metrics (self : RiskManagementModule) (today : DailyRecords)
    : RiskMetrics :=
  let total_won_today :=
    fold_left (fun (total : Q) (r : bool * Q) => if fst r then total + snd r else total)
              (bet_results today) 0 in
  let total_lost_today :=
    fold_left (fun (total : Q) (r : bool * Q) => if fst r then total else total + snd r)
              (bet_results today) 0 in
  {| metrics_bankroll := bankroll self;
     metrics_bets_placed := length (bets_today today);
     metrics_amount_won := total_won_today;
     metrics_amount_lost := total_lost_today;
     metrics_net_profit := total_won_today - total_lost_today |}.

End RiskManagement.

(* ================================================================= *)
(** ** agent/modules/execution.py *)

Module Execution.

(** The dict built for a placed bet ([bet_result]). *)
Record BetResult : Type := mkBetResult {
  success : bool;
  amount : Q;
  bet_team : PyVal;
  bet_game_id : PyVal
}.

(** The values of the dict [execution_results]. *)
Inductive Value : Type :=
| VNum (q : Q)
| VBets (bets : list BetResult)
| VText (s : list Frag)
| VTimestamp.

(** What the module is built from: the flag [config["agent"]["test_mode"]]
    and, outside test mode, whether the venue accepts a bet
    ([place_bet] catches every exception and reports [success: False]). *)
Record ExecutionModule : Type := mkExecutionModule {
  test_mode : bool;
  venue_accepts : PyVal -> PyVal -> Q -> bool
}.

(** [config["betting"][key]]: the key must be there. *)
Definition required (key : string) (v : option Q) : Exc Q :=
  match v with
  | Some q => Ok q
  | None => Raise (KeyError key)
  end.

(** [_calculate_bet_size]. *)
Definition _calculate_bet_size (betting : BettingConfig) (expected_value : PyVal) : Exc Q :=
  max_kelly_fraction ← required "max_kelly_fraction" (cfg_max_kelly_fraction betting);
  bankroll ← required "bankroll" (cfg_bankroll betting);
  kelly_percentage ← (match expected_value with
                      | PNum ev => pydiv ev 100
                      | _ => Raise TypeError
                      end);
  let conservative_kelly := kelly_percentage * max_kelly_fraction in
  let bet_size := conservative_kelly * bankroll in
  min_bet ← required "min_bet" (cfg_min_bet betting);
  max_bet ← required "max_bet" (cfg_max_bet betting);
  Ok (pymax min_bet (pymin bet_size max_bet)).

(** [place_bet], and the bet made up in test mode. *)
Definition place_bet (self : ExecutionModule) (game_id team : PyVal) (amount : Q)
    : BetResult :=
  {| success := venue_accepts self game_id team amount;
     amount := amount; bet_team := team; bet_game_id := game_id |}.

Definition test_bet (game_id team : PyVal) (amount : Q) : BetResult :=
  {| success := true; amount := amount; bet_team := team; bet_game_id := game_id |}.

Definition add_to (key : string) (q : Q) (results : gmap string Value)
    : gmap string Value :=
  match results !! key with
  | Some (VNum n) => <[key := VNum (n + q)]> results
  | _ => results
  end.

Definition append_bet (key : string) (b : BetResult) (results : gmap string Value)
    : gmap string Value :=
  match results !! key with
  | Some (VBets l) => <[key := VBets (l ++ [b])]> results
  | _ => results
  end.

(** [record_bet]: the item given to [memory.add]. *)
Definition record_bet (game_id : PyVal) (b : BetResult) : MemoryItem :=
  {| mem_type := "bet_record";
     mem_game_id := match game_id with PStr s => Some s | _ => None end;
     mem_amount := Some (amount b) |}.

(** [metadata.get("decision") == "bet"]. *)
Definition is_bet (metadata : gmap string PyVal) : bool :=
  match metadata !! "decision" with
  | Some (PStr s) => String.eqb s "bet"
  | _ => false
  end.

(** The loop of [execute_betting_actions].  A decision is the value of
    [decision.get("metadata", {})]; the items added to memory are returned
    next to the result, also when an exception ends the loop. *)
Fixpoint place_bets (self : ExecutionModule) (betting : BettingConfig)
    (betting_decisions : list (gmap string PyVal))
    (execution_results : gmap string Value) (added : list MemoryItem)
    : list MemoryItem * Exc (gmap string Value) :=
  match betting_decisions with
  | [] => (added, Ok execution_results)
  | metadata :: rest =>
      if negb (is_bet metadata) then
        place_bets self betting rest execution_results added
      else
        let game_id := default PNone (metadata !! "game_id") in
        let team := default PNone (metadata !! "team") in
        let expected_value := default (PNum 0) (metadata !! "expected_value") in
        match
          (bet_size ← _calculate_bet_size betting expected_value;
           min_bet ← required "min_bet" (cfg_min_bet betting);
           Ok (bet_size, min_bet))
        with
        | Raise e => (added, Raise e)
        | Ok (bet_size, min_bet) =>
            if Qltb bet_size min_bet then
              place_bets self betting rest execution_results added
            else
              let bet_result :=
                if test_mode self then test_bet game_id team bet_size
                else place_bet self game_id team bet_size in
              if success bet_result then
                place_bets self betting rest
                  (append_bet "bet_details" bet_result
                     (add_to "total_amount" (amount bet_result)
                        (add_to "bets_placed" 1 execution_results)))
                  (added ++ [record_bet game_id bet_result])
              else
                place_bets self betting rest execution_results added
        end
  end.

(** [execute_betting_actions]: the result dict starts with the keys
    [bets_placed], [total_amount], [bet_details] and [timestamp]; the key
    [summary] is added at the end. *)
Definition execute_betting_actions (self : ExecutionModule) (betting : BettingConfig)
    (betting_decisions : list (gmap string PyVal))
    : list MemoryItem * Exc (gmap string Value) :=
  let execution_results : gmap string Value :=
    <["bets_placed" := VNum 0]>
      (<["total_amount" := VNum 0]>
         (<["bet_details" := VBets []]>
            (<["timestamp" := VTimestamp]> ∅))) in
  match place_bets self betting betting_decisions execution_results [] with
  | (added, Ok execution_results) =>
      let summary :=
        match execution_results !! "bets_placed", execution_results !! "total_amount" with
        | Some (VNum placed), Some (VNum total) =>
            if Qgtb placed 0
            then [Txt "Placed "; Plain placed; Txt " bets totaling $"; Fixed2 total]
            else [Txt "No bets placed. Waiting for better spots."]
        | _, _ => [Txt "No bets placed. Waiting for better spots."]
        end in
      (added, Ok (<["summary" := VText summary]> execution_results))
  | (added, Raise e) => (added, Raise e)
  end.

End Execution.

(* ================================================================= *)
(** ** agent/controller.py *)

Module Controller.

Inductive AgentState : Type :=
| INITIALIZING
| RESEARCHING
| REASONING
| RISK_ASSESSMENT
| EXECUTING
| IDLE
| ERROR.

(** The controller object.  [memory] is the log of what was given to
    [memory.add]; the dict [config["betting"]] is the one held by the risk
    management module, and the other modules read it there. *)
Record AgentController : Type := mkAgentController {
  loop_interval : Q;
  research_interval : Q;
  state : AgentState;
  is_running : bool;
  risk_management_module : RiskManagement.RiskManagementModule;
  execution_module : Execution.ExecutionModule;
  memory : list MemoryItem
}.

Definition with_state (s : AgentState) (c : AgentController) : AgentController :=
  mkAgentController (loop_interval c) (research_interval c) s (is_running c)
    (risk_management_module c) (execution_module c) (memory c).
Definition with_is_running (b : bool) (c : AgentController) : AgentController :=
  mkAgentController (loop_interval c) (research_interval c) (state c) b
    (risk_management_module c) (execution_module c) (memory c).
Definition with_risk_management_module (r : RiskManagement.RiskManagementModule)
    (c : AgentController) : AgentController :=
  mkAgentController (loop_interval c) (research_interval c) (state c) (is_running c)
    r (execution_module c) (memory c).
Definition with_memory (m : list MemoryItem) (c : AgentController) : AgentController :=
  mkAgentController (loop_interval c) (research_interval c) (state c) (is_running c)
    (risk_management_module c) (execution_module c) m.

(** A statement of a method: it changes the controller and returns or
    raises.  What was changed before an exception stays changed. *)
Definition Action (A : Type) : Type := AgentController -> AgentController * Exc A.

#[global] Instance Action_ret : MRet Action := fun A a c => (c, Ok a).
#[global] Instance Action_bind : MBind Action := fun A B f m c =>
  match m c with
  | (c', Ok a) => f a c'
  | (c', Raise e) => (c', Raise e)
  end.

Definition lift {A} (r : Exc A) : Action A := fun c => (c, r).
Definition get {A} (f : AgentController -> A) : Action A := fun c => (c, Ok (f c)).
Definition set_state (s : AgentState) : Action unit := fun c => (with_state s c, Ok tt).
(** Modelled from the spec: [self.memory.add(item)] for the client
    [Mem0OfficialClient], whose file [agent/memory/mem0_official.py] is not
    among the sources.  The memory collaborator is an append-mostly log and a
    failure of a collaborator is recovered inside the call; the client that
    is among the sources, [Mem0Client.add], catches every exception and
    returns an error record.  So [add] appends and returns. *)
Definition memory_add (item : MemoryItem) : Action unit :=
  fun c => (with_memory (memory c ++ [item]) c, Ok tt).
Definition memory_add_all (items : list MemoryItem) : Action unit :=
  fun c => (with_memory (memory c ++ items) c, Ok tt).

(** [try: body except Exception as e: handler]. *)
Definition try_except {A} (body : Action A) (handler : PyExc -> Action A) : Action A :=
  fun c =>
    match body c with
    | (c', Ok a) => (c', Ok a)
    | (c', Raise e) => handler e c'
    end.

(** [for x in xs: body(x)]. *)
Fixpoint for_each {A} (xs : list A) (body : A -> Action unit) : Action unit :=
  match xs with
  | [] => mret tt
  | x :: rest => body x ≫= fun _ => for_each rest body
  end.

(** *** What the collaborators answer during one pass of the loop *)

(** A research result; the controller indexes the three keys. *)
Record ResearchResult : Type := mkResearchResult {
  result_summary : option string;
  result_source : option string;
  result_timestamp : option string
}.

(** The metadata of a memory item of type [betting_decision]. *)
Record BettingDecisionItem : Type := mkBettingDecisionItem {
  item_game_id : option string;
  item_team : option string;
  item_expected_value : option Q;
  item_bet_size : option Q
}.

(** The metadata of a memory item of type [risk_assessment], and whether
    the search for the betting decision it came from finds one. *)
Record RiskAssessmentItem : Type := mkRiskAssessmentItem {
  assessed_game_id : option string;
  assessed_team : option string;
  adjusted_bet_size : option Q;
  original_found : bool
}.

Record World : Type := mkWorld {
  research_results : Exc (list ResearchResult);   (* execute_research_tasks() *)
  research_data : list Reasoning.GameResearch;    (* search, type research_result *)
  betting_decisions : list BettingDecisionItem;   (* search, type betting_decision *)
  today : DailyRecords;                           (* searches of the risk module *)
  risk_assessments : list RiskAssessmentItem;     (* search, type risk_assessment *)
  current_time : Q;                               (* time.time() *)
  last_research_time : Exc Q;                     (* get_last_research_time() *)
  settled : list MemoryItem;                      (* added by monitor_outcomes() *)
  elapsed : Q;                                    (* time the pass takes *)
  stop_requested : bool                           (* stop() called meanwhile *)
}.

(** [result[key]]. *)
Definition index (key : string) (v : option string) : Exc string :=
  match v with
  | Some s => Ok s
  | None => Raise (KeyError key)
  end.

(** The handler shared by the [try] of the five working states. *)
Definition to_error_state (e : PyExc) : Action unit := set_state ERROR.

(** The body of the [try] of [_handle_research_state]. *)
Definition research_tasks (w : World) : Action unit :=
  results ← lift (research_results w);
  _ ← for_each results (fun result =>
        _ ← lift (index "summary" (result_summary result));
        _ ← lift (index "source" (result_source result));
        _ ← lift (index "timestamp" (result_timestamp result));
        memory_add (mkMemoryItem "research_result" None None));
  _ ← memory_add (mkMemoryItem "research_summary" None None);
  set_state REASONING.

(** [_handle_research_state]. *)
Definition _handle_research_state (w : World) : Action unit :=
  try_except (research_tasks w) to_error_state.

(** [_handle_reasoning_state]. *)
Definition _handle_reasoning_state (w : World) : Action unit :=
  try_except
    (betting ← get (fun c => RiskManagement.betting_config (risk_management_module c));
     let '(added, outcome) := Reasoning.execute_reasoning_tasks betting (research_data w) in
     _ ← memory_add_all added;
     reasoning_results ← lift outcome;
     _ ← memory_add (mkMemoryItem "reasoning_result" None None);
     _ ← for_each (Reasoning.actionable_bets reasoning_results) (fun decision =>
           memory_add (mkMemoryItem "betting_decision" (Reasoning.game_id decision)
                         (Some (Reasoning.bet_size decision))));
     match Reasoning.actionable_bets reasoning_results with
     | [] => set_state IDLE
     | _ => set_state RISK_ASSESSMENT
     end)
    to_error_state.

(** The decision dict built from a memory item. *)
Definition decision_of_item (item : BettingDecisionItem) : RiskManagement.Decision :=
  {| RiskManagement.game_id := item_game_id item;
     RiskManagement.team := item_team item;
     RiskManagement.should_bet := true;
     RiskManagement.expected_value := item_expected_value item;
     RiskManagement.bet_size := item_bet_size item;
     RiskManagement.original_bet_size := None;
     RiskManagement.risk_management_note := None |}.

(** [_handle_risk_assessment_state]. *)
Definition _handle_risk_assessment_state (w : World) : Action unit :=
  try_except
    (let decisions := List.map decision_of_item (betting_decisions w) in
     risk ← get risk_management_module;
     validated_decisions ←
       lift (RiskManagement.validate_betting_decisions risk (today w) decisions);
     _ ← for_each validated_decisions (fun decision =>
           _ ← (if RiskManagement.should_bet decision
                then lift (RiskManagement.number (RiskManagement.bet_size decision))
                else mret 0);
           memory_add (mkMemoryItem "risk_assessment" (RiskManagement.game_id decision)
                         (RiskManagement.bet_size decision)));
     let risk_metrics := RiskManagement.get_risk_metrics risk (today w) in
     _ ← memory_add (mkMemoryItem "risk_metrics" None
                       (Some (RiskManagement.metrics_bankroll risk_metrics)));
     match List.filter RiskManagement.should_bet validated_decisions with
     | [] => set_state IDLE
     | _ => set_state EXECUTING
     end)
    to_error_state.

(** [execution_results[key]] and [execution_results.get("bets", [])]. *)
Definition result_number (key : string) (results : gmap string Execution.Value) : Exc Q :=
  match results !! key with
  | Some (Execution.VNum q) => Ok q
  | Some _ => Raise TypeError
  | None => Raise (KeyError key)
  end.

Definition result_bets (results : gmap string Execution.Value)
    : Exc (list Execution.BetResult) :=
  match results !! "bets" with
  | Some (Execution.VBets bets) => Ok bets
  | Some _ => Raise TypeError
  | None => Ok []
  end.

(** [self.risk_management_module.update_bankroll(amount, is_win)]. *)
Definition update_bankroll (amount : Q) (is_win : bool) : Action unit :=
  fun c =>
    let '(risk, item) :=
      RiskManagement.update_bankroll (risk_management_module c) amount is_win in
    (with_memory (memory c ++ [item]) (with_risk_management_module risk c), Ok tt).

(** The body of the [try] of [_handle_execution_state], given the method
    [execute_betting_actions] of the execution module.  The approved bets
    are dicts without the key [metadata], which is what the execution module
    reads.  The last loop records every bet listed under the key [bets] of
    the result as a loss of its amount. *)
Definition execution_tasks
    (execute_betting_actions :
       BettingConfig -> list (gmap string PyVal) ->
       list MemoryItem * Exc (gmap string Execution.Value))
    (w : World) : Action unit :=
  let approved_bets := List.filter original_found (risk_assessments w) in
  _ ← match approved_bets with
      | [] => mret tt
      | _ =>
          betting ← get (fun c => RiskManagement.betting_config (risk_management_module c));
          let '(added, outcome) :=
            execute_betting_actions betting
              (List.map (fun _ => (∅ : gmap string PyVal)) approved_bets) in
          _ ← memory_add_all added;
          execution_results ← lift outcome;
          _ ← lift (result_number "bets_placed" execution_results);
          _ ← lift (result_number "total_amount" execution_results);
          _ ← memory_add (mkMemoryItem "execution_result" None None);
          bets ← lift (result_bets execution_results);
          for_each bets (fun bet => update_bankroll (Execution.amount bet) false)
      end;
  set_state IDLE.

(** [_handle_execution_state]. *)
Definition _handle_execution_state (w : World) : Action unit :=
  fun c =>
    try_except
      (execution_tasks (Execution.execute_betting_actions (execution_module c)) w)
      to_error_state c.

(** [_handle_idle_state]: the reading of the last research time is
    outside the [try]. *)
Definition _handle_idle_state (w : World) : Action unit :=
  last ← lift (last_research_time w);
  interval ← get research_interval;
  _ ← (if Qgtb (current_time w - last) interval then set_state RESEARCHING else mret tt);
  try_except
    (_ ← memory_add_all (settled w);
     risk ← get risk_management_module;
     let _risk_metrics := RiskManagement.get_risk_metrics risk (today w) in
     mret tt)
    (fun _ => mret tt).

(** [_handle_error_state]. *)
Definition _handle_error_state : Action unit :=
  _ ← memory_add (mkMemoryItem "system_event" None None);
  set_state IDLE.

(** [_process_current_state]. *)
Definition _process_current_state (w : World) : Action unit :=
  fun c =>
    match state c with
    | RESEARCHING => _handle_research_state w c
    | REASONING => _handle_reasoning_state w c
    | RISK_ASSESSMENT => _handle_risk_assessment_state w c
    | EXECUTING => _handle_execution_state w c
    | IDLE => _handle_idle_state w c
    | ERROR => _handle_error_state c
    | INITIALIZING => (c, Ok tt)
    end.

(** [_initialize]; [initialize_research_queue()] is the research module's. *)
Definition _initialize (initialize_research_queue : Exc unit) : Action unit :=
  _ ← memory_add (mkMemoryItem "system_event" None None);
  _ ← lift initialize_research_queue;
  set_state RESEARCHING.

(** What can be observed of a run. *)
Inductive Event : Type :=
| Processed (before after : AgentState)
| Slept (seconds : Q).

(** [time.sleep(seconds)]: a negative length is a [ValueError]. *)
Definition sleep (seconds : Q) : Exc Event :=
  if Qltb seconds 0 then Raise (Exception "sleep length must be non-negative")
  else Ok (Slept seconds).

(** The [while self.is_running] loop of [start], one world per pass; the
    run is cut when the worlds are used up. *)
Fixpoint main_loop (worlds : list World) (c : AgentController) (trace : list Event)
    : AgentController * list Event * Exc unit :=
  if negb (is_running c) then (c, trace, Ok tt)
  else
    match worlds with
    | [] => (c, trace, Ok tt)
    | w :: rest =>
        match _process_current_state w c with
        | (c', Raise e) => (c', trace, Raise e)
        | (c', Ok _) =>
            let trace := trace ++ [Processed (state c) (state c')] in
            match sleep (loop_interval c') with
            | Raise e => (c', trace, Raise e)
            | Ok slept =>
                let c' := if stop_requested w then with_is_running false c' else c' in
                main_loop rest c' (trace ++ [slept])
            end
        end
    end.

(** [start]: an exception of the loop sets the state to [ERROR] and is
    raised again. *)
Definition start (initialize_research_queue : Exc unit) (worlds : list World)
    (c : AgentController) : AgentController * list Event * Exc unit :=
  let c := with_state INITIALIZING (with_is_running true c) in
  match _initialize initialize_research_queue c with
  | (c', Raise e) => (with_state ERROR c', [], Raise e)
  | (c', Ok _) =>
      match main_loop worlds c' [] with
      | (c'', trace, Raise e) => (with_state ERROR c'', trace, Raise e)
      | r => r
      end
  end.

End Controller.

(* ================================================================= *)
(** ** agent/agent.py *)

Module Agent.

(** The sleep at the end of a cycle of [NBABettingAgent.run]:
    [max(1, loop_interval - cycle_duration)]. *)
Definition sleep_time (loop_interval cycle_duration : Q) : Q :=
  pymax 1 (loop_interval - cycle_duration).

End Agent.

(* ================================================================= *)
(** ** The stake sizer as the specification words it *)

Module Spec.




End Spec.

(* ================================================================= *)
(** ** Case analysis of the decision step *)

Section DecisionCase.
Import Reasoning.

(** The three outcomes of [make_betting_decision]. *)
Inductive decision_case (cfg : BettingConfig) (ev : EvCalculation) (d : Decision) : Prop :=
| bet_home :
    away_expected_value ev < home_expected_value ev ->
    min_ev_threshold cfg < home_expected_value ev ->
    should_bet d = true -> team d = Some "home" ->
    expected_value d = home_expected_value ev ->
    bet_size d = pymax (min_bet cfg)
                   (pymin (pymin (home_kelly ev) (max_kelly_fraction cfg) * bankroll cfg)
                          (max_bet cfg)) ->
    decision_case cfg ev d
| bet_away :
    home_expected_value ev < away_expected_value ev ->
    min_ev_threshold cfg < away_expected_value ev ->
    should_bet d = true -> team d = Some "away" ->
    expected_value d = away_expected_value ev ->
    bet_size d = pymax (min_bet cfg)
                   (pymin (pymin (away_kelly ev) (max_kelly_fraction cfg) * bankroll cfg)
                          (max_bet cfg)) ->
    decision_case cfg ev d
| no_bet :
    (home_expected_value ev <= away_expected_value ev \/
     home_expected_value ev <= min_ev_threshold cfg) ->
    (away_expected_value ev <= home_expected_value ev \/
     away_expected_value ev <= min_ev_threshold cfg) ->
    should_bet d = false -> team d = None ->
    expected_value d = pymax (home_expected_value ev) (away_expected_value ev) ->
    bet_size d = 0 ->
    reasoning d = [Txt "No bet has sufficient edge. Best option is ";
                   Fixed2 (pymax (home_expected_value ev) (away_expected_value ev));
                   Txt "%, below our "; Plain (min_ev_threshold cfg);
                   Txt "% threshold"] ->
    decision_case cfg ev d.

End DecisionCase.

(* ================================================================= *)
(** ** Sample inputs *)

(** The model probabilities of the placeholder beliefs. *)
Definition sample_probabilities : Reasoning.Probabilities :=
  {| Reasoning.home_win_probability := Some (55 # 100);
     Reasoning.away_win_probability := Some (45 # 100);
     Reasoning.confidence := Some (75 # 100) |}.



(** A game quoted by DraftKings only: home at +100, away at -150. *)
Definition sample_odds_data : PyVal :=
  PDict (<["odds" :=
    PDict (<["moneyline" :=
      PDict (<["home" := PDict (<["dk" := PNum 100]> ∅)]>
            (<["away" := PDict (<["dk" := PNum (-150)]> ∅)]> ∅))]> ∅)]> ∅).

Definition sample_comparison : Reasoning.MarketComparison :=
  Reasoning.compare_to_market_odds sample_probabilities (Some "game-1") sample_odds_data.

(** A belief one point above the placeholder market. *)
Definition thin_edge_probabilities : Reasoning.Probabilities :=
  {| Reasoning.home_win_probability := Some (53 # 100);
     Reasoning.away_win_probability := Some (47 # 100);
     Reasoning.confidence := Some (75 # 100) |}.


Definition ev_tied : Reasoning.EvCalculation :=
  {| Reasoning.ev_game_id := Some "game-1";
     Reasoning.home_expected_value := 5;
     Reasoning.away_expected_value := 5;
     Reasoning.home_kelly := 5 # 100;
     Reasoning.away_kelly := 5 # 100;
     Reasoning.best_home_book := "DraftKings";
     Reasoning.best_away_book := "True Line";
     Reasoning.best_home_odds := PNum 100;
     Reasoning.best_away_odds := PNum 100 |}.




(** Two approved decisions on the same game and team with stakes 60 and 80,
    and two on different games with the same stakes. *)
Definition approved (game team : string) (stake : Q) : RiskManagement.Decision :=
  {| RiskManagement.game_id := Some game;
     RiskManagement.team := Some team;
     RiskManagement.should_bet := true;
     RiskManagement.expected_value := Some 5;
     RiskManagement.bet_size := Some stake;
     RiskManagement.original_bet_size := None;
     RiskManagement.risk_management_note := None |}.

Definition same_game_decisions : list RiskManagement.Decision :=
  [approved "game-1" "home" 60; approved "game-1" "home" 80].

Definition two_game_decisions : list RiskManagement.Decision :=
  [approved "game-1" "home" 60; approved "game-2" "home" 80].

Definition quiet_day : DailyRecords := {| bets_today := []; bet_results := [] |}.

(** The stakes of the decisions that are still approved. *)
Definition approved_stakes (ds : list RiskManagement.Decision) : list (option Q) :=
  List.map RiskManagement.bet_size (List.filter RiskManagement.should_bet ds).

(** A controller with the settings of the repository (a pass every 60
    seconds, research every hour, test mode), about to do research. *)
Definition sample_controller : Controller.AgentController :=
  {| Controller.loop_interval := 60;
     Controller.research_interval := 3600;
     Controller.state := Controller.RESEARCHING;
     Controller.is_running := true;
     Controller.risk_management_module := RiskManagement.init settings;
     Controller.execution_module :=
       {| Execution.test_mode := true; Execution.venue_accepts := fun _ _ _ => true |};
     Controller.memory := [] |}.

(** A pass in which research finds nothing and which takes [seconds]. *)
Definition quiet_world (seconds : Q) : Controller.World :=
  {| Controller.research_results := Ok [];
     Controller.research_data := [];
     Controller.betting_decisions := [];
     Controller.today := quiet_day;
     Controller.risk_assessments := [];
     Controller.current_time := 0;
     Controller.last_research_time := Ok 0;
     Controller.settled := [];
     Controller.elapsed := seconds;
     Controller.stop_requested := false |}.

(** A pass in which the research module raises. *)
Definition failing_research_world : Controller.World :=
  {| Controller.research_results := Raise (Exception "fetch failed");
     Controller.research_data := [];
     Controller.betting_decisions := [];
     Controller.today := quiet_day;
     Controller.risk_assessments := [];
     Controller.current_time := 0;
     Controller.last_research_time := Ok 0;
     Controller.settled := [];
     Controller.elapsed := 1;
     Controller.stop_requested := false |}.

(* ================================================================= *)
(** ** Assertions on actions of the controller *)

(** What no handler writes: the risk management module (the balance and
    the shared betting configuration) and the configured loop interval. *)
Definition fixed_part (c : Controller.AgentController)
    : RiskManagement.RiskManagementModule * Q :=
  (Controller.risk_management_module c, Controller.loop_interval c).

(** The action leaves the fixed part as it is, and what it returns
    satisfies [P]. *)
Definition keeps_risk {A} (m : Controller.Action A) (P : A -> Prop) : Prop :=
  forall c,
    fixed_part (fst (m c)) = fixed_part c /\
    forall a, snd (m c) = Ok a -> P a.

(** The balance of the controller's ledger. *)
Definition balance (c : Controller.AgentController) : Q :=
  RiskManagement.bankroll (Controller.risk_management_module c).

(** What can happen to the controller: a pass of its loop, in whatever
    state it is, or the settlement of a bet, reported to the risk management
    module as an amount won or lost. *)
Inductive Step : Type :=
| Pass (w : Controller.World)
| Settle (amount : Q) (is_win : bool).

Definition step (s : Step) (c : Controller.AgentController) : Controller.AgentController :=
  match s with
  | Pass w => fst (Controller._process_current_state w c)
  | Settle amount is_win => fst (Controller.update_bankroll amount is_win c)
  end.

(** The same controller configured with a loop interval of zero. *)
Definition zero_interval_controller : Controller.AgentController :=
  {| Controller.loop_interval := 0;
     Controller.research_interval := 3600;
     Controller.state := Controller.RESEARCHING;
     Controller.is_running := true;
     Controller.risk_management_module := RiskManagement.init settings;
     Controller.execution_module :=
       {| Execution.test_mode := true; Execution.venue_accepts := fun _ _ _ => true |};
     Controller.memory := [] |}.

(** The lengths of the sleeps of a run. *)
Definition sleeps (trace : list Controller.Event) : list Q :=
  omap (fun ev => match ev with
                  | Controller.Slept seconds => Some seconds
                  | _ => None
                  end) trace.

(* ================================================================= *)
(** ** Proportional scaling, decision by decision *)

(** The game and team that identify a bet. *)
Definition bet_key (d : RiskManagement.Decision) : option string * option string :=
  (RiskManagement.game_id d, RiskManagement.team d).

(** A decision with its stake multiplied by [factor], as the scaling loop
    leaves it. *)
Definition scaled (factor : Q) (d : RiskManagement.Decision) : RiskManagement.Decision :=
  match RiskManagement.bet_size d with
  | Some original_size =>
      RiskManagement.set_note
        [Txt "Bet size scaled down from $"; Fixed2 original_size;
         Txt " to $"; Fixed2 (original_size * factor);
         Txt " due to portfolio constraints"]
        (RiskManagement.set_bet_size (Some (original_size * factor)) d)
  | None => d
  end.



(** An execution method that lists the bets it placed under the key [bets]
    of its result, the key that [_handle_execution_state] reads. *)
Definition reporting_under_bets (bets : list Execution.BetResult)
    : BettingConfig -> list (gmap string PyVal) ->
      list MemoryItem * Exc (gmap string Execution.Value) :=
  fun _ _ =>
    ([], Ok (<["bets" := Execution.VBets bets]>
               (<["bets_placed" := Execution.VNum (inject_Z (Z.of_nat (length bets)))]>
                  (<["total_amount" := Execution.VNum 0]> ∅)))).
(* ================================================================= *)
(** ** Further sample inputs *)

(** Odds data in which DraftKings' home quote arrived as text. *)
Definition odds_data_with_text_quote : PyVal :=
  PDict (<["odds" :=
    PDict (<["moneyline" :=
      PDict (<["home" := PDict (<["dk" := PStr "-110"]> (<["true_line" := PNum (-120)]> ∅))]>
            (<["away" := PDict (<["dk" := PNum 100]> ∅)]> ∅))]> ∅)]> ∅).



(* ================================================================= *)
(** ** The day's results and runs of settlements *)

(** The amounts of the day's lost results, and of the won ones. *)
Definition losses_today (today : DailyRecords) : Q :=
  fold_right (fun (result : bool * Q) total => snd result + total) 0
             (List.filter (fun result : bool * Q => negb (fst result)) (bet_results today)).

Definition winnings_today (today : DailyRecords) : Q :=
  fold_right (fun (result : bool * Q) total => snd result + total) 0
             (List.filter (fun result : bool * Q => fst result) (bet_results today)).

(** Calls of [update_bankroll], one per settlement [(amount, is_win)],
    first to last. *)
Definition settle_all (self : RiskManagement.RiskManagementModule)
    (settlements : list (Q * bool)) : RiskManagement.RiskManagementModule :=
  fold_left (fun risk (settlement : Q * bool) =>
               fst (RiskManagement.update_bankroll risk (fst settlement) (snd settlement)))
            settlements self.

(** What a run of settlements won, net of what it lost. *)
Definition net_result (settlements : list (Q * bool)) : Q :=
  fold_right (fun (settlement : Q * bool) total =>
                (if snd settlement then fst settlement else - fst settlement) + total)
             0 settlements.

(** A day on which five bets were placed already, the limit of the
    settings. *)
Definition busy_day : DailyRecords :=
  {| bets_today := List.repeat (mkMemoryItem "bet_placed" None (Some 20)) 5;
     bet_results := [] |}.

(* ================================================================= *)
(** ** Reading execution results *)

(** The sum of the amounts of a list of placed bets. *)
Definition total_of (bets : list Execution.BetResult) : Q :=
  fold_right (fun bet total => Execution.amount bet + total) 0 bets.

(** The memory item recorded for a placed bet. *)
Definition bet_record (bet : Execution.BetResult) : MemoryItem :=
  Execution.record_bet (Execution.bet_game_id bet) bet.

(** Metadata that says [decision: bet] for a game, a team and an
    expected value, as [execute_reasoning_tasks] stores it. *)
Definition bet_metadata (game team : string) (expected_value : Q) : gmap string PyVal :=
  <["decision" := PStr "bet"]>
    (<["game_id" := PStr game]>
       (<["team" := PStr team]>
          (<["expected_value" := PNum expected_value]> ∅))).

(** The module in test mode. *)
Definition test_execution : Execution.ExecutionModule :=
  {| Execution.test_mode := true; Execution.venue_accepts := fun _ _ _ => true |}.

(** Two decisions marked as bets, one with a negative expected value,
    around a decision without metadata. *)
Definition mixed_decisions : list (gmap string PyVal) :=
  [bet_metadata "game-1" "home" 8; ∅; bet_metadata "game-2" "away" (-1)].

(* ================================================================= *)
(** ** The states of the controller *)

(** The states that the handler of a state can leave the controller in. *)
Definition allowed_next (s : Controller.AgentState) : list Controller.AgentState :=
  match s with
  | Controller.INITIALIZING => [Controller.INITIALIZING]
  | Controller.RESEARCHING => [Controller.REASONING; Controller.ERROR]
  | Controller.REASONING =>
      [Controller.RISK_ASSESSMENT; Controller.IDLE; Controller.ERROR]
  | Controller.RISK_ASSESSMENT =>
      [Controller.EXECUTING; Controller.IDLE; Controller.ERROR]
  | Controller.EXECUTING => [Controller.IDLE; Controller.ERROR]
  | Controller.IDLE => [Controller.IDLE; Controller.RESEARCHING]
  | Controller.ERROR => [Controller.IDLE]
  end.

(** Whenever the action returns, the controller is in an allowed state. *)
Definition ends_in {A} (m : Controller.Action A)
    (allowed : Controller.AgentState -> Prop) : Prop :=
  forall c c' a, m c = (c', Ok a) -> allowed (Controller.state c').


(** The controller in a given state, and a pass in which the risk
    assessments of two bets are found with their betting decisions. *)
Definition controller_in (s : Controller.AgentState) : Controller.AgentController :=
  Controller.with_state s sample_controller.

Definition world_with_approved_bets : Controller.World :=
  {| Controller.research_results := Ok [];
     Controller.research_data := [];
     Controller.betting_decisions := [];
     Controller.today := quiet_day;
     Controller.risk_assessments :=
       [Controller.mkRiskAssessmentItem (Some "game-1") (Some "home") (Some 40) true;
        Controller.mkRiskAssessmentItem (Some "game-2") (Some "away") (Some 25) true];
     Controller.current_time := 0;
     Controller.last_research_time := Ok 0;
     Controller.settled := [];
     Controller.elapsed := 1;
     Controller.stop_requested := false |}.


(** A pass in which memory holds a betting decision without a stake,
    as [execute_reasoning_tasks] stores it, next to a complete one. *)
Definition world_with_incomplete_decision : Controller.World :=
  {| Controller.research_results := Ok [];
     Controller.research_data := [];
     Controller.betting_decisions :=
       [Controller.mkBettingDecisionItem (Some "game-1") (Some "home") (Some 3) (Some 32);
        Controller.mkBettingDecisionItem (Some "game-1") (Some "home") (Some 3) None];
     Controller.today := quiet_day;
     Controller.risk_assessments := [];
     Controller.current_time := 0;
     Controller.last_research_time := Ok 0;
     Controller.settled := [];
     Controller.elapsed := 1;
     Controller.stop_requested := false |}.

(* ================================================================= *)
(** ** agent/modules/execution.py: the settlement of placed bets *)

Module Settlement.

(** The metadata of an open bet record found in memory.  Every key is
    read with [.get]: [amount] and [odds] hold a number or are [None], as for
    the records that [record_bet] writes. *)
Record OpenBet : Type := mkOpenBet {
  open_bet_id : option string;
  open_game_id : option string;
  open_team : PyVal;
  open_amount : option Q;
  open_odds : option Q
}.

(** What the sports data answers for the game of a bet:
    [_check_game_status] and, for a completed game, the key [home_team_won]
    of [_get_game_result]. *)
Inductive GameStatus : Type :=
| completed (home_team_won : bool)
| in_progress.

(** An item given to [memory.add]: the settled bet record of
    [monitor_outcomes] or the strategy update of [update_strategy]. *)
Inductive Added : Type :=
| SettledRecord (game_id : option string) (outcome : string) (profit : Q)
| StrategyUpdate (game_id : option string) (bet_team : PyVal) (outcome : string)
    (learning_points : list string).

(** [(bet_team == "home" and home_team_won) or
     (bet_team == "away" and not home_team_won)]. *)
Definition bet_won (bet_team : PyVal) (home_team_won : bool) : bool :=
  (match bet_team with PStr s => String.eqb s "home" | _ => false end && home_team_won)
  || (match bet_team with PStr s => String.eqb s "away" | _ => false end
      && negb home_team_won).

(** ["won" if bet_won else "lost"]. *)
Definition outcome_of (bet_won : bool) : string := if bet_won then "won" else "lost".

(** [amount * (odds - 1) if bet_won else -amount]. *)
Definition profit (metadata : OpenBet) (bet_won : bool) : Exc Q :=
  if bet_won then
    amount ← RiskManagement.number (open_amount metadata);
    odds ← RiskManagement.number (open_odds metadata);
    Ok (amount * (odds - 1))
  else
    amount ← RiskManagement.number (open_amount metadata);
    Ok (- amount).

(** [_extract_learning_points]. *)
Definition _extract_learning_points (bet_won : bool) : list string :=
  if bet_won then
    ["Successful prediction validates our model";
     "Continue monitoring similar patterns"]
  else
    ["Investigate factors that weren't properly weighted";
     "Review model assumptions for this game type"].

(** [update_strategy]: the items it adds, given whether the search for
    the original betting decision finds one.  Its body is inside a [try]
    that catches every exception. *)
Definition update_strategy (decision_found : bool) (game_id : option string)
    (team : PyVal) (bet_won : bool) : list Added :=
  if negb decision_found then []
  else [StrategyUpdate game_id team (outcome_of bet_won)
          (_extract_learning_points bet_won)].

(** The loop of [monitor_outcomes] over the open bets, each with the
    answers of the sports data and of the search of [update_strategy]; the
    items added so far are returned also when an exception ends the loop. *)
Fixpoint settle_bets (open_bets : list (OpenBet * GameStatus * bool))
    (added : list Added) : list Added * Exc unit :=
  match open_bets with
  | [] => (added, Ok tt)
  | (metadata, game_status, decision_found) :: rest =>
      match game_status with
      | in_progress => settle_bets rest added
      | completed home_team_won =>
          let bet_team := open_team metadata in
          let bet_won := bet_won bet_team home_team_won in
          match profit metadata bet_won with
          | Raise e => (added, Raise e)
          | Ok profit =>
              settle_bets rest
                (added
                 ++ [SettledRecord (open_game_id metadata) (outcome_of bet_won) profit]
                 ++ update_strategy decision_found (open_game_id metadata) bet_team bet_won)
          end
      end
  end.

(** [monitor_outcomes]: the [try] around the loop catches every
    exception, so the method returns; what it added stays added. *)
Definition monitor_outcomes (open_bets : list (OpenBet * GameStatus * bool))
    : list Added :=
  fst (settle_bets open_bets []).

End Settlement.

(** A bet recorded under the name of a team instead of a side, and a
    bet on the home side whose record lacks the amount. *)
Definition bet_on_team_name : Settlement.OpenBet :=
  {| Settlement.open_bet_id := Some "test-game-1";
     Settlement.open_game_id := Some "game-1";
     Settlement.open_team := PStr "Lakers";
     Settlement.open_amount := Some 25;
     Settlement.open_odds := Some (195 # 100) |}.

Definition bet_without_amount : Settlement.OpenBet :=
  {| Settlement.open_bet_id := Some "test-game-2";
     Settlement.open_game_id := Some "game-2";
     Settlement.open_team := PStr "home";
     Settlement.open_amount := None;
     Settlement.open_odds := Some (195 # 100) |}.

(* ================================================================= *)
(** ** agent/modules/execution.py: the legacy entry [run] *)

Module Legacy.

(** The decision that [run] builds from a recommendation, a dict read
    with [.get]; [now] stands for [int(time.time())] in the made-up game
    id. *)
Definition decision_of_recommendation (now : string) (rec : gmap string PyVal)
    : gmap string PyVal :=
  <["type" := PStr "betting_decision"]>
    (<["decision" := PStr "bet"]>
       (<["game_id" := default (PStr ("unknown-" +:+ now)) (rec !! "game_id")]>
          (<["team" := default (PStr "unknown") (rec !! "bet_target")]>
             (<["confidence" := default (PNum (7 # 10)) (rec !! "confidence")]>
                (<["expected_value" := default (PNum (5 # 100)) (rec !! "edge")]> ∅))))).

(** [run]: the recommendations are converted, executed, and four keys
    of the result are kept. *)
Definition run (self : Execution.ExecutionModule) (betting : BettingConfig)
    (now : string) (betting_recommendations : list (gmap string PyVal))
    : list MemoryItem * Exc (gmap string Execution.Value) :=
  let decisions_list := List.map (decision_of_recommendation now) betting_recommendations in
  match Execution.execute_betting_actions self betting decisions_list with
  | (added, Ok results) =>
      (added,
       Ok (<["bets_placed" := default (Execution.VNum 0) (results !! "bets_placed")]>
             (<["total_amount" := default (Execution.VNum 0) (results !! "total_amount")]>
                (<["summary" := default (Execution.VText [Txt ""]) (results !! "summary")]>
                   (<["timestamp" := default Execution.VTimestamp
                                       (results !! "timestamp")]> ∅)))))
  | (added, Raise e) => (added, Raise e)
  end.

End Legacy.

(** The keys of a recommendation as the reasoning module's decisions
    have them: no [bet_target] and no [edge]. *)
Definition recommendation_from_reasoning (game : string) : gmap string PyVal :=
  <["game_id" := PStr game]>
    (<["team" := PStr "home"]> (<["expected_value" := PNum 3]> ∅)).

(** A research result with its three keys, and one without a source. *)
Definition complete_result : Controller.ResearchResult :=
  Controller.mkResearchResult (Some "Completed research") (Some "research_module")
    (Some "today").

Definition result_without_source : Controller.ResearchResult :=
  Controller.mkResearchResult (Some "Completed research") None (Some "today").

(** Whether a research result has the keys that the controller indexes. *)
Definition has_all_keys (result : Controller.ResearchResult) : bool :=
  match Controller.result_summary result, Controller.result_source result,
        Controller.result_timestamp result with
  | Some _, Some _, Some _ => true
  | _, _, _ => false
  end.

(** A pass in which research returns the given results. *)
Definition research_world (results : list Controller.ResearchResult) : Controller.World :=
  {| Controller.research_results := Ok results;
     Controller.research_data := [];
     Controller.betting_decisions := [];
     Controller.today := quiet_day;
     Controller.risk_assessments := [];
     Controller.current_time := 0;
     Controller.last_research_time := Ok 0;
     Controller.settled := [];
     Controller.elapsed := 1;
     Controller.stop_requested := false |}.

(** The metadata that [_handle_reasoning_state] stores for an actionable
    bet, as [_handle_risk_assessment_state] reads it back. *)
Definition item_of_decision (decision : Reasoning.Decision)
    : Controller.BettingDecisionItem :=
  {| Controller.item_game_id := Reasoning.game_id decision;
     Controller.item_team := Reasoning.team decision;
     Controller.item_expected_value := Some (Reasoning.expected_value decision);
     Controller.item_bet_size := Some (Reasoning.bet_size decision) |}.

(* ================================================================= *)
(** * Properties *)

(** ** Arithmetic helpers *)

Lemma Qgtb_true (a b : Q) : Qgtb a b = true <-> b < a.
Proof.
  unfold Qgtb. rewrite negb_true_iff.
  destruct (Qle_bool a b) eqn:E.
  - apply Qle_bool_iff in E. split; [discriminate | intros H; exfalso; lra].
  - split; [intros _ | reflexivity].
    destruct (Qlt_le_dec b a) as [H | H]; [exact H |].
    apply Qle_bool_iff in H. congruence.
Qed.

Lemma Qgtb_false (a b : Q) : Qgtb a b = false <-> a <= b.
Proof.
  unfold Qgtb. rewrite negb_false_iff. apply Qle_bool_iff.
Qed.

Lemma Qltb_true (a b : Q) : Qltb a b = true <-> a < b.
Proof. apply (Qgtb_true b a). Qed.

Lemma Qltb_false (a b : Q) : Qltb a b = false <-> b <= a.
Proof. apply (Qgtb_false b a). Qed.

Lemma Qeq_bool_false (a b : Q) : Qeq_bool a b = false <-> ~ a == b.
Proof.
  split.
  - intros E H. apply Qeq_bool_iff in H. congruence.
  - intros H. destruct (Qeq_bool a b) eqn:E; [| reflexivity].
    apply Qeq_bool_iff in E. contradiction.
Qed.

Lemma pymax_Qmax (a b : Q) : pymax a b == Qmax a b.
Proof.
  unfold pymax. destruct (Qgtb b a) eqn:E.
  - apply Qgtb_true in E. symmetry. apply Q.max_r. lra.
  - apply Qgtb_false in E. symmetry. apply Q.max_l. exact E.
Qed.

Lemma pymin_Qmin (a b : Q) : pymin a b == Qmin a b.
Proof.
  unfold pymin. destruct (Qltb b a) eqn:E.
  - apply Qltb_true in E. symmetry. apply Q.min_r. lra.
  - apply Qltb_false in E. symmetry. apply Q.min_l. exact E.
Qed.

Lemma pymax_lower (a b : Q) : a <= pymax a b /\ b <= pymax a b.
Proof.
  unfold pymax. destruct (Qgtb b a) eqn:E.
  - apply Qgtb_true in E. lra.
  - apply Qgtb_false in E. lra.
Qed.

Lemma pymin_upper (a b : Q) : pymin a b <= a /\ pymin a b <= b.
Proof.
  unfold pymin. destruct (Qltb b a) eqn:E.
  - apply Qltb_true in E. lra.
  - apply Qltb_false in E. lra.
Qed.

Lemma pydiv_Ok (a b : Q) : ~ b == 0 -> pydiv a b = Ok (a / b).
Proof. intros H. unfold pydiv. apply Qeq_bool_false in H. now rewrite H. Qed.

Lemma pydiv_inv (a b q : Q) : pydiv a b = Ok q -> ~ b == 0 /\ q = a / b.
Proof.
  unfold pydiv. destruct (Qeq_bool b 0) eqn:E; [discriminate |].
  intros [= <-]. split; [now apply Qeq_bool_false | reflexivity].
Qed.

(** The clamp of the code lies between its bounds when they are ordered. *)
Lemma clamp_bounds (x lo hi : Q) :
  lo <= hi -> lo <= pymax lo (pymin x hi) /\ pymax lo (pymin x hi) <= hi.
Proof.
  intros H. split; [apply pymax_lower |].
  unfold pymax. destruct (Qgtb (pymin x hi) lo); [apply pymin_upper | exact H].
Qed.

(* ----------------------------------------------------------------- *)
(** ** Moneyline odds to implied probability *)

Lemma Qabs_pos_of_nonzero (q : Q) : ~ q == 0 -> 0 < Qabs q.
Proof.
  intros H. destruct (Qlt_le_dec q 0) as [Hneg | Hpos].
  - rewrite Qabs_neg by lra. lra.
  - rewrite Qabs_pos by lra.
    destruct (Qlt_le_dec 0 q) as [H0 | H0]; [exact H0 |].
    exfalso. apply H. lra.
Qed.

Lemma ratio_in_unit (a : Q) : 0 < a -> 0 < a / (a + 100) /\ a / (a + 100) < 1.
Proof.
  intros H. split.
  - apply Qlt_shift_div_l; lra.
  - apply Qlt_shift_div_r; lra.
Qed.

Lemma hundred_ratio_in_unit (a : Q) : 0 < a -> 0 < 100 / (a + 100) /\ 100 / (a + 100) < 1.
Proof.
  intros H. split.
  - apply Qlt_shift_div_l; lra.
  - apply Qlt_shift_div_r; lra.
Qed.

(** The conversion on a number: which branch is taken and what it returns. *)
Lemma odds_to_probability_num (odds : Q) :
  exists p,
    Reasoning._odds_to_probability (PNum odds) = Ok p /\
    0 < p /\ p < 1 /\
    (0 < odds -> p = 100 / (odds + 100)) /\
    (odds < 0 -> p = Qabs odds / (Qabs odds + 100)) /\
    (odds == 0 -> p = 1 # 2).
Proof.
  unfold Reasoning._odds_to_probability. cbn [truthy].
  destruct (Qeq_bool odds 0) eqn:Ez; cbn [negb].
  - apply Qeq_bool_iff in Ez. exists (1 # 2).
    repeat split; try reflexivity; intros; exfalso; lra.
  - apply Qeq_bool_false in Ez.
    destruct (Qgtb odds 0) eqn:Eg.
    + apply Qgtb_true in Eg.
      rewrite pydiv_Ok by lra.
      exists (100 / (odds + 100)).
      destruct (hundred_ratio_in_unit odds Eg) as [H0 H1].
      repeat split; try assumption; try reflexivity; intros; exfalso; lra.
    + apply Qgtb_false in Eg.
      pose proof (Qabs_pos_of_nonzero odds Ez) as Ha.
      rewrite pydiv_Ok by lra.
      exists (Qabs odds / (Qabs odds + 100)).
      destruct (ratio_in_unit (Qabs odds) Ha) as [H0 H1].
      repeat split; try assumption; try reflexivity; intros; exfalso; lra.
Qed.



(* ----------------------------------------------------------------- *)
(** ** Edges when quotes are missing *)

Section MissingQuotes.
Import Reasoning.

Variable probabilities : Probabilities.
Variable game_id : option string.

Let home_prob : Q := default (1 # 2) (home_win_probability probabilities).
Let away_prob : Q := default (1 # 2) (away_win_probability probabilities).



(** An exception while the odds are read: the placeholder market again. *)
Lemma compare_when_body_raises (odds_data : PyVal) :
  raises (compare_to_market_odds_body probabilities game_id odds_data) = true ->
  compare_to_market_odds probabilities game_id odds_data
  = placeholder_comparison probabilities game_id BestEmpty.
Proof.
  unfold compare_to_market_odds.
  destruct (compare_to_market_odds_body probabilities game_id odds_data);
    [discriminate | reflexivity].
Qed.

(** Odds data with quotes: each side gets the larger of its edges against
    the two books, a book without a quote counting for 0.5. *)
Lemma compare_with_quotes (odds_data dk_home dk_away tl_home tl_away : PyVal)
      (p_dk_home p_dk_away p_tl_home p_tl_away : Q) :
  truthy odds_data = true ->
  moneyline odds_data "home" "dk" = Ok dk_home ->
  moneyline odds_data "away" "dk" = Ok dk_away ->
  moneyline odds_data "home" "true_line" = Ok tl_home ->
  moneyline odds_data "away" "true_line" = Ok tl_away ->
  implied_or_half dk_home = Ok p_dk_home ->
  implied_or_half dk_away = Ok p_dk_away ->
  implied_or_half tl_home = Ok p_tl_home ->
  implied_or_half tl_away = Ok p_tl_away ->
  let mc := compare_to_market_odds probabilities game_id odds_data in
  home_edge mc = pymax (home_prob - p_dk_home) (home_prob - p_tl_home) /\
  away_edge mc = pymax (away_prob - p_dk_away) (away_prob - p_tl_away).
Proof.
  intros Ht H1 H2 H3 H4 I1 I2 I3 I4.
  unfold compare_to_market_odds, compare_to_market_odds_body.
  rewrite Ht, H1, H2, H3, H4. cbn [negb mbind Exc_bind].
  rewrite I1, I2, I3, I4. cbn [mbind Exc_bind home_edge away_edge].
  split; reflexivity.
Qed.



End MissingQuotes.



(* ----------------------------------------------------------------- *)
(** ** Stake sizing *)

Section StakeSizing.
Import Reasoning.



Lemma make_betting_decision_cases (cfg : BettingConfig) (ev : EvCalculation) :
  decision_case cfg ev (make_betting_decision cfg ev).
Proof.
  unfold make_betting_decision.
  destruct (Qgtb (home_expected_value ev) (away_expected_value ev)) eqn:E1;
    destruct (Qgtb (home_expected_value ev) (min_ev_threshold cfg)) eqn:E2;
    cbn [andb].
  1: { apply Qgtb_true in E1, E2. apply bet_home; auto. }
  all: destruct (Qgtb (away_expected_value ev) (home_expected_value ev)) eqn:E3;
    destruct (Qgtb (away_expected_value ev) (min_ev_threshold cfg)) eqn:E4;
    cbn [andb].
  all: try apply Qgtb_true in E1; try apply Qgtb_false in E1;
    try apply Qgtb_true in E2; try apply Qgtb_false in E2;
    try apply Qgtb_true in E3; try apply Qgtb_false in E3;
    try apply Qgtb_true in E4; try apply Qgtb_false in E4.
  all: try (apply bet_away; auto; fail).
  all: try (apply no_bet; auto; fail).
  all: exfalso; lra.
Qed.

End StakeSizing.

Section Decisions.
Import Reasoning.




End Decisions.

Section ThresholdGate.
Import Reasoning.


(** C3 as stated fails: a home edge of 0.01 against the placeholder
    market price of 0.52 is positive, yet it is below the 2% threshold, no
    bet is proposed and the stake is 0, outside [min_bet, max_bet] =
    [10, 100]. *)
Lemma positive_edge_below_threshold_stake_outside_limits :
  let mc := compare_to_market_odds thin_edge_probabilities (Some "game-1") PNone in
  0 < home_edge mc /\
  min_bet settings <= max_bet settings /\
  exists ev,
    calculate_expected_value mc = Ok ev /\
    should_bet (make_betting_decision settings ev) = false /\
    bet_size (make_betting_decision settings ev) == 0 /\
    ~ (min_bet settings <= bet_size (make_betting_decision settings ev)).
Proof.
  cbv zeta. split; [vm_compute; reflexivity |].
  split; [vm_compute; discriminate |].
  eexists. split; [vm_compute; reflexivity |].
  split; [vm_compute; reflexivity |].
  split; [vm_compute; reflexivity |].
  vm_compute. intros H. apply H. reflexivity.
Qed.

(** C3 (amended). Whenever a bet is proposed and min_bet <= max_bet, the
    stake lies within [min_bet, max_bet]; when no bet is proposed the
    stake is 0. *)
Theorem stake_within_limits_when_bet_proposed
    (cfg : BettingConfig) (ev : EvCalculation) :
  (should_bet (make_betting_decision cfg ev) = true ->
   min_bet cfg <= max_bet cfg ->
   min_bet cfg <= bet_size (make_betting_decision cfg ev) /\
   bet_size (make_betting_decision cfg ev) <= max_bet cfg) /\
  (should_bet (make_betting_decision cfg ev) = false ->
   bet_size (make_betting_decision cfg ev) = 0).
Proof.
  destruct (make_betting_decision_cases cfg ev)
    as [_ _ Hb _ _ Hs | _ _ Hb _ _ Hs | _ _ Hb _ _ Hs _]; rewrite Hb, Hs.
  - split; [intros _ Hle; now apply clamp_bounds | discriminate].
  - split; [intros _ Hle; now apply clamp_bounds | discriminate].
  - split; [discriminate | reflexivity].
Qed.

Lemma stake_within_limits_when_bet_proposed_witness :
  exists ev,
    calculate_expected_value sample_comparison = Ok ev /\
    min_bet settings <= bet_size (make_betting_decision settings ev) /\
    bet_size (make_betting_decision settings ev) <= max_bet settings.
Proof.
  eexists. split; [vm_compute; reflexivity |].
  apply (proj1 (stake_within_limits_when_bet_proposed settings _)).
  - vm_compute. reflexivity.
  - vm_compute. discriminate.
Defined.




(** Equal expected values never give a bet, whatever the threshold. *)
Lemma equal_edges_never_bet (cfg : BettingConfig) (ev : EvCalculation) :
  home_expected_value ev == away_expected_value ev ->
  should_bet (make_betting_decision cfg ev) = false /\
  team (make_betting_decision cfg ev) = None /\
  bet_size (make_betting_decision cfg ev) = 0.
Proof.
  intros Heq.
  destruct (make_betting_decision_cases cfg ev)
    as [H _ _ _ _ _ | H _ _ _ _ _ | _ _ Hb Ht _ Hs _].
  - exfalso. lra.
  - exfalso. lra.
  - auto.
Qed.

(** C9. The code at the failing input: both sides at 5%, above the 2%
    threshold and tied.  No outcome is selected and no bet is proposed;
    the reason given says that the best option, 5.00%, is below the
    threshold of 2.0%. *)
Theorem tied_edges_above_threshold_propose_no_bet :
  min_ev_threshold settings < home_expected_value ev_tied /\
  min_ev_threshold settings < away_expected_value ev_tied /\
  home_expected_value ev_tied == away_expected_value ev_tied /\
  should_bet (make_betting_decision settings ev_tied) = false /\
  team (make_betting_decision settings ev_tied) = None /\
  bet_size (make_betting_decision settings ev_tied) = 0 /\
  reasoning (make_betting_decision settings ev_tied)
  = [Txt "No bet has sufficient edge. Best option is "; Fixed2 5;
     Txt "%, below our "; Plain 2; Txt "% threshold"].
Proof.
  repeat split; vm_compute; reflexivity.
Qed.

End ThresholdGate.

(* ----------------------------------------------------------------- *)
(** ** The controller: recovery from an exception during research *)

Section ErrorRecovery.
Import Controller.

Lemma try_except_raise {A} (body : Action A) (handler : PyExc -> Action A)
      (c c' : AgentController) (e : PyExc) :
  body c = (c', Raise e) -> try_except body handler c = handler e c'.
Proof. intros H. unfold try_except. now rewrite H. Qed.

(** An exception of the research module is an exception of the [try]. *)
Lemma research_tasks_raise (w : World) (c : AgentController) (e : PyExc) :
  research_results w = Raise e -> research_tasks w c = (c, Raise e).
Proof.
  intros H. unfold research_tasks, lift. cbn. now rewrite H.
Qed.

(** The error handler returns, whatever the controller. *)
Lemma handle_error_state_returns (c : AgentController) :
  exists c', _handle_error_state c = (c', Ok tt) /\ state c' = IDLE.
Proof. eexists. split; reflexivity. Qed.

(** C6. If the body of the research handler raises while the state is
    RESEARCHING, the pass returns with the state ERROR, and the next pass,
    whatever the collaborators answer, returns with the state IDLE: no
    exception leaves either handler. *)
Theorem research_exception_recovers_through_error
    (w : World) (c c_raised : AgentController) (e : PyExc) :
  state c = RESEARCHING ->
  research_tasks w c = (c_raised, Raise e) ->
  exists c1,
    _process_current_state w c = (c1, Ok tt) /\
    state c1 = ERROR /\
    forall w', exists c2,
      _process_current_state w' c1 = (c2, Ok tt) /\ state c2 = IDLE.
Proof.
  intros Hs Hraise.
  exists (with_state ERROR c_raised).
  split; [| split].
  - unfold _process_current_state. rewrite Hs.
    unfold _handle_research_state.
    rewrite (try_except_raise _ _ _ _ _ Hraise). reflexivity.
  - reflexivity.
  - intros w'. unfold _process_current_state. cbn [state with_state].
    apply handle_error_state_returns.
Qed.

Lemma research_exception_recovers_through_error_witness :
  exists c1,
    _process_current_state failing_research_world sample_controller = (c1, Ok tt) /\
    state c1 = ERROR /\
    forall w', exists c2,
      _process_current_state w' c1 = (c2, Ok tt) /\ state c2 = IDLE.
Proof.
  apply (research_exception_recovers_through_error failing_research_world
           sample_controller sample_controller (Exception "fetch failed")).
  - reflexivity.
  - reflexivity.
Defined.

(** The same in a run: two passes of the loop, each followed by its sleep,
    and the loop goes on. *)
Lemma research_exception_in_a_run
    (w w' : World) (c c_raised : AgentController) (e : PyExc) :
  is_running c = true ->
  state c = RESEARCHING ->
  research_tasks w c = (c_raised, Raise e) ->
  0 <= loop_interval c_raised ->
  stop_requested w = false ->
  stop_requested w' = false ->
  is_running c_raised = true ->
  exists c2,
    main_loop [w; w'] c [] =
      (c2,
       [Processed RESEARCHING ERROR; Slept (loop_interval c_raised);
        Processed ERROR IDLE; Slept (loop_interval c_raised)],
       Ok tt) /\
    state c2 = IDLE.
Proof.
  intros Hrun Hs Hraise Hint Hstop Hstop' Hrun'.
  assert (Hsleep : sleep (loop_interval c_raised) = Ok (Slept (loop_interval c_raised))).
  { unfold sleep. apply Qltb_false in Hint. now rewrite Hint. }
  destruct c_raised as [interval research st running risk execution mem].
  cbn [loop_interval is_running] in Hsleep, Hrun'. subst running.
  eexists. split.
  - cbn [main_loop]. rewrite Hrun. cbn [negb].
    unfold _process_current_state at 1. rewrite Hs.
    unfold _handle_research_state. rewrite (try_except_raise _ _ _ _ _ Hraise).
    cbn -[sleep]. rewrite Hsleep, Hstop. cbn -[sleep].
    unfold _handle_error_state, mbind, Action_bind, memory_add, set_state.
    cbn -[sleep]. rewrite Hsleep, Hstop'. cbn. reflexivity.
  - reflexivity.
Qed.

End ErrorRecovery.

(* ----------------------------------------------------------------- *)
(** ** The bankroll ledger *)

Section ExecutionResults.
Import Execution.

Lemma add_to_other (key k : string) (q : Q) (results : gmap string Value) :
  k <> key -> add_to key q results !! k = results !! k.
Proof.
  intros Hne. unfold add_to.
  destruct (results !! key) as [[] |]; try reflexivity.
  now apply lookup_insert_ne.
Qed.

Lemma append_bet_other (key k : string) (b : BetResult) (results : gmap string Value) :
  k <> key -> append_bet key b results !! k = results !! k.
Proof.
  intros Hne. unfold append_bet.
  destruct (results !! key) as [[] |]; try reflexivity.
  now apply lookup_insert_ne.
Qed.

(** The loop never writes the key [bets]. *)
Lemma place_bets_no_bets_key (self : ExecutionModule) (betting : BettingConfig)
      (decisions : list (gmap string PyVal)) :
  forall results added added' results',
    results !! "bets" = None ->
    place_bets self betting decisions results added = (added', Ok results') ->
    results' !! "bets" = None.
Proof.
  induction decisions as [| metadata rest IH]; intros results added added' results' Hnone.
  - cbn. intros [= _ <-]. exact Hnone.
  - cbn [place_bets].
    destruct (negb (is_bet metadata)); [now apply IH |].
    destruct (_calculate_bet_size betting _) as [bet_size |]; [| discriminate].
    cbn [mbind Exc_bind].
    destruct (required "min_bet" (cfg_min_bet betting)) as [min_bet |]; [| discriminate].
    cbn [mbind Exc_bind].
    destruct (Qltb bet_size min_bet); [now apply IH |].
    match goal with |- context [success ?b] => destruct (success b) end;
      [| now apply IH].
    apply IH.
    rewrite append_bet_other, !add_to_other by discriminate. exact Hnone.
Qed.

(** The result of [execute_betting_actions] has no key [bets]. *)
Lemma execute_betting_actions_no_bets_key (self : ExecutionModule)
      (betting : BettingConfig) (decisions : list (gmap string PyVal))
      (added : list MemoryItem) (results : gmap string Value) :
  execute_betting_actions self betting decisions = (added, Ok results) ->
  results !! "bets" = None.
Proof.
  unfold execute_betting_actions.
  destruct (place_bets _ _ _ _ _) as [added' [results' | e]] eqn:E; [| discriminate].
  intros [= _ <-].
  rewrite lookup_insert_ne by discriminate.
  eapply place_bets_no_bets_key; [| exact E].
  reflexivity.
Qed.

End ExecutionResults.

Section Ledger.
Import Controller.

Lemma keeps_ret {A} (a : A) : keeps_risk (mret a : Action A) (fun x => x = a).
Proof. intros c. split; [reflexivity |]. cbn. now intros ? [= <-]. Qed.

Lemma keeps_lift {A} (r : Exc A) : keeps_risk (lift r) (fun a => r = Ok a).
Proof. intros c. split; [reflexivity |]. cbn. now intros ? ->. Qed.

Lemma keeps_get {A} (f : AgentController -> A) : keeps_risk (get f) (fun _ => True).
Proof. intros c. split; [reflexivity | trivial]. Qed.

Lemma keeps_set_state (s : AgentState) : keeps_risk (set_state s) (fun _ => True).
Proof. intros c. split; [reflexivity | trivial]. Qed.

Lemma keeps_memory_add (item : MemoryItem) : keeps_risk (memory_add item) (fun _ => True).
Proof. intros c. split; [reflexivity | trivial]. Qed.

Lemma keeps_memory_add_all (items : list MemoryItem) :
  keeps_risk (memory_add_all items) (fun _ => True).
Proof. intros c. split; [reflexivity | trivial]. Qed.

Lemma keeps_weaken {A} (m : Action A) (P Q : A -> Prop) :
  keeps_risk m P -> (forall a, P a -> Q a) -> keeps_risk m Q.
Proof.
  intros Hm HPQ c. destruct (Hm c) as [H1 H2]. split; [exact H1 |].
  intros a Ha. apply HPQ, H2, Ha.
Qed.

Lemma keeps_bind {A B} (m : Action A) (f : A -> Action B) (P : A -> Prop) (Q : B -> Prop) :
  keeps_risk m P ->
  (forall a, P a -> keeps_risk (f a) Q) ->
  keeps_risk (m ≫= f) Q.
Proof.
  intros Hm Hf c. destruct (Hm c) as [H1 H2].
  unfold mbind, Action_bind.
  destruct (m c) as [c' [a | e]] eqn:E; cbn [fst snd] in *.
  - destruct (Hf a (H2 a eq_refl) c') as [H3 H4].
    split; [now rewrite H3 | exact H4].
  - split; [exact H1 | discriminate].
Qed.

Lemma keeps_try_except {A} (body : Action A) (handler : PyExc -> Action A)
      (P : A -> Prop) :
  keeps_risk body P ->
  (forall e, keeps_risk (handler e) P) ->
  keeps_risk (try_except body handler) P.
Proof.
  intros Hb Hh c. destruct (Hb c) as [H1 H2].
  unfold try_except.
  destruct (body c) as [c' [a | e]] eqn:E; cbn [fst snd] in *.
  - split; [exact H1 | exact H2].
  - destruct (Hh e c') as [H3 H4]. split; [now rewrite H3 | exact H4].
Qed.

Lemma keeps_for_each {A} (xs : list A) (body : A -> Action unit) :
  (forall x, keeps_risk (body x) (fun _ => True)) ->
  keeps_risk (for_each xs body) (fun _ => True).
Proof.
  intros Hb. induction xs as [| x rest IH]; cbn [for_each].
  - eapply keeps_weaken; [apply keeps_ret | trivial].
  - eapply keeps_bind; [apply Hb | intros; apply IH].
Qed.

Ltac keeps_step :=
  first
    [ apply keeps_set_state
    | apply keeps_memory_add
    | apply keeps_memory_add_all
    | apply keeps_get
    | apply keeps_lift
    | apply keeps_ret
    | (eapply keeps_weaken; [apply keeps_ret | trivial]; fail)
    | (eapply keeps_weaken; [apply keeps_lift | trivial]; fail)
    | (apply keeps_for_each; intros)
    | (eapply keeps_bind; [| intros ? ?]) ].

Lemma research_keeps_risk (w : World) :
  keeps_risk (_handle_research_state w) (fun _ => True).
Proof.
  unfold _handle_research_state, research_tasks, to_error_state.
  apply keeps_try_except; [| intros; apply keeps_set_state].
  repeat keeps_step.
Qed.

Lemma reasoning_keeps_risk (w : World) :
  keeps_risk (_handle_reasoning_state w) (fun _ => True).
Proof.
  unfold _handle_reasoning_state, to_error_state.
  apply keeps_try_except; [| intros; apply keeps_set_state].
  eapply keeps_bind; [apply keeps_get | intros betting _].
  destruct (Reasoning.execute_reasoning_tasks betting (research_data w)) as [added outcome].
  repeat keeps_step.
  destruct (Reasoning.actionable_bets _); apply keeps_set_state.
Qed.

Lemma risk_assessment_keeps_risk (w : World) :
  keeps_risk (_handle_risk_assessment_state w) (fun _ => True).
Proof.
  unfold _handle_risk_assessment_state, to_error_state.
  apply keeps_try_except; [| intros; apply keeps_set_state].
  cbv zeta.
  repeat keeps_step.
  - match goal with |- keeps_risk _ ?P => unify P (fun _ : Q => True) end.
    destruct (RiskManagement.should_bet _);
      (eapply keeps_weaken; [first [apply keeps_lift | apply keeps_ret] | trivial]).
  - destruct (List.filter _ _); apply keeps_set_state.
Qed.

(** The execution handler: the loop that would debit the balance runs
    over [execution_results.get("bets", [])], and the result of
    [execute_betting_actions] has no such key. *)
Lemma execution_keeps_risk (w : World) :
  keeps_risk (_handle_execution_state w) (fun _ => True).
Proof.
  intros c. unfold _handle_execution_state.
  revert c. change (keeps_risk (fun c =>
    try_except
      (execution_tasks (Execution.execute_betting_actions (execution_module c)) w)
      to_error_state c) (fun _ => True)).
  assert (H : forall execution,
             keeps_risk (try_except
                           (execution_tasks (Execution.execute_betting_actions execution) w)
                           to_error_state) (fun _ => True)).
  { intros execution. unfold execution_tasks, to_error_state.
    apply keeps_try_except; [| intros; apply keeps_set_state].
    cbv zeta.
    apply (keeps_bind _ _ (fun _ => True)); [| intros; apply keeps_set_state].
    destruct (List.filter original_found (risk_assessments w)) as [| a rest].
    { eapply keeps_weaken; [apply keeps_ret | trivial]. }
    eapply keeps_bind; [apply keeps_get | intros betting _].
    destruct (Execution.execute_betting_actions execution betting _)
      as [added outcome] eqn:E.
    eapply keeps_bind; [apply keeps_memory_add_all | intros _ _].
    eapply keeps_bind; [apply keeps_lift | intros results Hres].
    cbv beta in Hres. subst outcome.
    apply execute_betting_actions_no_bets_key in E.
    repeat (eapply keeps_bind; [first [apply keeps_lift | apply keeps_memory_add] | intros ? ?]).
    cbv beta in *.
    match goal with H : result_bets results = Ok _ |- _ =>
      unfold result_bets in H; rewrite E in H; injection H as <- end.
    cbn [for_each]. eapply keeps_weaken; [apply keeps_ret | trivial]. }
  intros c. apply H.
Qed.

Lemma idle_keeps_risk (w : World) :
  keeps_risk (_handle_idle_state w) (fun _ => True).
Proof.
  unfold _handle_idle_state.
  eapply keeps_bind; [apply keeps_lift | intros last _].
  eapply keeps_bind; [apply keeps_get | intros interval _].
  apply (keeps_bind _ _ (fun _ => True)).
  - destruct (Qgtb _ _); [apply keeps_set_state |].
    eapply keeps_weaken; [apply keeps_ret | trivial].
  - intros _ _. apply keeps_try_except.
    + repeat keeps_step.
    + intros _. eapply keeps_weaken; [apply keeps_ret | trivial].
Qed.

Lemma error_keeps_risk : keeps_risk _handle_error_state (fun _ => True).
Proof. unfold _handle_error_state. repeat keeps_step. Qed.

(** No pass of the loop touches the risk management module or the loop
    interval. *)
Lemma process_keeps_fixed_part (w : World) (c : AgentController) :
  fixed_part (fst (_process_current_state w c)) = fixed_part c.
Proof.
  unfold _process_current_state. destruct (state c).
  - reflexivity.
  - apply research_keeps_risk.
  - apply reasoning_keeps_risk.
  - apply risk_assessment_keeps_risk.
  - apply execution_keeps_risk.
  - apply idle_keeps_risk.
  - apply error_keeps_risk.
Qed.

Lemma process_keeps_risk (w : World) (c : AgentController) :
  risk_management_module (fst (_process_current_state w c)) = risk_management_module c.
Proof. exact (f_equal fst (process_keeps_fixed_part w c)). Qed.

Lemma process_keeps_loop_interval (w : World) (c : AgentController) :
  loop_interval (fst (_process_current_state w c)) = loop_interval c.
Proof. exact (f_equal snd (process_keeps_fixed_part w c)). Qed.

Lemma main_loop_keeps_risk (worlds : list World) :
  forall c trace,
    risk_management_module (fst (fst (main_loop worlds c trace)))
    = risk_management_module c.
Proof.
  induction worlds as [| w rest IH]; intros c trace; cbn [main_loop].
  - destruct (negb (is_running c)); reflexivity.
  - destruct (negb (is_running c)); [reflexivity |].
    pose proof (process_keeps_risk w c) as Hp.
    destruct (_process_current_state w c) as [c' [[] | e]]; cbn [fst] in Hp.
    + destruct (sleep (loop_interval c')) as [slept | e]; [| exact Hp].
      rewrite IH. destruct (stop_requested w); exact Hp.
    + exact Hp.
Qed.

Lemma initialize_keeps_risk (initialize_research_queue : Exc unit) :
  keeps_risk (_initialize initialize_research_queue) (fun _ => True).
Proof. unfold _initialize. repeat keeps_step. Qed.

Lemma start_keeps_risk (initialize_research_queue : Exc unit) (worlds : list World)
      (c : AgentController) :
  risk_management_module (fst (fst (start initialize_research_queue worlds c)))
  = risk_management_module c.
Proof.
  unfold start.
  set (c0 := with_state INITIALIZING (with_is_running true c)).
  destruct (initialize_keeps_risk initialize_research_queue c0) as [Hi _].
  apply (f_equal fst) in Hi. cbn [fst fixed_part] in Hi.
  destruct (_initialize initialize_research_queue c0) as [c' [[] | e]]; cbn [fst] in Hi.
  - pose proof (main_loop_keeps_risk worlds c' []) as Hm.
    destruct (main_loop worlds c' []) as [[c'' trace] [[] | e]];
      cbn [fst] in *; (etransitivity; [| exact Hi]); (etransitivity; [| exact Hm]);
      reflexivity.
  - exact Hi.
Qed.

(** What the last loop of the execution handler is written for: were the
    placed bets listed under the key [bets], each would be recorded as a loss
    of its amount at the time it is placed. *)
Lemma execution_tasks_debit_bets_listed_under_bets
      (w : World) (c : AgentController) (bet : Execution.BetResult) :
  List.filter original_found (risk_assessments w) <> [] ->
  balance (fst (execution_tasks (reporting_under_bets [bet]) w c))
  = balance c - Execution.amount bet.
Proof.
  intros Hne. unfold execution_tasks.
  destruct (List.filter original_found (risk_assessments w)); [contradiction |].
  reflexivity.
Qed.

(** C5. The balance of the ledger changes only when a settled outcome, an
    amount won or lost, is reported through [update_bankroll]: a step that
    changes the balance is a settlement; no pass of the controller's loop
    changes it, be it the reasoning pass that sizes stakes, the risk
    assessment pass that validates them or the execution pass that submits
    bets; and a whole run of [start] leaves it as it was. *)
Theorem bankroll_changes_only_on_settlement :
  (forall (s : Step) (c : AgentController),
     ~ balance (step s c) == balance c ->
     exists amount is_win,
       s = Settle amount is_win /\
       balance (step s c)
       = (if is_win then balance c + amount else balance c - amount)) /\
  (forall (w : World) (c : AgentController),
     balance (fst (_process_current_state w c)) = balance c) /\
  (forall (initialize_research_queue : Exc unit) (worlds : list World)
          (c : AgentController),
     balance (fst (fst (start initialize_research_queue worlds c))) = balance c).
Proof.
  split; [| split].
  - intros [w | amount is_win] c Hne.
    + exfalso. apply Hne. unfold balance, step.
      now rewrite process_keeps_risk.
    + exists amount, is_win. split; [reflexivity |].
      unfold balance, step. destruct is_win; reflexivity.
  - intros w c. unfold balance. now rewrite process_keeps_risk.
  - intros i worlds c. unfold balance. now rewrite start_keeps_risk.
Qed.

(** A win of 75 on a balance of 1000 is a settlement. *)
Lemma bankroll_changes_only_on_settlement_witness :
  exists amount is_win,
    Settle 75 true = Settle amount is_win /\
    balance (step (Settle 75 true) sample_controller)
    = (if is_win then balance sample_controller + amount
       else balance sample_controller - amount).
Proof.
  apply (proj1 bankroll_changes_only_on_settlement (Settle 75 true) sample_controller).
  vm_compute. discriminate.
Defined.

End Ledger.

(* ----------------------------------------------------------------- *)
(** ** The sleep between two passes *)

Section LoopSleep.
Import Controller.

Lemma sleeps_app (t1 t2 : list Event) : sleeps (t1 ++ t2) = sleeps t1 ++ sleeps t2.
Proof. unfold sleeps. apply omap_app. Qed.

(** Every sleep of the controller's loop lasts [loop_interval], whatever
    the passes took. *)
Lemma main_loop_sleeps_loop_interval (worlds : list World) :
  forall c trace,
    Forall (fun seconds => seconds = loop_interval c) (sleeps trace) ->
    Forall (fun seconds => seconds = loop_interval c)
           (sleeps (snd (fst (main_loop worlds c trace)))).
Proof.
  induction worlds as [| w rest IH]; intros c trace Ht; cbn [main_loop].
  - destruct (negb (is_running c)); exact Ht.
  - destruct (negb (is_running c)); [exact Ht |].
    pose proof (process_keeps_loop_interval w c) as Hp.
    destruct (_process_current_state w c) as [c' [[] | e]]; cbn [fst snd] in *;
      [| exact Ht].
    unfold sleep. destruct (Qltb (loop_interval c') 0); cbn [fst snd].
    + rewrite sleeps_app. apply Forall_app. split; [exact Ht | constructor].
    + assert (Hc : loop_interval (if stop_requested w
                                  then with_is_running false c' else c')
                   = loop_interval c)
        by (destruct (stop_requested w); exact Hp).
      rewrite <- Hc. apply IH. rewrite Hc.
      rewrite !sleeps_app. repeat (apply Forall_app; split); try exact Ht.
      * constructor.
      * cbn. constructor; [exact Hp | constructor].
Qed.

(** The loop of [agent/agent.py] sleeps at least one second. *)
Lemma agent_sleep_time_at_least_one (loop_interval cycle_duration : Q) :
  1 <= Agent.sleep_time loop_interval cycle_duration /\
  loop_interval - cycle_duration <= Agent.sleep_time loop_interval cycle_duration.
Proof. apply pymax_lower. Qed.

(** C8. The code at the failing inputs.  With a loop interval of 60
    seconds and a pass that takes 75 seconds the controller sleeps 60
    seconds, not max(1, 60 - 75) = 1; after a pass of 20 seconds it sleeps
    60 seconds, not 40; with a loop interval of 0 it sleeps 0 seconds.  The
    loop of [agent/agent.py] computes max(1, interval - duration). *)
Theorem controller_sleeps_loop_interval_whatever_the_pass_took :
  sleeps (snd (fst (main_loop [quiet_world 75] sample_controller []))) = [60] /\
  Agent.sleep_time 60 75 == 1 /\
  sleeps (snd (fst (main_loop [quiet_world 20] sample_controller []))) = [60] /\
  Agent.sleep_time 60 20 == 40 /\
  sleeps (snd (fst (main_loop [quiet_world 5] zero_interval_controller []))) = [0] /\
  Agent.sleep_time 0 5 == 1.
Proof.
  repeat split; vm_compute; reflexivity.
Qed.

End LoopSleep.

(* ----------------------------------------------------------------- *)
(** ** Portfolio scaling *)

Section Portfolio.
Import RiskManagement.

(** C2. The code at the failing input: two approved decisions on the same
    game and team with stakes 60 and 80 and a bankroll of 1000 (cap 100).
    Both decisions of the result carry the stake 60 * 100/140 = 300/7: the
    second stake is not 80 * 100/140 and the stakes sum to 600/7, not to
    the cap.  With two different games the stakes are 300/7 and 400/7 and
    sum to the cap. *)
Theorem same_game_and_team_breaks_proportional_scaling :
  (exists validated s1 s2,
     validate_betting_decisions (init settings) quiet_day same_game_decisions
     = Ok validated /\
     approved_stakes validated = [Some s1; Some s2] /\
     s1 == 60 * (100 / 140) /\
     s2 == 60 * (100 / 140) /\
     ~ s2 == 80 * (100 / 140) /\
     s1 + s2 == 600 # 7 /\
     ~ s1 + s2 == bankroll (init settings) * (1 # 10)) /\
  (exists validated s1 s2,
     validate_betting_decisions (init settings) quiet_day two_game_decisions
     = Ok validated /\
     approved_stakes validated = [Some s1; Some s2] /\
     s1 == 60 * (100 / 140) /\
     s2 == 80 * (100 / 140) /\
     s1 + s2 == bankroll (init settings) * (1 # 10)).
Proof.
  split.
  - eexists. eexists. eexists.
    split; [vm_compute; reflexivity |].
    split; [vm_compute; reflexivity |].
    repeat split; vm_compute; try reflexivity; discriminate.
  - eexists. eexists. eexists.
    split; [vm_compute; reflexivity |].
    split; [vm_compute; reflexivity |].
    repeat split; vm_compute; reflexivity.
Qed.

End Portfolio.

Section ProportionalScaling.
Import RiskManagement.

Lemma lookup_total_middle (pre l : list Decision) (x : Decision) :
  (pre ++ x :: l) !!! length pre = x.
Proof.
  apply list_lookup_total_correct. apply list_lookup_middle. reflexivity.
Qed.

(** The active objects, read back, are the approved decisions in order. *)
Lemma active_decisions_read_back (l pre : list Decision) :
  List.map (fun r => (pre ++ l) !!! r)
    (List.filter (fun r => should_bet ((pre ++ l) !!! r)) (seq (length pre) (length l)))
  = List.filter should_bet l.
Proof.
  revert pre. induction l as [| x l IH]; intros pre; [reflexivity |].
  cbn [length seq List.filter].
  rewrite lookup_total_middle.
  specialize (IH (pre ++ [x])).
  rewrite <- app_assoc in IH. cbn [app] in IH.
  rewrite length_app in IH. cbn [length] in IH.
  replace (length pre + 1)%nat with (S (length pre)) in IH by lia.
  destruct (should_bet x); cbn [List.map]; [rewrite lookup_total_middle |];
    rewrite IH; reflexivity.
Qed.

(** The total that the code computes is the sum of the approved stakes,
    and it exists only if every approved stake is a number. *)
Lemma sum_bet_sizes_spec (store : Store) (active : list nat) :
  forall acc total,
    sum_bet_sizes store active acc = Ok total ->
    total == acc + fold_right (fun d t => default 0 (bet_size d) + t) 0
                     (List.map (fun r => store !!! r) active) /\
    forall r, In r active -> exists q, bet_size (store !!! r) = Some q.
Proof.
  induction active as [| r rest IH]; intros acc total; cbn [sum_bet_sizes].
  - intros [= <-]. split; [cbn; lra | intros r []].
  - destruct (bet_size (store !!! r)) as [q |] eqn:Eq; cbn; [| discriminate].
    intros H. destruct (IH _ _ H) as [Ht Hn]. split.
    + rewrite Ht, Eq. cbn. lra.
    + intros r' [<- | Hin]; [eauto | auto].
Qed.

Lemma scaled_should_bet (factor : Q) (d : Decision) :
  should_bet (scaled factor d) = should_bet d.
Proof. unfold scaled. destruct (bet_size d); reflexivity. Qed.

Lemma scaled_bet_key (factor : Q) (d : Decision) :
  bet_key (scaled factor d) = bet_key d.
Proof. unfold scaled. destruct (bet_size d); reflexivity. Qed.

(** The scaling loop writes the scaled decision at every active address and
    nothing else. *)
Lemma scale_decisions_spec (factor : Q) (active : list nat) :
  forall store : Store,
    List.NoDup active ->
    (forall r, In r active ->
       (r < length store)%nat /\ exists q, bet_size (store !!! r) = Some q) ->
    exists store' : Store,
      scale_decisions factor store active = Ok store' /\
      length store' = length store /\
      (forall i, In i active -> store' !!! i = scaled factor (store !!! i)) /\
      (forall i, ~ In i active -> store' !!! i = store !!! i).
Proof.
  induction active as [| r rest IH]; intros store Hnd Hact.
  - exists store. cbn. repeat split. intros i [].
  - inversion Hnd as [| ? ? Hnotin Hnd']; subst.
    destruct (Hact r (or_introl eq_refl)) as [Hlt [q Hq]].
    cbn [scale_decisions]. unfold scale_decision. rewrite Hq. cbn [number mbind Exc_bind].
    set (store1 := <[r := _]> store).
    assert (Hother : forall r', r' <> r -> store1 !!! r' = store !!! r').
    { intros r' Hne. unfold store1. apply list_lookup_total_insert_ne. congruence. }
    assert (Hr : store1 !!! r = scaled factor (store !!! r)).
    { unfold store1. rewrite list_lookup_total_insert_eq by exact Hlt.
      unfold scaled. now rewrite Hq. }
    destruct (IH store1 Hnd') as (store' & Hs & Hlen & Hin & Hout).
    { intros r' Hr'. assert (r' <> r) by (intros ->; contradiction).
      destruct (Hact r' (or_intror Hr')) as [Hlt' Hq'].
      split; [unfold store1; now rewrite length_insert |].
      now rewrite Hother. }
    exists store'. split; [exact Hs |]. split.
    { rewrite Hlen. unfold store1. apply length_insert. }
    split.
    + intros i [<- | Hi].
      * now rewrite (Hout r Hnotin).
      * rewrite (Hin i Hi). assert (i <> r) by (intros ->; contradiction).
        now rewrite Hother.
    + intros i Hni. rewrite Hout by (intros ?; apply Hni; now right).
      apply Hother. intros ->. apply Hni. now left.
Qed.


Lemma same_game_and_team_iff (a b : Decision) :
  same_game_and_team a b = true <-> bet_key a = bet_key b.
Proof.
  unfold same_game_and_team, bet_key.
  rewrite andb_true_iff, !bool_decide_eq_true.
  split; [intros [-> ->]; reflexivity | intros [= -> ->]; auto].
Qed.


Lemma read_back_all (l : list Decision) :
  List.map (fun r => l !!! r) (seq 0 (length l)) = l.
Proof.
  apply (list_eq_same_length _ _ (length l)); [reflexivity | |].
  - now rewrite length_map, length_seq.
  - intros i x y Hi Hx Hy.
    rewrite list_lookup_fmap, lookup_seq_lt in Hx by exact Hi.
    cbn in Hx. injection Hx as <-.
    now apply list_lookup_total_correct.
Qed.






End ProportionalScaling.
(* ================================================================= *)
(** * Further properties of the modules *)

(** ** Reasoning: prices, Kelly fractions and the loop over the games *)

Section Prices.
Import Reasoning.

Lemma odds_to_probability_not_number (odds : PyVal) :
  truthy odds = true -> (forall q, odds <> PNum q) ->
  _odds_to_probability odds = Raise TypeError.
Proof.
  intros T N. unfold _odds_to_probability. rewrite T. cbn.
  destruct odds; try reflexivity. destruct (N q eq_refl).
Qed.


Lemma implied_or_half_not_number (ml : PyVal) :
  truthy ml = true -> (forall q, ml <> PNum q) ->
  implied_or_half ml = Raise TypeError.
Proof.
  intros T N. unfold implied_or_half. rewrite T.
  apply odds_to_probability_not_number; assumption.
Qed.

(** X1. A moneyline and its mirror image are priced as complementary
    probabilities: for every number [odds], the implied probabilities of
    [odds] and of [- odds] both exist and add up to one. *)
Theorem mirrored_odds_are_complementary (odds : Q) :
  exists p q,
    _odds_to_probability (PNum odds) = Ok p /\
    _odds_to_probability (PNum (- odds)) = Ok q /\
    p + q == 1.
Proof.
  destruct (odds_to_probability_num odds) as (p & Ep & _ & _ & Ppos & Pneg & Pzero).
  destruct (odds_to_probability_num (- odds)) as (q & Eq & _ & _ & Qpos & Qneg & Qzero).
  exists p, q. split; [assumption |]. split; [assumption |].
  destruct (Q_dec odds 0) as [[Neg | Pos] | Zero].
  - rewrite (Pneg Neg), (Qpos ltac:(lra)).
    rewrite (Qabs_neg odds) by lra. field. lra.
  - rewrite (Ppos Pos), (Qneg ltac:(lra)).
    rewrite (Qabs_neg (- odds)) by lra. field. lra.
  - rewrite (Pzero Zero), (Qzero ltac:(lra)). reflexivity.
Qed.


End Prices.

Section KellyFractions.
Import Reasoning.

Lemma inverse_minus_one (p : Q) : 0 < p -> 1 / p - 1 == (1 - p) / p.
Proof. intros Hp. field. lra. Qed.

Lemma inverse_minus_one_pos (p : Q) : 0 < p -> p < 1 -> 0 < 1 / p - 1.
Proof.
  intros Hp Hp1. rewrite inverse_minus_one by assumption.
  apply Qlt_shift_div_l; lra.
Qed.

Lemma kelly_at (edge p : Q) :
  0 < p -> ~ 1 / p - 1 == 0 ->
  kelly edge p = Ok (pymax 0 (edge / (1 / p - 1))).
Proof.
  intros Hp Hd. unfold kelly.
  rewrite (proj2 (Qgtb_true p 0)) by assumption.
  rewrite pydiv_Ok by lra. cbn.
  rewrite pydiv_Ok by assumption. reflexivity.
Qed.

(** X2. The Kelly fraction of [calculate_expected_value], case by case:
    for an implied probability strictly between 0 and 1 it is never
    negative, it is 0 for an edge that is not positive and
    [edge * p / (1 - p)] for a positive edge; for an implied probability
    that is not positive it is 0; and for an implied probability of
    exactly 1 the division raises [ZeroDivisionError]. *)
Theorem kelly_cases (edge p : Q) :
  (0 < p -> p < 1 ->
   exists k,
     kelly edge p = Ok k /\ 0 <= k /\
     (edge <= 0 -> k == 0) /\
     (0 < edge -> k == edge * p / (1 - p))) /\
  (p <= 0 -> kelly edge p = Ok 0) /\
  (p == 1 -> kelly edge p = Raise ZeroDivisionError).
Proof.
  split; [| split].
  - intros Hp Hp1.
    pose proof (inverse_minus_one_pos p Hp Hp1) as Hd.
    exists (pymax 0 (edge / (1 / p - 1))).
    split; [apply kelly_at; lra |].
    split; [apply pymax_lower |].
    split.
    + intros He. unfold pymax.
      rewrite (proj2 (Qgtb_false (edge / (1 / p - 1)) 0)); [reflexivity |].
      apply Qle_shift_div_r; lra.
    + intros He. unfold pymax.
      rewrite (proj2 (Qgtb_true (edge / (1 / p - 1)) 0)).
      * field. lra.
      * apply Qlt_shift_div_l; lra.
  - intros Hp. unfold kelly.
    rewrite (proj2 (Qgtb_false p 0)) by assumption. reflexivity.
  - intros Hp. unfold kelly.
    rewrite (proj2 (Qgtb_true p 0)) by lra.
    rewrite pydiv_Ok by lra. cbn.
    unfold pydiv.
    assert (Z : Qeq_bool (1 / p - 1) 0 = true).
    { apply Qeq_bool_iff. rewrite Hp. reflexivity. }
    rewrite Z. reflexivity.
Qed.

Lemma kelly_cases_witness :
  exists k,
    kelly (3 # 100) (52 # 100) = Ok k /\ 0 <= k /\
    ((3 # 100) <= 0 -> k == 0) /\
    (0 < (3 # 100) -> k == (3 # 100) * (52 # 100) / (1 - (52 # 100))).
Proof.
  apply (proj1 (kelly_cases (3 # 100) (52 # 100))); reflexivity.
Defined.




End KellyFractions.

Section MalformedOddsData.
Import Reasoning.

(** X3. Odds data that cannot be read never makes the comparison raise,
    but it discards the whole market: when [odds_data] is not empty and is
    not a dict, or when one of the four moneyline quotes is a non-empty
    value that is not a number (a string, a dict), the result is the
    placeholder comparison of 0.52 / 0.48 with an empty [best_odds], whatever
    the other quotes say. *)
Theorem unreadable_odds_data_gives_placeholder
    (probabilities : Probabilities) (game_id : option string) (odds_data : PyVal) :
  (truthy odds_data = true -> (forall items, odds_data <> PDict items) ->
   compare_to_market_odds probabilities game_id odds_data
   = placeholder_comparison probabilities game_id BestEmpty) /\
  (forall dk_home dk_away tl_home tl_away ml,
     truthy odds_data = true ->
     moneyline odds_data "home" "dk" = Ok dk_home ->
     moneyline odds_data "away" "dk" = Ok dk_away ->
     moneyline odds_data "home" "true_line" = Ok tl_home ->
     moneyline odds_data "away" "true_line" = Ok tl_away ->
     In ml [dk_home; dk_away; tl_home; tl_away] ->
     truthy ml = true -> (forall q, ml <> PNum q) ->
     compare_to_market_odds probabilities game_id odds_data
     = placeholder_comparison probabilities game_id BestEmpty).
Proof.
  split.
  - intros T N. apply compare_when_body_raises.
    unfold compare_to_market_odds_body. rewrite T. cbn [negb].
    destruct odds_data as [| q | s | items]; try reflexivity.
    destruct (N items eq_refl).
  - intros dk_home dk_away tl_home tl_away ml T M1 M2 M3 M4 Hin Tml Nml.
    apply compare_when_body_raises.
    pose proof (implied_or_half_not_number ml Tml Nml) as R.
    unfold compare_to_market_odds_body. rewrite T, M1, M2, M3, M4. cbn.
    destruct Hin as [<- | [<- | [<- | [<- | []]]]].
    + rewrite R. reflexivity.
    + destruct (implied_or_half dk_home); cbn; [| reflexivity].
      rewrite R. reflexivity.
    + destruct (implied_or_half dk_home); cbn; [| reflexivity].
      destruct (implied_or_half dk_away); cbn; [| reflexivity].
      rewrite R. reflexivity.
    + destruct (implied_or_half dk_home); cbn; [| reflexivity].
      destruct (implied_or_half dk_away); cbn; [| reflexivity].
      destruct (implied_or_half tl_home); cbn; [| reflexivity].
      rewrite R. reflexivity.
Qed.

End MalformedOddsData.

Lemma unreadable_odds_data_gives_placeholder_witness :
  Reasoning.compare_to_market_odds sample_probabilities (Some "game-1")
    odds_data_with_text_quote
  = Reasoning.placeholder_comparison sample_probabilities (Some "game-1")
      Reasoning.BestEmpty.
Proof.
  apply (proj2 (unreadable_odds_data_gives_placeholder sample_probabilities
                  (Some "game-1") odds_data_with_text_quote))
    with (dk_home := PStr "-110") (dk_away := PNum 100)
         (tl_home := PNum (-120)) (tl_away := PNone) (ml := PStr "-110");
    try reflexivity.
  - left. reflexivity.
  - intros q. discriminate.
Defined.

Section ReasoningLoop.
Import Reasoning.








End ReasoningLoop.

Section OverallFigures.
Import Reasoning.


Lemma count_succ (n : nat) : inject_Z (Z.of_nat (S n)) == inject_Z (Z.of_nat n) + 1.
Proof. rewrite Nat2Z.inj_succ. unfold Z.succ. rewrite inject_Z_plus. reflexivity. Qed.









End OverallFigures.

Section BestBook.
Import Reasoning.

Lemma best_of_two_books (prob p_dk p_tl : Q) :
  pymax (prob - p_dk) (prob - p_tl) == prob - Qmin p_dk p_tl /\
  (p_dk <= p_tl -> Qle_bool (prob - p_tl) (prob - p_dk) = true) /\
  (p_tl < p_dk -> Qle_bool (prob - p_tl) (prob - p_dk) = false).
Proof.
  split; [| split].
  - rewrite pymax_Qmax.
    destruct (Qlt_le_dec p_tl p_dk) as [Lt | Le].
    + rewrite Q.max_r, Q.min_r by lra. reflexivity.
    + rewrite Q.max_l, Q.min_l by lra. reflexivity.
  - intros Le. apply Qle_bool_iff. lra.
  - intros Lt. destruct (Qle_bool _ _) eqn:B; [| reflexivity].
    apply Qle_bool_iff in B. lra.
Qed.

(** X7. With readable quotes, the edge of a side is the model
    probability minus the lower of the two books' implied probabilities, and
    the best book named for that side is the book with the lower implied
    probability, DraftKings when the two are equal; the odds reported as
    best are that book's quote. *)
Theorem best_book_has_the_lower_implied_probability
    (probabilities : Probabilities) (game_id : option string) (odds_data : PyVal)
    (dk_home dk_away tl_home tl_away : PyVal)
    (p_dk_home p_dk_away p_tl_home p_tl_away : Q) :
  truthy odds_data = true ->
  moneyline odds_data "home" "dk" = Ok dk_home ->
  moneyline odds_data "away" "dk" = Ok dk_away ->
  moneyline odds_data "home" "true_line" = Ok tl_home ->
  moneyline odds_data "away" "true_line" = Ok tl_away ->
  implied_or_half dk_home = Ok p_dk_home ->
  implied_or_half dk_away = Ok p_dk_away ->
  implied_or_half tl_home = Ok p_tl_home ->
  implied_or_half tl_away = Ok p_tl_away ->
  let mc := compare_to_market_odds probabilities game_id odds_data in
  let home_prob := default (1 # 2) (home_win_probability probabilities) in
  let away_prob := default (1 # 2) (away_win_probability probabilities) in
  exists home away,
    best_odds mc = BestBoth home away /\
    best_edge home = home_edge mc /\ best_edge away = away_edge mc /\
    home_edge mc == home_prob - Qmin p_dk_home p_tl_home /\
    away_edge mc == away_prob - Qmin p_dk_away p_tl_away /\
    (p_dk_home <= p_tl_home ->
     best_book home = "DraftKings" /\ best_odds_value home = dk_home) /\
    (p_tl_home < p_dk_home ->
     best_book home = "True Line" /\ best_odds_value home = tl_home) /\
    (p_dk_away <= p_tl_away ->
     best_book away = "DraftKings" /\ best_odds_value away = dk_away) /\
    (p_tl_away < p_dk_away ->
     best_book away = "True Line" /\ best_odds_value away = tl_away).
Proof.
  intros T M1 M2 M3 M4 I1 I2 I3 I4. cbv zeta.
  unfold compare_to_market_odds, compare_to_market_odds_body.
  rewrite T, M1, M2, M3, M4. cbn. rewrite I1, I2, I3, I4. cbn.
  set (home_prob := default (1 # 2) (home_win_probability probabilities)).
  set (away_prob := default (1 # 2) (away_win_probability probabilities)).
  destruct (best_of_two_books home_prob p_dk_home p_tl_home) as (Eh & Dh & Th).
  destruct (best_of_two_books away_prob p_dk_away p_tl_away) as (Ea & Da & Ta).
  eexists _, _. split; [reflexivity |]. cbn.
  split; [reflexivity |]. split; [reflexivity |].
  split; [exact Eh |]. split; [exact Ea |].
  repeat split.
  all: first [rewrite Dh by assumption | rewrite Th by assumption
             | rewrite Da by assumption | rewrite Ta by assumption];
    reflexivity.
Qed.

Lemma best_book_has_the_lower_implied_probability_witness :
  let mc := compare_to_market_odds sample_probabilities (Some "game-1") sample_odds_data in
  exists home away,
    best_odds mc = BestBoth home away /\
    best_edge home = home_edge mc /\ best_edge away = away_edge mc /\
    home_edge mc == (55 # 100) - Qmin (100 / 200) (1 # 2) /\
    away_edge mc == (45 # 100) - Qmin (150 / 250) (1 # 2) /\
    (100 / 200 <= (1 # 2) ->
     best_book home = "DraftKings" /\ best_odds_value home = PNum 100) /\
    ((1 # 2) < 100 / 200 ->
     best_book home = "True Line" /\ best_odds_value home = PNone) /\
    (150 / 250 <= (1 # 2) ->
     best_book away = "DraftKings" /\ best_odds_value away = PNum (-150)) /\
    ((1 # 2) < 150 / 250 ->
     best_book away = "True Line" /\ best_odds_value away = PNone).
Proof.
  apply (best_book_has_the_lower_implied_probability sample_probabilities (Some "game-1")
           sample_odds_data (PNum 100) (PNum (-150)) PNone PNone
           (100 / 200) (150 / 250) (1 # 2) (1 # 2));
    reflexivity.
Defined.

End BestBook.

(* ================================================================= *)
(** ** Risk management: one decision *)

Section OneDecision.
Import RiskManagement.

Lemma validate_rejected (self : RiskManagementModule) (today : DailyRecords)
      (d : Decision) :
  should_bet d = false -> validate_betting_decision self today d = Ok d.
Proof. intros S. unfold validate_betting_decision. rewrite S. reflexivity. Qed.

(** What an approval tells about the decision that came in. *)
Lemma validate_approved_inv (self : RiskManagementModule) (today : DailyRecords)
      (d d' : Decision) :
  validate_betting_decision self today d = Ok d' ->
  should_bet d' = true ->
  should_bet d = true /\
  _check_daily_bet_limit self today = true /\
  _check_daily_loss_limit self today = true /\
  exists ev size stake,
    expected_value d = Some ev /\ min_ev_threshold self <= ev /\
    bet_size d = Some size /\
    stake == pymax (min_bet self) (pymin size (max_bet self)) /\
    d' = set_bet_size (Some stake) (set_original_bet_size (Some size) d)
    \/
    expected_value d = Some ev /\ min_ev_threshold self <= ev /\
    bet_size d = Some size /\
    stake = pymax (min_bet self) (pymin size (max_bet self)) /\
    d' = set_note [Txt "Bet size adjusted from $"; Fixed2 size;
                   Txt " to $"; Fixed2 stake]
           (set_bet_size (Some stake) (set_original_bet_size (Some size) d)).
Proof.
  unfold validate_betting_decision.
  destruct (should_bet d) eqn:S; cbn [negb].
  2:{ intros [= <-] S'. congruence. }
  destruct (expected_value d) as [ev |] eqn:Ev; cbn; [| discriminate].
  destruct (Qltb ev (min_ev_threshold self)) eqn:Thr.
  { intros [= <-]. cbn. discriminate. }
  apply Qltb_false in Thr.
  destruct (bet_size d) as [size |] eqn:Sz; cbn; [| discriminate].
  set (stake := pymax (min_bet self) (pymin size (max_bet self))).
  destruct (_check_daily_bet_limit self today) eqn:Cb; cbn [negb].
  2:{ intros [= <-]. destruct (negb (Qeq_bool stake size)); cbn; discriminate. }
  destruct (_check_daily_loss_limit self today) eqn:Cl; cbn [negb].
  2:{ intros [= <-]. destruct (negb (Qeq_bool stake size)); cbn; discriminate. }
  destruct (Qeq_bool stake size) eqn:Same; cbn [negb]; intros [= <-] _;
    (split; [reflexivity |]); (split; [reflexivity |]); (split; [reflexivity |]).
  - exists ev, size, size. left.
    apply Qeq_bool_iff in Same. repeat split; try assumption.
    + symmetry. exact Same.
    + unfold set_bet_size, set_original_bet_size. cbn. rewrite Sz.
      destruct d; reflexivity.
  - exists ev, size, stake. right. repeat split; assumption || reflexivity.
Qed.

(** X8. A decision that [validate_betting_decision] returns approved
    has passed every rule: it came in approved, neither daily limit is
    reached, its expected value is a number not below [min_ev_threshold], the
    stake that came in is recorded as [original_bet_size], the stake that
    goes out is the incoming stake clamped to [min_bet, max_bet] (so never
    below [min_bet], and never above [max_bet] when [min_bet <= max_bet]),
    and game, team and expected value are untouched. *)
Theorem approved_decision_has_passed_every_rule
    (self : RiskManagementModule) (today : DailyRecords) (d d' : Decision) :
  validate_betting_decision self today d = Ok d' ->
  should_bet d' = true ->
  should_bet d = true /\
  _check_daily_bet_limit self today = true /\
  _check_daily_loss_limit self today = true /\
  game_id d' = game_id d /\ team d' = team d /\
  expected_value d' = expected_value d /\
  original_bet_size d' = Some (bet_size d) /\
  exists ev size stake,
    expected_value d = Some ev /\ min_ev_threshold self <= ev /\
    bet_size d = Some size /\ bet_size d' = Some stake /\
    stake == Qmax (min_bet self) (Qmin size (max_bet self)) /\
    min_bet self <= stake /\
    (min_bet self <= max_bet self -> stake <= max_bet self).
Proof.
  intros V S.
  destruct (validate_approved_inv self today d d' V S)
    as (Sd & Cb & Cl & ev & size & stake & H).
  assert (B : stake == pymax (min_bet self) (pymin size (max_bet self)) /\
              expected_value d = Some ev /\ min_ev_threshold self <= ev /\
              bet_size d = Some size /\
              bet_size d' = Some stake /\ game_id d' = game_id d /\
              team d' = team d /\ expected_value d' = expected_value d /\
              original_bet_size d' = Some (Some size)).
  { destruct H as [(Ev & Thr & Sz & St & ->) | (Ev & Thr & Sz & St & ->)]; cbn;
      repeat split; try assumption; try reflexivity.
    rewrite St. reflexivity. }
  destruct B as (St & Ev & Thr & Sz & Sz' & G & T & E & O).
  repeat (split; [assumption |]).
  split; [rewrite O, Sz; reflexivity |].
  exists ev, size, stake. repeat (split; [assumption |]).
  split; [| split].
  - rewrite St, pymax_Qmax, pymin_Qmin. reflexivity.
  - rewrite St. apply pymax_lower.
  - intros Le. rewrite St. apply clamp_bounds. exact Le.
Qed.

Lemma approved_decision_has_passed_every_rule_witness :
  _check_daily_bet_limit (init settings) quiet_day = true.
Proof.
  exact (proj1 (proj2
    (approved_decision_has_passed_every_rule (init settings) quiet_day
       (approved "game-1" "home" 160)
       (set_note [Txt "Bet size adjusted from $"; Fixed2 160; Txt " to $"; Fixed2 100]
          (set_bet_size (Some 100)
             (set_original_bet_size (Some 160) (approved "game-1" "home" 160))))
       eq_refl eq_refl))).
Defined.

(** X9. [validate_betting_decision] raises only for want of a number,
    and then a [TypeError]: exactly when the decision comes in approved and
    either its expected value is [None], or its expected value is not below
    the threshold and its stake is [None]. *)
Theorem validation_raises_only_for_want_of_a_number
    (self : RiskManagementModule) (today : DailyRecords) (d : Decision) (e : PyExc) :
  validate_betting_decision self today d = Raise e <->
  e = TypeError /\ should_bet d = true /\
  (expected_value d = None \/
   exists ev, expected_value d = Some ev /\ min_ev_threshold self <= ev /\
              bet_size d = None).
Proof.
  unfold validate_betting_decision.
  destruct (should_bet d) eqn:S; cbn [negb].
  2:{ split; [discriminate | intros (_ & [=] & _)]. }
  destruct (expected_value d) as [ev |] eqn:Ev; cbn.
  2:{ split; [intros [= <-]; auto | intros (-> & _); reflexivity]. }
  destruct (Qltb ev (min_ev_threshold self)) eqn:Thr.
  { apply Qltb_true in Thr. split; [discriminate |].
    intros (_ & _ & [[=] | (ev' & [= <-] & Le & _)]). lra. }
  apply Qltb_false in Thr.
  destruct (bet_size d) as [size |] eqn:Sz; cbn.
  2:{ split; [intros [= <-] | intros (-> & _); reflexivity].
      split; [reflexivity |]. split; [reflexivity |]. right. eauto. }
  split.
  - destruct (negb (_check_daily_bet_limit self today));
      [discriminate |].
    destruct (negb (_check_daily_loss_limit self today)); discriminate.
  - intros (_ & _ & [[=] | (ev' & _ & _ & [=])]).
Qed.

End OneDecision.

(* ================================================================= *)
(** ** Risk management: the limits of the day *)

Section DailyLimits.
Import RiskManagement.

Lemma Qltb_proper (a a' b : Q) : a == a' -> Qltb a b = Qltb a' b.
Proof.
  intros E. destruct (Qltb a' b) eqn:L.
  - apply Qltb_true. apply Qltb_true in L. lra.
  - apply Qltb_false. apply Qltb_false in L. lra.
Qed.

Lemma total_loss_is_sum_of_losses (results : list (bool * Q)) :
  forall acc,
    fold_left (fun (total : Q) (result : bool * Q) =>
                 if fst result then total else total + snd result) results acc
    == acc + fold_right (fun (result : bool * Q) total => snd result + total) 0
               (List.filter (fun result : bool * Q => negb (fst result)) results).
Proof.
  induction results as [| [won amount] rest IH]; intros acc; cbn.
  - ring.
  - destruct won; cbn; rewrite IH; [reflexivity | ring].
Qed.

Lemma total_won_is_sum_of_wins (results : list (bool * Q)) :
  forall acc,
    fold_left (fun (total : Q) (result : bool * Q) =>
                 if fst result then total + snd result else total) results acc
    == acc + fold_right (fun (result : bool * Q) total => snd result + total) 0
               (List.filter (fun result : bool * Q => fst result) results).
Proof.
  induction results as [| [won amount] rest IH]; intros acc; cbn.
  - ring.
  - destruct won; cbn; rewrite IH; [ring | reflexivity].
Qed.

Lemma check_daily_loss_limit_spec (self : RiskManagementModule) (today : DailyRecords) :
  _check_daily_loss_limit self today = Qltb (losses_today today) (daily_loss_limit self).
Proof.
  unfold _check_daily_loss_limit, losses_today. apply Qltb_proper.
  rewrite total_loss_is_sum_of_losses. ring.
Qed.

(** X10. The daily loss check counts the losses of the day gross: it
    passes exactly when the amounts of the lost results sum to less than
    [daily_loss_limit], whatever was won the same day, while the net profit
    that [get_risk_metrics] reports is the amount won minus the amount
    lost.  A day whose net profit is positive can therefore be closed. *)
Theorem daily_loss_check_counts_gross_losses
    (self : RiskManagementModule) (today : DailyRecords) :
  (_check_daily_loss_limit self today = true <->
   losses_today today < daily_loss_limit self) /\
  metrics_amount_lost (get_risk_metrics self today) == losses_today today /\
  metrics_amount_won (get_risk_metrics self today) == winnings_today today /\
  metrics_net_profit (get_risk_metrics self today)
  == winnings_today today - losses_today today.
Proof.
  assert (L : metrics_amount_lost (get_risk_metrics self today) == losses_today today).
  { cbn. unfold losses_today. rewrite total_loss_is_sum_of_losses. ring. }
  assert (W : metrics_amount_won (get_risk_metrics self today) == winnings_today today).
  { cbn. unfold winnings_today. rewrite total_won_is_sum_of_wins. ring. }
  split; [| split; [exact L | split; [exact W |]]].
  - rewrite check_daily_loss_limit_spec. apply Qltb_true.
  - cbn in *. rewrite L, W. reflexivity.
Qed.

Lemma validate_each_pointwise (self : RiskManagementModule) (today : DailyRecords)
      (ds : list Decision) :
  forall vds,
    validate_each self today ds = Ok vds ->
    Forall2 (fun d v => validate_betting_decision self today d = Ok v) ds vds.
Proof.
  induction ds as [| d rest IH]; intros vds; cbn.
  - intros [= <-]. constructor.
  - destruct (validate_betting_decision self today d) as [v |] eqn:V; cbn; [| discriminate].
    destruct (validate_each self today rest) as [vs |]; cbn; [| discriminate].
    intros [= <-]. constructor; [exact V | apply IH; reflexivity].
Qed.

Lemma portfolio_nothing_approved (self : RiskManagementModule) (ds : list Decision) :
  Forall (fun d => should_bet d = false) ds ->
  _apply_portfolio_constraints self ds = Ok ds.
Proof.
  intros F. unfold _apply_portfolio_constraints, apply_portfolio_constraints_in.
  pose proof (active_decisions_read_back ds []) as R. cbn [app length] in R.
  assert (N : List.filter should_bet ds = []).
  { clear R. induction F as [| d rest S _ IH]; [reflexivity |].
    cbn. rewrite S. exact IH. }
  rewrite N in R. apply map_eq_nil in R. rewrite R. cbn.
  rewrite read_back_all. reflexivity.
Qed.

(** X11. Once a daily limit is reached nothing is approved: when the
    bets placed today number [daily_bet_limit] or more, or the losses of the
    day amount to [daily_loss_limit] or more, every decision that
    [validate_betting_decisions] returns is rejected, one per decision that
    came in. *)
Theorem nothing_is_approved_once_a_daily_limit_is_reached
    (self : RiskManagementModule) (today : DailyRecords) (ds out : list Decision) :
  daily_bet_limit self <= inject_Z (Z.of_nat (length (bets_today today))) \/
  daily_loss_limit self <= losses_today today ->
  validate_betting_decisions self today ds = Ok out ->
  length out = length ds /\ Forall (fun d => should_bet d = false) out.
Proof.
  intros Limit. unfold validate_betting_decisions.
  destruct (validate_each self today ds) as [vds |] eqn:V; cbn; [| discriminate].
  apply validate_each_pointwise in V.
  assert (Closed : _check_daily_bet_limit self today = false \/
                   _check_daily_loss_limit self today = false).
  { destruct Limit as [B | L].
    - left. apply Qltb_false. exact B.
    - right. rewrite check_daily_loss_limit_spec. apply Qltb_false. exact L. }
  assert (F : Forall (fun d => should_bet d = false) vds).
  { induction V as [| d v ds' vds' Hv _ IH]; constructor; [| exact IH].
    destruct (should_bet v) eqn:S; [| reflexivity].
    destruct (validate_approved_inv self today d v Hv S) as (_ & Cb & Cl & _).
    destruct Closed; congruence. }
  rewrite (portfolio_nothing_approved self vds F). intros [= <-].
  split; [| exact F].
  symmetry. eapply Forall2_length. exact V.
Qed.

Lemma nothing_is_approved_once_a_daily_limit_is_reached_witness :
  exists out,
    validate_betting_decisions (init settings) busy_day two_game_decisions = Ok out /\
    length out = length two_game_decisions /\
    Forall (fun d => should_bet d = false) out.
Proof.
  eexists. split; [vm_compute; reflexivity |].
  apply (nothing_is_approved_once_a_daily_limit_is_reached (init settings) busy_day
           two_game_decisions).
  - left. vm_compute. discriminate.
  - vm_compute. reflexivity.
Defined.

End DailyLimits.

(* ================================================================= *)
(** ** Risk management: the portfolio step on any batch *)

Section PortfolioStep.
Import RiskManagement.

Lemma lookup_total_map_seq {A} `{!Inhabited A} (f : nat -> A) (n i : nat) :
  (i < n)%nat -> List.map f (seq 0 n) !!! i = f i.
Proof.
  intros Hi. apply list_lookup_total_correct.
  rewrite list_lookup_fmap, lookup_seq_lt by exact Hi. reflexivity.
Qed.

(** The store that the portfolio step leaves and the list it returns. *)
Lemma portfolio_store (self : RiskManagementModule) (ds out : list Decision) :
  _apply_portfolio_constraints self ds = Ok out ->
  let active := List.filter (fun r => should_bet (ds !!! r)) (seq 0 (length ds)) in
  exists (store' : list Decision) (factor : Q),
    length store' = length ds /\
    (0 <= bankroll self -> 0 <= factor /\ factor <= 1) /\
    (forall i, store' !!! i = ds !!! i \/
               (In i active /\ store' !!! i = scaled factor (ds !!! i))) /\
    out = List.map (fun r => store' !!! update_original store' active r)
                   (seq 0 (length ds)).
Proof.
  cbv zeta.
  unfold _apply_portfolio_constraints, apply_portfolio_constraints_in.
  set (active := List.filter (fun r => should_bet (ds !!! r)) (seq 0 (length ds))).
  assert (Hin : forall r, In r active <-> (r < length ds)%nat /\ should_bet (ds !!! r) = true).
  { intros r. unfold active. rewrite filter_In, in_seq. intuition lia. }
  destruct active as [| r0 rest] eqn:Eactive.
  - cbn. intros [= <-]. exists ds, 1.
    split; [reflexivity |]. split; [intros _; split; discriminate |].
    split; [left; reflexivity |].
    apply map_ext. intros r. unfold update_original. cbn.
    destruct (should_bet (ds !!! r)); reflexivity.
  - rewrite <- Eactive in *. clear Eactive r0 rest.
    destruct (sum_bet_sizes ds active 0) as [total |] eqn:Etotal; cbn; [| discriminate].
    destruct (sum_bet_sizes_spec ds active 0 total Etotal) as [_ Hnum].
    destruct (Qgtb total (bankroll self * (1 # 10))) eqn:Over.
    + destruct (pydiv (bankroll self * (1 # 10)) total) as [factor |] eqn:Ediv; cbn;
        [| discriminate].
      apply pydiv_inv in Ediv as [Hne ->].
      destruct (scale_decisions_spec (bankroll self * (1 # 10) / total) active ds)
        as (store' & Hs & Hlen & Hscaled & Hkept).
      { unfold active. apply List.NoDup_filter, seq_NoDup. }
      { intros r Hr. split; [now apply Hin | now apply Hnum]. }
      rewrite Hs. cbn. intros [= <-].
      exists store', (bankroll self * (1 # 10) / total).
      split; [exact Hlen |]. split; [| split].
      * intros Hb. apply Qgtb_true in Over. split.
        -- apply Qle_shift_div_l; lra.
        -- apply Qle_shift_div_r; lra.
      * intros i. destruct (in_dec Nat.eq_dec i active) as [Hi | Hi].
        -- right. split; [exact Hi | now apply Hscaled].
        -- left. now apply Hkept.
      * rewrite map_map. reflexivity.
    + cbn. intros [= <-]. exists ds, 1.
      split; [reflexivity |]. split; [intros _; split; discriminate |].
      split; [left; reflexivity |].
      rewrite map_map. reflexivity.
Qed.

(** The decision returned at a place is the decision of an approved place
    with the same game and team, as it came in or scaled by a factor between
    0 and 1; at a rejected place it is the decision that came in. *)
Lemma portfolio_pointwise (self : RiskManagementModule) (ds out : list Decision) :
  _apply_portfolio_constraints self ds = Ok out ->
  length out = length ds /\
  exists factor,
    (0 <= bankroll self -> 0 <= factor /\ factor <= 1) /\
    forall i, (i < length ds)%nat ->
      exists u,
        (u < length ds)%nat /\
        should_bet (ds !!! u) = should_bet (ds !!! i) /\
        bet_key (ds !!! u) = bet_key (ds !!! i) /\
        (should_bet (ds !!! i) = false -> u = i) /\
        (out !!! i = ds !!! u \/
         should_bet (ds !!! u) = true /\ out !!! i = scaled factor (ds !!! u)).
Proof.
  intros H. destruct (portfolio_store self ds out H)
    as (store' & factor & Hlen & Hfactor & Hstore & ->).
  set (active := List.filter (fun r => should_bet (ds !!! r)) (seq 0 (length ds))) in *.
  assert (Hin : forall r, In r active <-> (r < length ds)%nat /\ should_bet (ds !!! r) = true).
  { intros r. unfold active. rewrite filter_In, in_seq. intuition lia. }
  assert (Hbet : forall j, should_bet (store' !!! j) = should_bet (ds !!! j)).
  { intros j. destruct (Hstore j) as [-> | [_ ->]]; [reflexivity |].
    apply scaled_should_bet. }
  assert (Hkey : forall j, bet_key (store' !!! j) = bet_key (ds !!! j)).
  { intros j. destruct (Hstore j) as [-> | [_ ->]]; [reflexivity |].
    apply scaled_bet_key. }
  split; [now rewrite length_map, length_seq |].
  exists factor. split; [exact Hfactor |].
  intros i Hi. rewrite lookup_total_map_seq by exact Hi.
  set (u := update_original store' active i).
  assert (Hu : (u < length ds)%nat /\
               should_bet (ds !!! u) = should_bet (ds !!! i) /\
               bet_key (ds !!! u) = bet_key (ds !!! i) /\
               (should_bet (ds !!! i) = false -> u = i)).
  { subst u. unfold update_original. rewrite Hbet.
    destruct (should_bet (ds !!! i)) eqn:Si; [| auto].
    destruct (List.find _ active) as [v |] eqn:Ef; cbn; [| auto].
    apply find_some in Ef as [Hv Hk]. apply same_game_and_team_iff in Hk.
    rewrite !Hkey in Hk. apply Hin in Hv as [Hv Sv].
    repeat split; [exact Hv | exact Sv | exact Hk | discriminate]. }
  exists u. destruct Hu as (U1 & U2 & U3 & U4).
  repeat (split; [assumption |]).
  destruct (Hstore u) as [-> | [Hact ->]]; [left; reflexivity | right].
  split; [| reflexivity]. now apply Hin in Hact.
Qed.

(** X12. On any batch, also one in which approved decisions share game
    and team, the portfolio step changes no verdict and moves no decision:
    the list returned has the length of the list that came in, every place
    keeps its game, team and [should_bet], and a rejected decision is
    returned as it came in. *)
Theorem portfolio_step_keeps_every_verdict
    (self : RiskManagementModule) (ds out : list Decision) :
  _apply_portfolio_constraints self ds = Ok out ->
  length out = length ds /\
  forall i d, ds !! i = Some d ->
    exists d',
      out !! i = Some d' /\
      should_bet d' = should_bet d /\
      game_id d' = game_id d /\ team d' = team d /\
      (should_bet d = false -> d' = d).
Proof.
  intros H. destruct (portfolio_pointwise self ds out H) as (Hlen & factor & _ & Hat).
  split; [exact Hlen |].
  intros i d Hd.
  assert (Hi : (i < length ds)%nat) by (eapply lookup_lt_Some; exact Hd).
  apply list_lookup_total_correct in Hd as Hd'.
  destruct (Hat i Hi) as (u & _ & Su & Ku & Same & Hout).
  exists (out !!! i). split.
  { apply list_lookup_lookup_total_lt. lia. }
  rewrite Hd' in *.
  assert (E : should_bet (out !!! i) = should_bet (ds !!! u) /\
              bet_key (out !!! i) = bet_key (ds !!! u)).
  { destruct Hout as [-> | [_ ->]]; [split; reflexivity |].
    split; [apply scaled_should_bet | apply scaled_bet_key]. }
  destruct E as [E1 E2]. rewrite Ku in E2. injection E2 as G T.
  split; [congruence |]. split; [exact G |]. split; [exact T |].
  intros S. rewrite (Same S) in Hout. rewrite Hd' in Hout.
  destruct Hout as [-> | [S' _]]; [reflexivity | congruence].
Qed.

Lemma portfolio_step_keeps_every_verdict_witness :
  exists out,
    _apply_portfolio_constraints (init settings) same_game_decisions = Ok out /\
    length out = length same_game_decisions.
Proof.
  eexists. split; [vm_compute; reflexivity |].
  refine (proj1 (portfolio_step_keeps_every_verdict (init settings)
                   same_game_decisions _ _)).
  vm_compute. reflexivity.
Defined.

End PortfolioStep.

(* ================================================================= *)
(** ** Risk management: the validated batch *)

Section ValidatedBatch.
Import RiskManagement.

Lemma validated_decision_at (self : RiskManagementModule) (today : DailyRecords)
      (ds vds : list Decision) (u : nat) :
  Forall2 (fun d v => validate_betting_decision self today d = Ok v) ds vds ->
  (u < length vds)%nat ->
  validate_betting_decision self today (ds !!! u) = Ok (vds !!! u).
Proof.
  intros F. revert u. induction F as [| d v ds' vds' Hv _ IH]; intros u Hu.
  - cbn in Hu. lia.
  - destruct u as [| u]; [exact Hv |]. cbn in Hu. apply IH. lia.
Qed.

(** X13. Whatever the batch, a decision that [validate_betting_decisions]
    returns approved has a numeric expected value not below
    [min_ev_threshold] and a numeric stake that does not exceed [max_bet] and
    is not negative, given a bankroll that is not negative and limits with
    [0 <= min_bet <= max_bet].  (The stake may be below [min_bet]: the
    portfolio step scales after the clamp.) *)
Theorem approved_stakes_never_exceed_max_bet
    (self : RiskManagementModule) (today : DailyRecords) (ds out : list Decision) :
  0 <= bankroll self -> 0 <= min_bet self -> min_bet self <= max_bet self ->
  validate_betting_decisions self today ds = Ok out ->
  forall d, In d out -> should_bet d = true ->
    exists ev stake,
      expected_value d = Some ev /\ min_ev_threshold self <= ev /\
      bet_size d = Some stake /\ 0 <= stake /\ stake <= max_bet self.
Proof.
  intros Hb Hmin Hle. unfold validate_betting_decisions.
  destruct (validate_each self today ds) as [vds |] eqn:V; cbn; [| discriminate].
  apply validate_each_pointwise in V. intros P d Hd S.
  destruct (portfolio_pointwise self vds out P) as (Hlen & factor & Hf & Hat).
  destruct (Hf Hb) as [F0 F1].
  apply list_elem_of_In, list_elem_of_lookup in Hd as [i Hi].
  assert (Hlt : (i < length vds)%nat) by (rewrite <- Hlen; eapply lookup_lt_Some; exact Hi).
  apply list_lookup_total_correct in Hi.
  destruct (Hat i Hlt) as (u & Hu & _ & _ & _ & Hout).
  rewrite Hi in Hout.
  pose proof (validated_decision_at self today ds vds u V Hu) as Vu.
  assert (Su : should_bet (vds !!! u) = true).
  { destruct Hout as [-> | [Su _]]; [exact S | exact Su]. }
  destruct (validate_approved_inv self today _ _ Vu Su)
    as (_ & _ & _ & ev & size & stake & H).
  assert (B : expected_value (vds !!! u) = Some ev /\ min_ev_threshold self <= ev /\
              bet_size (vds !!! u) = Some stake /\
              stake == pymax (min_bet self) (pymin size (max_bet self))).
  { destruct H as [(Ev & Thr & _ & St & ->) | (Ev & Thr & _ & St & ->)]; cbn;
      repeat split; try assumption. rewrite St. reflexivity. }
  destruct B as (Ev & Thr & Sz & St).
  destruct (clamp_bounds size _ _ Hle) as [C1 C2]. rewrite <- St in C1, C2.
  destruct Hout as [-> | [_ ->]].
  - exists ev, stake. repeat split; try assumption. lra.
  - unfold scaled. rewrite Sz. cbn.
    exists ev, (stake * factor). repeat split; try assumption.
    + apply Qmult_le_0_compat; lra.
    + assert (stake * factor <= stake * 1).
      { rewrite !(Qmult_comm stake). apply Qmult_le_compat_r; lra. }
      lra.
Qed.

Lemma approved_stakes_never_exceed_max_bet_witness :
  exists out,
    validate_betting_decisions (init settings) quiet_day same_game_decisions = Ok out /\
    forall d, In d out -> should_bet d = true ->
      exists ev stake,
        expected_value d = Some ev /\ min_ev_threshold (init settings) <= ev /\
        bet_size d = Some stake /\ 0 <= stake /\ stake <= max_bet (init settings).
Proof.
  eexists. split; [vm_compute; reflexivity |].
  apply (approved_stakes_never_exceed_max_bet (init settings) quiet_day
           same_game_decisions);
    (vm_compute; first [reflexivity | discriminate]).
Defined.




End ValidatedBatch.

(* ================================================================= *)
(** ** Risk management: the ledger over a run of settlements *)

Section Settlements.
Import RiskManagement.

Lemma settle_all_cons (self : RiskManagementModule) (s : Q * bool)
      (rest : list (Q * bool)) :
  settle_all self (s :: rest)
  = settle_all (fst (update_bankroll self (fst s) (snd s))) rest.
Proof. reflexivity. Qed.

(** X15. After any run of [update_bankroll] calls the balance is the
    opening balance plus what was won minus what was lost (it may become
    negative: no call is refused); from the first call on, the key
    [bankroll] of the shared betting configuration, which the reasoning
    module reads to size stakes, holds the same balance; and the limits and
    thresholds of the module and the other keys of the configuration are
    those it started with. *)
Theorem ledger_after_settlements
    (self : RiskManagementModule) (settlements : list (Q * bool)) :
  let self' := settle_all self settlements in
  bankroll self' == bankroll self + net_result settlements /\
  (settlements <> [] ->
   cfg_bankroll (betting_config self') = Some (bankroll self') /\
   Reasoning.bankroll (betting_config self') = bankroll self') /\
  (min_bet self', max_bet self', min_ev_threshold self', max_kelly_fraction self',
   daily_loss_limit self', daily_bet_limit self')
  = (min_bet self, max_bet self, min_ev_threshold self, max_kelly_fraction self,
     daily_loss_limit self, daily_bet_limit self) /\
  (cfg_min_bet (betting_config self'), cfg_max_bet (betting_config self'),
   cfg_min_ev_threshold (betting_config self'),
   cfg_max_kelly_fraction (betting_config self'),
   cfg_daily_loss_limit (betting_config self'),
   cfg_daily_bet_limit (betting_config self'))
  = (cfg_min_bet (betting_config self), cfg_max_bet (betting_config self),
     cfg_min_ev_threshold (betting_config self),
     cfg_max_kelly_fraction (betting_config self),
     cfg_daily_loss_limit (betting_config self),
     cfg_daily_bet_limit (betting_config self)).
Proof.
  cbv zeta. revert self.
  induction settlements as [| [amount is_win] rest IH]; intros self.
  - cbn. split; [ring |]. split; [congruence |]. split; reflexivity.
  - rewrite settle_all_cons. cbn [fst snd].
    destruct (IH (fst (update_bankroll self amount is_win))) as (B & C & L & K).
    split; [| split; [| split]].
    + rewrite B.
      change (net_result ((amount, is_win) :: rest))
        with ((if is_win then amount else - amount) + net_result rest).
      change (bankroll (fst (update_bankroll self amount is_win)))
        with (if is_win then bankroll self + amount else bankroll self - amount).
      destruct is_win; ring.
    + intros _. destruct rest as [| s rest'].
      * cbn. split; reflexivity.
      * apply C. discriminate.
    + rewrite L. reflexivity.
    + rewrite K. reflexivity.
Qed.

Lemma ledger_after_settlements_witness :
  let self' := settle_all (init settings) [(50, false); (80, true)] in
  cfg_bankroll (betting_config self') = Some (bankroll self') /\
  Reasoning.bankroll (betting_config self') = bankroll self'.
Proof.
  apply (proj1 (proj2 (ledger_after_settlements (init settings)
                         [(50, false); (80, true)]))).
  discriminate.
Defined.

End Settlements.

(* ================================================================= *)
(** ** Execution: stake size and the result dict *)

Section BetSizing.
Import Execution.

Lemma calculate_bet_size_inv (betting : BettingConfig) (expected_value : PyVal) (size : Q) :
  _calculate_bet_size betting expected_value = Ok size ->
  exists f b lo hi ev,
    cfg_max_kelly_fraction betting = Some f /\ cfg_bankroll betting = Some b /\
    cfg_min_bet betting = Some lo /\ cfg_max_bet betting = Some hi /\
    expected_value = PNum ev /\
    size = pymax lo (pymin (ev / 100 * f * b) hi).
Proof.
  unfold _calculate_bet_size.
  destruct (cfg_max_kelly_fraction betting) as [f |]; cbn; [| discriminate].
  destruct (cfg_bankroll betting) as [b |]; cbn; [| discriminate].
  destruct expected_value as [| ev | |]; cbn; try discriminate.
  destruct (cfg_min_bet betting) as [lo |]; cbn; [| discriminate].
  destruct (cfg_max_bet betting) as [hi |]; cbn; [| discriminate].
  intros [= <-]. exists f, b, lo, hi, ev. repeat split; reflexivity.
Qed.

Lemma calculate_bet_size_at_least_min (betting : BettingConfig) (expected_value : PyVal)
      (size lo : Q) :
  _calculate_bet_size betting expected_value = Ok size ->
  cfg_min_bet betting = Some lo ->
  lo <= size.
Proof.
  intros E L. apply calculate_bet_size_inv in E
    as (f & b & lo' & hi & ev & _ & _ & L' & _ & _ & ->).
  rewrite L in L'. injection L' as <-. apply pymax_lower.
Qed.

(** X16. [_calculate_bet_size] returns exactly when the betting
    configuration has the four keys it indexes (it has no defaults) and the
    expected value is a number; a missing key raises the [KeyError] of the
    first one missing and a value that is not a number raises [TypeError].
    When it returns, the stake is [expected_value / 100 *
    max_kelly_fraction * bankroll] clamped to the limits: never below
    [min_bet], whatever the expected value, zero or negative included, and
    never above [max_bet] when [min_bet <= max_bet]. *)
Theorem calculate_bet_size_cases (betting : BettingConfig) (expected_value : PyVal) :
  (forall size,
     _calculate_bet_size betting expected_value = Ok size ->
     exists f b lo hi ev,
       cfg_max_kelly_fraction betting = Some f /\ cfg_bankroll betting = Some b /\
       cfg_min_bet betting = Some lo /\ cfg_max_bet betting = Some hi /\
       expected_value = PNum ev /\
       size == Qmax lo (Qmin (ev / 100 * f * b) hi) /\
       lo <= size /\ (lo <= hi -> size <= hi)) /\
  (forall f b lo hi ev,
     cfg_max_kelly_fraction betting = Some f -> cfg_bankroll betting = Some b ->
     cfg_min_bet betting = Some lo -> cfg_max_bet betting = Some hi ->
     expected_value = PNum ev ->
     exists size, _calculate_bet_size betting expected_value = Ok size) /\
  (cfg_max_kelly_fraction betting = None ->
   _calculate_bet_size betting expected_value = Raise (KeyError "max_kelly_fraction")) /\
  (forall f, cfg_max_kelly_fraction betting = Some f -> cfg_bankroll betting = None ->
   _calculate_bet_size betting expected_value = Raise (KeyError "bankroll")) /\
  (forall f b, cfg_max_kelly_fraction betting = Some f -> cfg_bankroll betting = Some b ->
   (forall ev, expected_value <> PNum ev) ->
   _calculate_bet_size betting expected_value = Raise TypeError).
Proof.
  split; [| split; [| split; [| split]]].
  - intros size E.
    destruct (calculate_bet_size_inv betting expected_value size E)
      as (f & b & lo & hi & ev & F & B & L & H & V & ->).
    exists f, b, lo, hi, ev. repeat (split; [assumption |]).
    split; [rewrite pymax_Qmax, pymin_Qmin; reflexivity |].
    split; [apply pymax_lower |].
    intros Le. apply clamp_bounds. exact Le.
  - intros f b lo hi ev F B L H ->. unfold _calculate_bet_size.
    rewrite F, B, L, H. cbn. eexists. reflexivity.
  - intros F. unfold _calculate_bet_size. rewrite F. reflexivity.
  - intros f F B. unfold _calculate_bet_size. rewrite F, B. reflexivity.
  - intros f b F B N. unfold _calculate_bet_size. rewrite F, B. cbn.
    destruct expected_value as [| ev | |]; try reflexivity.
    destruct (N ev eq_refl).
Qed.

Lemma calculate_bet_size_cases_witness :
  exists f b lo hi ev,
    cfg_max_kelly_fraction settings = Some f /\ cfg_bankroll settings = Some b /\
    cfg_min_bet settings = Some lo /\ cfg_max_bet settings = Some hi /\
    PNum (-3) = PNum ev /\
    pymax 10 (pymin ((-3) / 100 * (1 # 4) * 1000) 100)
    == Qmax lo (Qmin (ev / 100 * f * b) hi) /\
    lo <= pymax 10 (pymin ((-3) / 100 * (1 # 4) * 1000) 100) /\
    (lo <= hi -> pymax 10 (pymin ((-3) / 100 * (1 # 4) * 1000) 100) <= hi).
Proof.
  apply (proj1 (calculate_bet_size_cases settings (PNum (-3)))).
  reflexivity.
Defined.

End BetSizing.

Section ResultDict.
Import Execution.

Lemma add_to_same (key : string) (q n : Q) (results : gmap string Value) :
  results !! key = Some (VNum n) ->
  add_to key q results !! key = Some (VNum (n + q)).
Proof. intros H. unfold add_to. rewrite H. apply lookup_insert_eq. Qed.

Lemma append_bet_same (key : string) (b : BetResult) (l : list BetResult)
      (results : gmap string Value) :
  results !! key = Some (VBets l) ->
  append_bet key b results !! key = Some (VBets (l ++ [b])).
Proof. intros H. unfold append_bet. rewrite H. apply lookup_insert_eq. Qed.

Lemma total_of_app (l1 l2 : list BetResult) :
  total_of (l1 ++ l2) == total_of l1 + total_of l2.
Proof.
  unfold total_of. induction l1 as [| b l1 IH]; cbn; [ring |].
  rewrite IH. ring.
Qed.

(** What the loop of [execute_betting_actions] does to the three entries
    it updates and to memory. *)
Lemma place_bets_spec (self : ExecutionModule) (betting : BettingConfig)
      (ds : list (gmap string PyVal)) :
  forall results added bets n t added' results',
    results !! "bet_details" = Some (VBets bets) ->
    results !! "bets_placed" = Some (VNum n) ->
    results !! "total_amount" = Some (VNum t) ->
    place_bets self betting ds results added = (added', Ok results') ->
    exists new n' t',
      results' !! "bet_details" = Some (VBets (bets ++ new)) /\
      results' !! "bets_placed" = Some (VNum n') /\
      results' !! "total_amount" = Some (VNum t') /\
      n' == n + inject_Z (Z.of_nat (length new)) /\
      t' == t + total_of new /\
      added' = added ++ List.map bet_record new /\
      Forall (fun b => success b = true /\
                       exists lo, cfg_min_bet betting = Some lo /\ lo <= amount b) new /\
      (length new <= length (List.filter is_bet ds))%nat /\
      (test_mode self = true -> length new = length (List.filter is_bet ds)).
Proof.
  induction ds as [| metadata rest IH];
    intros results added bets n t added' results' Hd Hn Ht.
  - cbn. intros [= <- <-]. exists [], n, t.
    rewrite !app_nil_r.
    split; [exact Hd |]. split; [exact Hn |]. split; [exact Ht |].
    split; [cbn; ring |]. split; [cbn; ring |].
    split; [reflexivity |]. split; [constructor |].
    split; [cbn; lia | reflexivity].
  - cbn [place_bets List.filter].
    destruct (is_bet metadata) eqn:Marked; cbn [negb].
    2:{ apply IH; assumption. }
    destruct (_calculate_bet_size betting _) as [size |] eqn:Size; cbn [mbind Exc_bind];
      [| discriminate].
    destruct (cfg_min_bet betting) as [lo |] eqn:Lo; cbn [required mbind Exc_bind];
      [| discriminate].
    pose proof (calculate_bet_size_at_least_min _ _ _ _ Size Lo) as Least.
    rewrite (proj2 (Qltb_false size lo)) by exact Least.
    set (game_id := default PNone (metadata !! "game_id")).
    set (team := default PNone (metadata !! "team")).
    set (bet := if test_mode self then test_bet game_id team size
                else place_bet self game_id team size).
    assert (Hbet : amount bet = size /\ bet_game_id bet = game_id /\
                   (test_mode self = true -> success bet = true)).
    { subst bet. destruct (test_mode self); cbn; repeat split; congruence. }
    destruct Hbet as (Amount & Game & Test).
    destruct (success bet) eqn:Placed.
    + match goal with |- place_bets _ _ _ ?R _ = _ -> _ => set (results1 := R) end.
      assert (Hd1 : results1 !! "bet_details" = Some (VBets (bets ++ [bet]))).
      { subst results1. apply append_bet_same.
        rewrite !add_to_other by discriminate. exact Hd. }
      assert (Hn1 : results1 !! "bets_placed" = Some (VNum (n + 1))).
      { subst results1. rewrite append_bet_other, add_to_other by discriminate.
        apply add_to_same. exact Hn. }
      assert (Ht1 : results1 !! "total_amount" = Some (VNum (t + amount bet))).
      { subst results1. rewrite append_bet_other by discriminate.
        apply add_to_same. rewrite add_to_other by discriminate. exact Ht. }
      intros E.
      destruct (IH _ _ _ _ _ _ _ Hd1 Hn1 Ht1 E)
        as (new & n' & t' & Rd & Rn & Rt & En & Et & Ea & F & Le & Eq).
      exists (bet :: new), n', t'.
      rewrite <- app_assoc in Rd. cbn [app] in Rd.
      split; [exact Rd |]. split; [exact Rn |]. split; [exact Rt |].
      split.
      { rewrite En. cbn [length]. rewrite count_succ. ring. }
      split.
      { rewrite Et.
        change (total_of (bet :: new)) with (amount bet + total_of new). ring. }
      split.
      { rewrite Ea, <- app_assoc. cbn [app List.map]. unfold bet_record at 2.
        rewrite Game. reflexivity. }
      split.
      { constructor; [| exact F]. split; [exact Placed |].
        exists lo. split; [reflexivity |]. rewrite Amount. exact Least. }
      cbn [length]. split; [lia |]. intros T. rewrite (Eq T). reflexivity.
    + intros E.
      destruct (IH _ _ _ _ _ _ _ Hd Hn Ht E)
        as (new & n' & t' & Rd & Rn & Rt & En & Et & Ea & F & Le & Eq).
      exists new, n', t'.
      split; [exact Rd |]. split; [exact Rn |]. split; [exact Rt |].
      split; [exact En |]. split; [exact Et |]. split; [exact Ea |].
      split; [exact F |].
      cbn [length]. split; [lia |]. intros T.
      specialize (Test T). congruence.
Qed.

(** X17. The result of [execute_betting_actions] accounts for every
    bet: [bets_placed] is the number of entries of [bet_details] and
    [total_amount] the sum of their amounts; one bet record per entry was
    added to memory, in order; every entry is a bet that succeeded with a
    stake of [min_bet] or more (the test "bet size below minimum" never
    skips a bet); and no more bets are placed than there are decisions
    marked [decision: bet] - in test mode exactly as many. *)
Theorem execution_results_account_for_every_bet
    (self : ExecutionModule) (betting : BettingConfig)
    (ds : list (gmap string PyVal)) (added : list MemoryItem)
    (results : gmap string Value) :
  execute_betting_actions self betting ds = (added, Ok results) ->
  exists bets placed total,
    results !! "bet_details" = Some (VBets bets) /\
    results !! "bets_placed" = Some (VNum placed) /\
    results !! "total_amount" = Some (VNum total) /\
    placed == inject_Z (Z.of_nat (length bets)) /\
    total == total_of bets /\
    added = List.map bet_record bets /\
    Forall (fun b => success b = true /\
                     exists lo, cfg_min_bet betting = Some lo /\ lo <= amount b) bets /\
    (length bets <= length (List.filter is_bet ds))%nat /\
    (test_mode self = true -> length bets = length (List.filter is_bet ds)).
Proof.
  unfold execute_betting_actions.
  destruct (place_bets _ _ _ _ _) as [added' [results' | e]] eqn:E; [| discriminate].
  intros [= <- <-].
  apply (place_bets_spec self betting ds _ _ [] 0 0) in E
    as (new & n' & t' & Rd & Rn & Rt & En & Et & Ea & F & Le & Eq);
    [| reflexivity ..].
  exists new, n', t'.
  rewrite !lookup_insert_ne by discriminate.
  cbn [app] in *.
  split; [exact Rd |]. split; [exact Rn |]. split; [exact Rt |].
  split; [rewrite En; ring |]. split; [rewrite Et; ring |].
  split; [exact Ea |]. split; [exact F |]. split; [exact Le | exact Eq].
Qed.

Lemma execution_results_account_for_every_bet_witness :
  exists added results bets placed total,
    execute_betting_actions test_execution settings mixed_decisions
    = (added, Ok results) /\
    results !! "bet_details" = Some (VBets bets) /\
    results !! "bets_placed" = Some (VNum placed) /\
    results !! "total_amount" = Some (VNum total) /\
    placed == inject_Z (Z.of_nat (length bets)) /\
    total == total_of bets /\
    length bets = 2%nat.
Proof.
  destruct (execute_betting_actions test_execution settings mixed_decisions)
    as [added outcome] eqn:E.
  assert (O : exists results, outcome = Ok results).
  { vm_compute in E. injection E as _ <-. eexists. reflexivity. }
  destruct O as [results ->].
  destruct (execution_results_account_for_every_bet test_execution settings
              mixed_decisions added results E)
    as (bets & placed & total & Rd & Rn & Rt & En & Et & _ & _ & _ & Eq).
  exists added, results, bets, placed, total.
  split; [reflexivity |].
  split; [exact Rd |]. split; [exact Rn |]. split; [exact Rt |].
  split; [exact En |]. split; [exact Et |].
  apply Eq. reflexivity.
Defined.

Lemma place_bets_unmarked (self : ExecutionModule) (betting : BettingConfig)
      (ds : list (gmap string PyVal)) :
  Forall (fun metadata => is_bet metadata = false) ds ->
  forall results added,
    place_bets self betting ds results added = (added, Ok results).
Proof.
  induction 1 as [| metadata rest M _ IH]; intros results added; cbn.
  - reflexivity.
  - rewrite M. cbn. apply IH.
Qed.



End ResultDict.

(* ================================================================= *)
(** ** Controller: what a pass does in each state *)

Section Passes.
Import Controller.

Lemma with_memory_nil (c : AgentController) : with_memory (memory c ++ []) c = c.
Proof. destruct c. cbn. rewrite app_nil_r. reflexivity. Qed.


Lemma try_to_error_cases (body : Action unit) (c c' : AgentController) (r : Exc unit) :
  try_except body to_error_state c = (c', r) ->
  r = Ok tt /\
  (body c = (c', Ok tt) \/
   exists c1 e, body c = (c1, Raise e) /\ c' = with_state ERROR c1).
Proof.
  unfold try_except.
  destruct (body c) as [c1 [[] | e]] eqn:B.
  - intros [= <- <-]. split; [reflexivity |]. left. reflexivity.
  - cbn. intros [= <- <-]. split; [reflexivity |]. right. eauto.
Qed.

Lemma ends_bind {A B} (m : Action A) (f : A -> Action B)
      (allowed : AgentState -> Prop) :
  (forall a, ends_in (f a) allowed) -> ends_in (m ≫= f) allowed.
Proof.
  intros H c c' b. unfold mbind, Action_bind.
  destruct (m c) as [c1 [a | e]]; [apply H | discriminate].
Qed.

Lemma ends_set_state (s : AgentState) (allowed : AgentState -> Prop) :
  allowed s -> ends_in (set_state s) allowed.
Proof. intros H c c' a [= <- _]. exact H. Qed.

Ltac ends_step :=
  repeat (apply ends_bind; intros); try (apply ends_set_state; cbn; tauto).

Lemma research_ends (w : World) :
  ends_in (research_tasks w) (fun s => s = REASONING).
Proof. unfold research_tasks. ends_step. Qed.

Lemma try_ends (body : Action unit) (allowed : AgentState -> Prop) (c : AgentController) :
  ends_in body allowed ->
  snd (try_except body to_error_state c) = Ok tt /\
  (allowed (state (fst (try_except body to_error_state c))) \/
   state (fst (try_except body to_error_state c)) = ERROR).
Proof.
  intros H.
  destruct (try_except body to_error_state c) as [c' r] eqn:T.
  destruct (try_to_error_cases body c c' r T) as [-> [B | (c1 & e & _ & ->)]]; cbn.
  - split; [reflexivity |]. left. exact (H c c' tt B).
  - split; [reflexivity |]. right. reflexivity.
Qed.

Lemma handle_idle_state_returns (w : World) (c : AgentController) (last : Q) :
  last_research_time w = Ok last ->
  _handle_idle_state w c
  = (let c' := if Qgtb (current_time w - last) (research_interval c)
               then with_state RESEARCHING c else c in
     with_memory (memory c' ++ settled w) c', Ok tt).
Proof.
  intros L. unfold _handle_idle_state. rewrite L.
  unfold mbind, Action_bind, lift, get, try_except, memory_add_all, mret, Action_ret.
  destruct (Qgtb (current_time w - last) (research_interval c)); reflexivity.
Qed.

Lemma handle_idle_state_raises (w : World) (c : AgentController) (e : PyExc) :
  last_research_time w = Raise e -> _handle_idle_state w c = (c, Raise e).
Proof. intros L. unfold _handle_idle_state. rewrite L. reflexivity. Qed.

Lemma try_returns (body : Action unit) (c : AgentController) :
  snd (try_except body to_error_state c) = Ok tt.
Proof.
  destruct (try_except body to_error_state c) as [c' r] eqn:T.
  destruct (try_to_error_cases body c c' r T) as [-> _]. reflexivity.
Qed.

(** Whether a pass returns: only the idle handler lets an exception out. *)
Lemma process_outcome (w : World) (c : AgentController) :
  (state c <> IDLE -> snd (_process_current_state w c) = Ok tt) /\
  (state c = IDLE ->
   snd (_process_current_state w c)
   = match last_research_time w with Ok _ => Ok tt | Raise e => Raise e end).
Proof.
  unfold _process_current_state.
  destruct (state c) eqn:S; (split; [intros N | intros I]); try discriminate I.
  - reflexivity.
  - apply try_returns.
  - apply try_returns.
  - apply try_returns.
  - unfold _handle_execution_state. apply try_returns.
  - destruct (N eq_refl).
  - destruct (last_research_time w) as [last | e] eqn:L.
    + rewrite (handle_idle_state_returns w c last L). reflexivity.
    + rewrite (handle_idle_state_raises w c e L). reflexivity.
  - destruct (handle_error_state_returns c) as (c' & -> & _). reflexivity.
Qed.

Lemma research_pass_next (w : World) (c : AgentController) :
  state c = RESEARCHING ->
  In (state (fst (_process_current_state w c))) [REASONING; ERROR].
Proof.
  intros S. unfold _process_current_state. rewrite S.
  unfold _handle_research_state.
  destruct (try_ends (research_tasks w) _ c (research_ends w)) as [_ [E | E]];
    rewrite E; cbn; tauto.
Qed.

(** X19. Every pass follows the transition table of the handlers:
    research ends in REASONING or ERROR, reasoning in RISK_ASSESSMENT, IDLE
    or ERROR, risk assessment in EXECUTING, IDLE or ERROR, execution in IDLE
    or ERROR, idle in IDLE or RESEARCHING, and error recovery always in
    IDLE.  In every state but IDLE the pass returns whatever its
    collaborators raise; in IDLE the reading of the last research time is
    outside the [try], and the pass raises exactly what that reading
    raises, leaving the state IDLE. *)
Theorem pass_follows_the_transition_table (w : World) (c : AgentController) :
  In (state (fst (_process_current_state w c))) (allowed_next (state c)) /\
  (state c <> IDLE -> snd (_process_current_state w c) = Ok tt) /\
  (state c = IDLE ->
   snd (_process_current_state w c)
   = match last_research_time w with Ok _ => Ok tt | Raise e => Raise e end).
Proof.
  split; [| apply process_outcome].
  destruct (state c) eqn:S; cbn [allowed_next].
  - unfold _process_current_state. rewrite S. left. symmetry. exact S.
  - apply research_pass_next. exact S.
  - unfold _process_current_state. rewrite S. unfold _handle_reasoning_state.
    match goal with |- context [try_except ?b _ _] =>
      destruct (try_ends b (fun s => s = RISK_ASSESSMENT \/ s = IDLE) c) as [_ E]
    end.
    { apply ends_bind. intros betting.
      destruct (Reasoning.execute_reasoning_tasks betting (research_data w))
        as [added outcome].
      ends_step. destruct (Reasoning.actionable_bets _); ends_step. }
    destruct E as [[E | E] | E]; rewrite E; cbn; tauto.
  - unfold _process_current_state. rewrite S. unfold _handle_risk_assessment_state.
    match goal with |- context [try_except ?b _ _] =>
      destruct (try_ends b (fun s => s = EXECUTING \/ s = IDLE) c) as [_ E]
    end.
    { cbv zeta. ends_step. destruct (List.filter _ _); ends_step. }
    destruct E as [[E | E] | E]; rewrite E; cbn; tauto.
  - unfold _process_current_state. rewrite S. unfold _handle_execution_state.
    match goal with |- context [try_except ?b _ _] =>
      destruct (try_ends b (fun s => s = IDLE) c) as [_ E]
    end.
    { unfold execution_tasks. cbv zeta. ends_step. }
    destruct E as [E | E]; rewrite E; cbn; tauto.
  - unfold _process_current_state. rewrite S.
    destruct (last_research_time w) as [last | e] eqn:L.
    + rewrite (handle_idle_state_returns w c last L). cbn [fst].
      destruct (Qgtb (current_time w - last) (research_interval c)); cbn.
      * right. left. reflexivity.
      * left. symmetry. exact S.
    + rewrite (handle_idle_state_raises w c e L). left. symmetry. exact S.
  - unfold _process_current_state. rewrite S.
    destruct (handle_error_state_returns c) as (c' & -> & E). cbn. rewrite E. tauto.
Qed.

Lemma pass_follows_the_transition_table_witness :
  snd (_process_current_state failing_research_world sample_controller) = Ok tt.
Proof.
  apply (proj1 (proj2 (pass_follows_the_transition_table failing_research_world
                         sample_controller))).
  discriminate.
Defined.

End Passes.

Section WorkingPasses.
Import Controller.

Ltac run_action :=
  unfold mbind, Action_bind, get, lift, memory_add_all, memory_add, set_state,
         mret, Action_ret;
  cbv beta iota.

Lemma unmarked_approved_bets {A} (approved : list A) :
  Forall (fun metadata => Execution.is_bet metadata = false)
         (List.map (fun _ => (∅ : gmap string PyVal)) approved).
Proof. induction approved; cbn; constructor; [reflexivity | assumption]. Qed.

(** X20. An execution pass of the controller places no bet.  The
    approved bets are handed to [execute_betting_actions] as dicts without
    the key [metadata], where that method looks for [decision: bet]; so the
    pass never raises, always ends in IDLE, adds no bet record to memory -
    only an [execution_result] item when there were approved bets - and
    leaves the risk management module, the balance included, as it was. *)
Theorem controller_execution_pass_places_no_bet (w : World) (c : AgentController) :
  state c = EXECUTING ->
  _process_current_state w c
  = (with_state IDLE
       (with_memory
          (memory c ++
           match List.filter original_found (risk_assessments w) with
           | [] => []
           | _ => [mkMemoryItem "execution_result" None None]
           end) c),
     Ok tt).
Proof.
  intros S. unfold _process_current_state. rewrite S.
  unfold _handle_execution_state, try_except, execution_tasks. cbv zeta.
  destruct (List.filter original_found (risk_assessments w)) as [| a rest].
  - run_action. rewrite with_memory_nil. reflexivity.
  - run_action. unfold Execution.execute_betting_actions.
    rewrite (place_bets_unmarked _ _ _ (unmarked_approved_bets (a :: rest))).
    cbv beta iota. cbn. rewrite app_nil_r. reflexivity.
Qed.

Lemma controller_execution_pass_places_no_bet_witness :
  _process_current_state world_with_approved_bets (controller_in EXECUTING)
  = (with_state IDLE
       (with_memory
          (memory (controller_in EXECUTING) ++
           match List.filter original_found (risk_assessments world_with_approved_bets) with
           | [] => []
           | _ => [mkMemoryItem "execution_result" None None]
           end) (controller_in EXECUTING)),
     Ok tt).
Proof.
  apply (controller_execution_pass_places_no_bet world_with_approved_bets
           (controller_in EXECUTING)).
  reflexivity.
Defined.





End WorkingPasses.

Section FailingPasses.
Import Controller.

Lemma validate_each_raises (self : RiskManagement.RiskManagementModule)
      (today : DailyRecords) (ds : list RiskManagement.Decision)
      (d : RiskManagement.Decision) (e : PyExc) :
  In d ds ->
  RiskManagement.validate_betting_decision self today d = Raise e ->
  exists e', RiskManagement.validate_each self today ds = Raise e'.
Proof.
  intros Hin R. induction ds as [| d0 rest IH]; [destruct Hin |].
  cbn [RiskManagement.validate_each].
  destruct Hin as [-> | Hin].
  - rewrite R. eexists. reflexivity.
  - destruct (RiskManagement.validate_betting_decision self today d0); cbn;
      [| eexists; reflexivity].
    destruct (IH Hin) as [e' ->]. cbn. eexists. reflexivity.
Qed.

Lemma validate_incomplete_raises (self : RiskManagement.RiskManagementModule)
      (today : DailyRecords) (d : RiskManagement.Decision) :
  RiskManagement.should_bet d = true ->
  RiskManagement.expected_value d = None \/
  (exists ev, RiskManagement.expected_value d = Some ev /\
              RiskManagement.min_ev_threshold self <= ev /\
              RiskManagement.bet_size d = None) ->
  RiskManagement.validate_betting_decision self today d = Raise TypeError.
Proof.
  intros S H. unfold RiskManagement.validate_betting_decision. rewrite S. cbn [negb].
  destruct H as [-> | (ev & -> & Thr & ->)]; [reflexivity |]. cbn.
  rewrite (proj2 (Qltb_false _ _) Thr). reflexivity.
Qed.

(** X22. One incomplete item fails the whole risk assessment.  The
    controller turns every stored [betting_decision] item into a decision
    with [should_bet] set; if any of them has no expected value, or has an
    expected value that is not below the threshold and no stake (the items
    that [execute_reasoning_tasks] stores carry no stake), the validation
    raises, the pass ends in ERROR and nothing is added to memory: no
    decision of the batch is assessed. *)
Theorem incomplete_item_fails_the_risk_assessment
    (w : World) (c : AgentController) (item : BettingDecisionItem) :
  state c = RISK_ASSESSMENT ->
  In item (betting_decisions w) ->
  item_expected_value item = None \/
  (exists ev, item_expected_value item = Some ev /\
              RiskManagement.min_ev_threshold (risk_management_module c) <= ev /\
              item_bet_size item = None) ->
  _process_current_state w c = (with_state ERROR c, Ok tt).
Proof.
  intros S Hin Bad. unfold _process_current_state. rewrite S.
  unfold _handle_risk_assessment_state, try_except. cbv zeta.
  destruct (validate_each_raises (risk_management_module c) (today w)
              (List.map decision_of_item (betting_decisions w))
              (decision_of_item item) TypeError) as [e' R].
  { apply in_map. exact Hin. }
  { apply validate_incomplete_raises; [reflexivity | exact Bad]. }
  unfold mbind at 1, Action_bind at 1, get at 1. cbv beta iota.
  unfold mbind at 1, Action_bind at 1, lift at 1. cbv beta iota.
  unfold RiskManagement.validate_betting_decisions. rewrite R. cbn.
  reflexivity.
Qed.

Lemma incomplete_item_fails_the_risk_assessment_witness :
  _process_current_state world_with_incomplete_decision (controller_in RISK_ASSESSMENT)
  = (with_state ERROR (controller_in RISK_ASSESSMENT), Ok tt).
Proof.
  apply (incomplete_item_fails_the_risk_assessment world_with_incomplete_decision
           (controller_in RISK_ASSESSMENT)
           (mkBettingDecisionItem (Some "game-1") (Some "home") (Some 3) None)).
  - reflexivity.
  - right. left. reflexivity.
  - right. exists 3. repeat split. vm_compute. discriminate.
Defined.





End FailingPasses.

Section NegativeInterval.
Import Controller.

(** X24. With a negative [loop_interval] the controller processes
    exactly one pass: after a successful initialization the research pass is
    processed, the sleep that follows raises (a negative length), and
    [start] raises that exception with the controller in ERROR; no later
    pass is processed, however many would follow. *)
Theorem negative_loop_interval_stops_after_one_pass
    (w : World) (rest : list World) (c : AgentController) :
  loop_interval c < 0 ->
  exists c' next,
    start (Ok tt) (w :: rest) c
    = (c', [Processed RESEARCHING next],
       Raise (Exception "sleep length must be non-negative")) /\
    state c' = ERROR /\ In next [REASONING; ERROR].
Proof.
  intros Neg. unfold start.
  set (c0 := with_state INITIALIZING (with_is_running true c)).
  unfold _initialize, mbind, Action_bind, memory_add, lift, set_state. cbv beta iota.
  match goal with |- context [main_loop (w :: rest) ?x []] => set (c1 := x) end.
  cbn [main_loop]. change (is_running c1) with true. cbn [negb].
  destruct (process_outcome w c1) as (Returns & _).
  pose proof (research_pass_next w c1 eq_refl) as Next.
  pose proof (process_keeps_loop_interval w c1) as Keep.
  destruct (_process_current_state w c1) as [c2 r]. cbn [fst snd] in *.
  rewrite Returns by discriminate.
  unfold sleep. rewrite Keep. change (loop_interval c1) with (loop_interval c).
  rewrite (proj2 (Qltb_true _ _) Neg).
  exists (with_state ERROR c2), (state c2).
  split; [reflexivity |]. split; [reflexivity |]. exact Next.
Qed.

Lemma negative_loop_interval_stops_after_one_pass_witness :
  exists c' next,
    start (Ok tt) [quiet_world 1; quiet_world 1]
      (mkAgentController (-5) 3600 INITIALIZING false (RiskManagement.init settings)
         test_execution [])
    = (c', [Processed RESEARCHING next],
       Raise (Exception "sleep length must be non-negative")) /\
    state c' = ERROR /\ In next [REASONING; ERROR].
Proof.
  apply (negative_loop_interval_stops_after_one_pass (quiet_world 1) [quiet_world 1]
           (mkAgentController (-5) 3600 INITIALIZING false (RiskManagement.init settings)
              test_execution [])).
  reflexivity.
Defined.

End NegativeInterval.

(* ================================================================= *)
(** ** Execution: the settlement of placed bets *)

Section Settling.
Import Settlement.

Lemma settle_bets_added (open_bets : list (OpenBet * GameStatus * bool)) :
  forall added,
    settle_bets open_bets added
    = (added ++ fst (settle_bets open_bets []), snd (settle_bets open_bets [])).
Proof.
  induction open_bets as [| [[metadata status] found] rest IH]; intros added.
  - cbn. rewrite app_nil_r. reflexivity.
  - cbn [settle_bets]. destruct status as [hw |]; [| apply IH].
    destruct (profit metadata _) as [p | e]; [| cbn; rewrite app_nil_r; reflexivity].
    rewrite IH. rewrite (IH ([] ++ _)). cbn [fst snd app].
    rewrite <- !app_assoc. reflexivity.
Qed.

Lemma bet_won_iff (bet_team : PyVal) (home_team_won : bool) :
  bet_won bet_team home_team_won = true <->
  (bet_team = PStr "home" /\ home_team_won = true) \/
  (bet_team = PStr "away" /\ home_team_won = false).
Proof.
  unfold bet_won. rewrite orb_true_iff, !andb_true_iff, negb_true_iff.
  split.
  - intros [[T H] | [T H]]; destruct bet_team as [| | s |]; try discriminate;
      apply String.eqb_eq in T; subst; auto.
  - intros [[-> ->] | [-> ->]]; auto.
Qed.

(** X25. How [monitor_outcomes] settles a completed bet whose record
    has its numbers: the bet has won exactly when its team is the string
    [home] and the home team won, or the string [away] and the home team
    lost - a bet recorded under any other team (a team name, [None]) is
    settled as lost whatever the result; the profit recorded is
    [amount * (odds - 1)] for a won bet and [- amount] for a lost one; the
    settled record is added first, then the strategy update if the original
    decision is found, and the loop goes on with the next bet. *)
Theorem completed_bet_is_settled_by_side
    (metadata : OpenBet) (home_team_won decision_found : bool)
    (rest : list (OpenBet * GameStatus * bool)) (amount odds : Q) :
  open_amount metadata = Some amount ->
  open_odds metadata = Some odds ->
  let won := bet_won (open_team metadata) home_team_won in
  (won = true <->
   (open_team metadata = PStr "home" /\ home_team_won = true) \/
   (open_team metadata = PStr "away" /\ home_team_won = false)) /\
  monitor_outcomes ((metadata, completed home_team_won, decision_found) :: rest)
  = SettledRecord (open_game_id metadata) (if won then "won" else "lost")
      (if won then amount * (odds - 1) else - amount)
    :: update_strategy decision_found (open_game_id metadata) (open_team metadata) won
    ++ monitor_outcomes rest.
Proof.
  intros A O. cbv zeta. split; [apply bet_won_iff |].
  unfold monitor_outcomes. cbn [settle_bets].
  unfold profit. rewrite A, O.
  destruct (bet_won (open_team metadata) home_team_won); cbn [RiskManagement.number];
    cbn [mbind Exc_bind]; rewrite settle_bets_added; cbn [fst app];
    rewrite <- ?app_assoc; reflexivity.
Qed.

Lemma completed_bet_is_settled_by_side_witness :
  monitor_outcomes [(bet_on_team_name, completed true, false)]
  = [SettledRecord (Some "game-1") "lost" (- 25)].
Proof.
  exact (proj2 (completed_bet_is_settled_by_side bet_on_team_name true false []
                  25 (195 # 100) eq_refl eq_refl)).
Defined.

Lemma settle_bets_stops (pre post : list (OpenBet * GameStatus * bool))
      (metadata : OpenBet) (home_team_won decision_found : bool) (e : PyExc) :
  profit metadata (bet_won (open_team metadata) home_team_won) = Raise e ->
  forall added,
    fst (settle_bets (pre ++ (metadata, completed home_team_won, decision_found) :: post)
           added)
    = fst (settle_bets pre added).
Proof.
  intros R. induction pre as [| [[m status] found] pre IH]; intros added.
  - cbn. rewrite R. reflexivity.
  - cbn [app settle_bets]. destruct status as [hw |]; [| apply IH].
    destruct (profit m _); [apply IH | reflexivity].
Qed.

(** X26. [monitor_outcomes] never raises, but one incomplete record
    stops it: when a completed bet has no amount, or has won and has no odds,
    the profit cannot be computed, the exception is caught around the whole
    loop, and neither that bet nor any open bet after it is settled in this
    call. *)
Theorem incomplete_record_stops_the_monitoring
    (pre post : list (OpenBet * GameStatus * bool))
    (metadata : OpenBet) (home_team_won decision_found : bool) :
  open_amount metadata = None \/
  (open_odds metadata = None /\ bet_won (open_team metadata) home_team_won = true) ->
  monitor_outcomes (pre ++ (metadata, completed home_team_won, decision_found) :: post)
  = monitor_outcomes pre.
Proof.
  intros Bad. unfold monitor_outcomes.
  apply (settle_bets_stops pre post metadata home_team_won decision_found TypeError).
  unfold profit. destruct Bad as [-> | [-> ->]].
  - destruct (bet_won _ _); reflexivity.
  - destruct (open_amount metadata); reflexivity.
Qed.

Lemma incomplete_record_stops_the_monitoring_witness :
  monitor_outcomes
    ([(bet_on_team_name, completed true, false)]
     ++ (bet_without_amount, completed true, true)
     :: [(bet_on_team_name, completed false, true)])
  = monitor_outcomes [(bet_on_team_name, completed true, false)].
Proof.
  apply (incomplete_record_stops_the_monitoring
           [(bet_on_team_name, completed true, false)]
           [(bet_on_team_name, completed false, true)]
           bet_without_amount true true).
  left. reflexivity.
Defined.

End Settling.

(* ================================================================= *)
(** ** Execution: the legacy entry *)

Section LegacyRun.
Import Execution Legacy.

Lemma recommendation_is_marked (now : string) (rec : gmap string PyVal) :
  is_bet (decision_of_recommendation now rec) = true.
Proof.
  unfold is_bet, decision_of_recommendation.
  rewrite lookup_insert_ne by discriminate. rewrite lookup_insert_eq. reflexivity.
Qed.

Lemma recommendation_expected_value (now : string) (rec : gmap string PyVal) :
  decision_of_recommendation now rec !! "expected_value"
  = Some (default (PNum (5 # 100)) (rec !! "edge")).
Proof.
  unfold decision_of_recommendation.
  rewrite !lookup_insert_ne by discriminate. apply lookup_insert_eq.
Qed.

Lemma place_bets_returns (self : ExecutionModule) (betting : BettingConfig)
      (f b lo hi : Q) (ds : list (gmap string PyVal)) :
  cfg_max_kelly_fraction betting = Some f -> cfg_bankroll betting = Some b ->
  cfg_min_bet betting = Some lo -> cfg_max_bet betting = Some hi ->
  Forall (fun metadata =>
            exists ev, default (PNum 0) (metadata !! "expected_value") = PNum ev) ds ->
  forall results added,
    exists added' results', place_bets self betting ds results added = (added', Ok results').
Proof.
  intros F B L H Numbers.
  induction Numbers as [| metadata rest [ev Ev] _ IH]; intros results added.
  - cbn. eauto.
  - cbn [place_bets]. destruct (negb (is_bet metadata)); [apply IH |].
    rewrite Ev. unfold _calculate_bet_size. rewrite F, B, L, H.
    cbn [required mbind Exc_bind]. unfold pydiv.
    change (Qeq_bool 100 0) with false. cbn [required mbind Exc_bind].
    match goal with |- context [if Qltb ?x ?y then _ else _] =>
      destruct (Qltb x y) end; [apply IH |].
    match goal with |- context [success ?x] => destruct (success x) end; apply IH.
Qed.

(** X27. The legacy entry [run] marks every recommendation as a bet,
    so, unlike the controller's execution pass, it places them: in test mode,
    with the four keys of the stake size configured and every [edge] a number
    or missing (0.05 is used then), [run] returns, reports as many bets
    placed as there are recommendations and has added one bet record per
    recommendation to memory; the details of the bets are not among the four
    keys it returns. *)
Theorem legacy_run_places_every_recommendation
    (self : ExecutionModule) (betting : BettingConfig) (now : string)
    (recommendations : list (gmap string PyVal)) (f b lo hi : Q) :
  test_mode self = true ->
  cfg_max_kelly_fraction betting = Some f -> cfg_bankroll betting = Some b ->
  cfg_min_bet betting = Some lo -> cfg_max_bet betting = Some hi ->
  Forall (fun rec => rec !! "edge" = None \/ exists ev, rec !! "edge" = Some (PNum ev))
         recommendations ->
  exists added results placed,
    run self betting now recommendations = (added, Ok results) /\
    results !! "bets_placed" = Some (VNum placed) /\
    placed == inject_Z (Z.of_nat (length recommendations)) /\
    length added = length recommendations /\
    Forall (fun item => exists stake, mem_amount item = Some stake /\ lo <= stake) added /\
    results !! "bet_details" = None.
Proof.
  intros T F B L H Edges. unfold run.
  set (ds := List.map (decision_of_recommendation now) recommendations).
  assert (Numbers : Forall (fun metadata =>
            exists ev, default (PNum 0) (metadata !! "expected_value") = PNum ev) ds).
  { subst ds. induction Edges as [| rec rest E _ IH]; cbn; constructor; [| exact IH].
    rewrite recommendation_expected_value. cbn.
    destruct E as [-> | [ev ->]]; cbn; eauto. }
  assert (Marked : List.filter is_bet ds = ds).
  { subst ds. clear. induction recommendations as [| rec rest IH]; [reflexivity |].
    cbn. rewrite recommendation_is_marked, IH. reflexivity. }
  unfold execute_betting_actions.
  match goal with |- context [place_bets self betting ds ?r ?a] =>
    destruct (place_bets_returns self betting f b lo hi ds F B L H Numbers r a)
      as (added & results & E)
  end.
  rewrite E.
  apply (place_bets_spec self betting ds _ _ [] 0 0) in E
    as (bets & n' & t' & Rd & Rn & Rt & En & Et & Ea & Fb & _ & Eq);
    [| reflexivity ..].
  cbn [app] in Ea.
  eexists added, _, n'. split; [reflexivity |].
  rewrite lookup_insert_eq, lookup_insert_ne, Rn by discriminate. cbn [default].
  split; [reflexivity |].
  specialize (Eq T). rewrite Marked in Eq.
  assert (Len : length ds = length recommendations) by (subst ds; apply length_map).
  split; [rewrite En, Eq, Len; ring |].
  split; [rewrite Ea, length_map, Eq, Len; reflexivity |].
  split.
  - rewrite Ea. clear -Fb L. induction Fb as [| bet rest [_ (lo' & L' & Le)] _ IH]; cbn;
      constructor; [| exact IH].
    rewrite L in L'. injection L' as <-. exists (amount bet). split; [reflexivity | exact Le].
  - rewrite !lookup_insert_ne by discriminate. reflexivity.
Qed.

Lemma legacy_run_places_every_recommendation_witness :
  exists added results placed,
    run test_execution settings "0"
      [recommendation_from_reasoning "game-1"; recommendation_from_reasoning "game-2"]
    = (added, Ok results) /\
    results !! "bets_placed" = Some (VNum placed) /\
    placed == inject_Z (Z.of_nat 2) /\
    length added = 2%nat /\
    Forall (fun item => exists stake, mem_amount item = Some stake /\ 10 <= stake) added /\
    results !! "bet_details" = None.
Proof.
  apply (legacy_run_places_every_recommendation test_execution settings "0"
           [recommendation_from_reasoning "game-1"; recommendation_from_reasoning "game-2"]
           (1 # 4) 1000 10 100); try reflexivity.
  repeat constructor.
Defined.

End LegacyRun.

(* ================================================================= *)
(** ** Controller: the research pass, finding by finding *)

Section ResearchPass.
Import Controller.

Ltac first_finding c :=
  cbn [for_each]; unfold mbind at 1, Action_bind at 1;
  match goal with |- context [match ?m c with _ => _ end] =>
    let Step := fresh "Step" in
    assert (Step : m c
                   = (with_memory (memory c ++ [mkMemoryItem "research_result" None None]) c,
                      Ok tt))
      by reflexivity;
    rewrite Step; clear Step
  end.

Lemma research_loop_complete (results : list ResearchResult) :
  Forall (fun result => has_all_keys result = true) results ->
  forall c,
    for_each results (fun result =>
        _ ← lift (index "summary" (result_summary result));
        _ ← lift (index "source" (result_source result));
        _ ← lift (index "timestamp" (result_timestamp result));
        memory_add (mkMemoryItem "research_result" None None)) c
    = (with_memory
         (memory c ++ List.repeat (mkMemoryItem "research_result" None None)
                        (length results)) c,
       Ok tt).
Proof.
  induction 1 as [| result rest K _ IH]; intros c.
  - cbn. rewrite with_memory_nil. reflexivity.
  - unfold has_all_keys in K. cbn [for_each].
    destruct (result_summary result); [| discriminate].
    destruct (result_source result); [| discriminate].
    destruct (result_timestamp result); [| discriminate].
    first_finding c.
    rewrite IH. cbn [memory with_memory length List.repeat].
    rewrite <- app_assoc. reflexivity.
Qed.

Lemma research_loop_stops (pre post : list ResearchResult) (bad : ResearchResult) :
  Forall (fun result => has_all_keys result = true) pre ->
  has_all_keys bad = false ->
  forall c,
    exists key,
      for_each (pre ++ bad :: post) (fun result =>
          _ ← lift (index "summary" (result_summary result));
          _ ← lift (index "source" (result_source result));
          _ ← lift (index "timestamp" (result_timestamp result));
          memory_add (mkMemoryItem "research_result" None None)) c
      = (with_memory
           (memory c ++ List.repeat (mkMemoryItem "research_result" None None)
                          (length pre)) c,
         Raise (KeyError key)).
Proof.
  intros Hpre Hbad. induction Hpre as [| result rest K _ IH]; intros c.
  - cbn [app for_each length List.repeat]. rewrite with_memory_nil.
    unfold has_all_keys in Hbad.
    unfold mbind, Action_bind, lift, memory_add. cbv beta iota.
    destruct (result_summary bad); cbn [index]; [| eexists; reflexivity].
    destruct (result_source bad); cbn [index]; [| eexists; reflexivity].
    destruct (result_timestamp bad); cbn [index]; [discriminate | eexists; reflexivity].
  - unfold has_all_keys in K. cbn [app for_each].
    destruct (result_summary result); [| discriminate].
    destruct (result_source result); [| discriminate].
    destruct (result_timestamp result); [| discriminate].
    first_finding c.
    destruct (IH (with_memory (memory c ++ [mkMemoryItem "research_result" None None]) c))
      as [key ->].
    exists key. cbn [memory with_memory length List.repeat].
    rewrite <- app_assoc. reflexivity.
Qed.

(** X28. A research pass stores its findings one by one, and what is
    stored stays stored.  When every result has the keys [summary],
    [source] and [timestamp], the pass adds one [research_result] item per
    result and then the [research_summary] item, and moves to REASONING.
    When a result lacks one of the keys, the pass ends in ERROR with the
    items of the results before it in memory, and neither the later results
    nor the summary are stored. *)
Theorem research_pass_stores_findings_one_by_one
    (w : World) (c : AgentController) (results : list ResearchResult) :
  state c = RESEARCHING ->
  research_results w = Ok results ->
  let finding := mkMemoryItem "research_result" None None in
  (Forall (fun result => has_all_keys result = true) results ->
   _process_current_state w c
   = (with_state REASONING
        (with_memory
           (memory c ++ List.repeat finding (length results)
              ++ [mkMemoryItem "research_summary" None None]) c),
      Ok tt)) /\
  (forall pre bad post,
     results = pre ++ bad :: post ->
     Forall (fun result => has_all_keys result = true) pre ->
     has_all_keys bad = false ->
     _process_current_state w c
     = (with_state ERROR
          (with_memory (memory c ++ List.repeat finding (length pre)) c),
        Ok tt)).
Proof.
  intros S R. cbv zeta. unfold _process_current_state. rewrite S.
  unfold _handle_research_state, try_except, research_tasks. rewrite R.
  split.
  - intros Complete.
    unfold mbind at 1, Action_bind at 1, lift at 1. cbv beta iota.
    unfold mbind at 1, Action_bind at 1.
    rewrite (research_loop_complete results Complete).
    unfold mbind, Action_bind, memory_add, set_state. cbv beta iota.
    cbn [memory with_memory]. rewrite <- app_assoc. reflexivity.
  - intros pre bad post -> Hpre Hbad.
    unfold mbind at 1, Action_bind at 1, lift at 1. cbv beta iota.
    unfold mbind at 1, Action_bind at 1.
    destruct (research_loop_stops pre post bad Hpre Hbad c) as [key E].
    rewrite E. reflexivity.
Qed.

Lemma research_pass_stores_findings_one_by_one_witness :
  _process_current_state
    (research_world [complete_result; result_without_source; complete_result])
    sample_controller
  = (with_state ERROR
       (with_memory
          (memory sample_controller
             ++ List.repeat (mkMemoryItem "research_result" None None)
                  (length [complete_result])) sample_controller),
     Ok tt).
Proof.
  apply (proj2 (research_pass_stores_findings_one_by_one
                  (research_world [complete_result; result_without_source; complete_result])
                  sample_controller
                  [complete_result; result_without_source; complete_result]
                  eq_refl eq_refl)
           [complete_result] result_without_source [complete_result]).
  - reflexivity.
  - repeat constructor.
  - reflexivity.
Defined.

End ResearchPass.

(* ================================================================= *)
(** ** From the reasoning module to the risk validation *)

Section ProposedToValidated.
Import RiskManagement.

Lemma clamp_of_clamped (x lo hi : Q) :
  lo <= hi ->
  pymax lo (pymin (pymax lo (pymin x hi)) hi) == pymax lo (pymin x hi).
Proof.
  intros Le. destruct (clamp_bounds x lo hi Le) as [L U].
  set (s := pymax lo (pymin x hi)) in *.
  rewrite pymax_Qmax, pymin_Qmin.
  assert (M : Qmin s hi == s) by (apply Q.min_l; exact U).
  rewrite M. apply Q.max_r. exact L.
Qed.

(** X29. The two modules agree on a bet: a bet that
    [make_betting_decision] proposes, stored by the controller and read back
    for the risk assessment, passes [validate_betting_decision] under the
    same betting configuration unchanged - approved, with the stake the
    reasoning module gave it, no note, and that stake recorded as
    [original_bet_size] - provided [min_bet <= max_bet] and neither daily
    limit is reached. *)
Theorem proposed_bet_passes_validation_unchanged
    (cfg : BettingConfig) (ev : Reasoning.EvCalculation) (today : DailyRecords) :
  let d := Reasoning.make_betting_decision cfg ev in
  let incoming := Controller.decision_of_item (item_of_decision d) in
  Reasoning.should_bet d = true ->
  Reasoning.min_bet cfg <= Reasoning.max_bet cfg ->
  _check_daily_bet_limit (init cfg) today = true ->
  _check_daily_loss_limit (init cfg) today = true ->
  validate_betting_decision (init cfg) today incoming
  = Ok (set_original_bet_size (Some (Reasoning.bet_size d)) incoming).
Proof.
  cbv zeta. intros S Le Cb Cl.
  set (d := Reasoning.make_betting_decision cfg ev) in *.
  assert (Facts : Reasoning.min_ev_threshold cfg < Reasoning.expected_value d /\
                  exists x, Reasoning.bet_size d
                            = pymax (Reasoning.min_bet cfg)
                                    (pymin x (Reasoning.max_bet cfg))).
  { subst d. destruct (make_betting_decision_cases cfg ev)
      as [_ Gt _ _ E B | _ Gt _ _ E B | _ _ S' _ _ _ _].
    - rewrite E, B. split; [exact Gt | eexists; reflexivity].
    - rewrite E, B. split; [exact Gt | eexists; reflexivity].
    - congruence. }
  destruct Facts as [Thr [x B]].
  unfold validate_betting_decision.
  cbn [Controller.decision_of_item item_of_decision should_bet expected_value bet_size
       Controller.item_expected_value Controller.item_bet_size negb number mbind Exc_bind].
  change (min_ev_threshold (init cfg)) with (Reasoning.min_ev_threshold cfg).
  change (min_bet (init cfg)) with (Reasoning.min_bet cfg).
  change (max_bet (init cfg)) with (Reasoning.max_bet cfg).
  rewrite (proj2 (Qltb_false _ _)) by lra.
  assert (Same : Qeq_bool (pymax (Reasoning.min_bet cfg)
                             (pymin (Reasoning.bet_size d) (Reasoning.max_bet cfg)))
                          (Reasoning.bet_size d) = true).
  { apply Qeq_bool_iff. rewrite B at 1. rewrite clamp_of_clamped by exact Le.
    rewrite B. reflexivity. }
  rewrite Same, Cb, Cl. reflexivity.
Qed.

Lemma proposed_bet_passes_validation_unchanged_witness :
  exists ev,
    Reasoning.calculate_expected_value sample_comparison = Ok ev /\
    let d := Reasoning.make_betting_decision settings ev in
    let incoming := Controller.decision_of_item (item_of_decision d) in
    validate_betting_decision (init settings) quiet_day incoming
    = Ok (set_original_bet_size (Some (Reasoning.bet_size d)) incoming).
Proof.
  eexists. split; [vm_compute; reflexivity |].
  apply (proposed_bet_passes_validation_unchanged settings _ quiet_day).
  - vm_compute. reflexivity.
  - vm_compute. discriminate.
  - vm_compute. reflexivity.
  - vm_compute. reflexivity.
Defined.

End ProposedToValidated.
